(** * Box nesting system: geometry, nesting engine, layout service and
      production layout optimizer.

    A shallow embedding of the Python sources

      - backend/geometry/transformations.py
      - backend/geometry/polygons.py
      - backend/nesting/engine.py
      - backend/service/layout_service.py
      - frontend/ui/tile_tab.py (the production layout optimizer)

    Conventions of the embedding.

    - Python [float] values (centimetres, areas) are exact rationals [Q]:
      in the geometry, the engine and the optimizer the rounding of binary
      floating point is not modelled.  The layout service is the exception:
      it reports measures rounded to two decimals, where the rounding of
      the sums shows, so its arithmetic goes through the float operations
      of [FloatArithmetic].  [float('inf')] and [float('-inf')], which the
      code only uses as the neutral start of a running minimum or maximum,
      are an absent value ([None]).
    - Python [int] values are [Z]; [%] is [Z.modulo] and [//] is [Z.div]
      (both floor, as in Python, for the positive divisors of the code).
    - A raised exception is the [Raise] branch of [result]; [try/except]
      is a match on it.
    - Objects that are mutated in place (an [OrthoPoly] under [translate],
      the engine with its cache slots) live in an explicit store or state
      record. *)

From Stdlib Require Import ZArith QArith Qminmax Qabs Qround Lqa Lia List String.
From stdpp Require Import base option gmap list.
Import ListNotations.

Open Scope Z_scope.
Open Scope Q_scope.

(** ** Exceptions and results *)

Inductive exn : Type :=
| ValueError (msg : string)
| ZeroDivisionError (msg : string)
| OtherException (msg : string).

(** [str(exc)]: the message carried by the exception. *)
Definition exn_str (e : exn) : string :=
  match e with
  | ValueError m | ZeroDivisionError m | OtherException m => m
  end.

Definition is_ValueError (e : exn) : bool :=
  match e with ValueError _ => true | _ => false end.

Inductive result (A : Type) : Type :=
| Ok (a : A)
| Raise (e : exn).
Arguments Ok {A} a.
Arguments Raise {A} e.

#[global] Instance result_ret : MRet result := fun A a => Ok a.

#[global] Instance result_bind : MBind result := fun A B k r =>
  match r with
  | Ok a => k a
  | Raise e => Raise e
  end.

Definition is_ok {A} (r : result A) : bool :=
  match r with Ok _ => true | Raise _ => false end.

(** ** Comparisons and the built-ins [min], [max], [range] *)

(** [x < y] on floats. *)
Definition Qltb (x y : Q) : bool := negb (Qle_bool y x).

(** [min(a, b)] of two arguments: the first one unless the second is
    strictly smaller. *)
Definition py_min2 (a b : Q) : Q := if Qltb b a then b else a.

(** [max(a, b)] of two arguments: the first one unless the second is
    strictly larger. *)
Definition py_max2 (a b : Q) : Q := if Qltb a b then b else a.

(** [min(xs)] of a list: [ValueError] on the empty list. *)
Definition py_min (xs : list Q) : result Q :=
  match xs with
  | [] => Raise (ValueError "min() arg is an empty sequence")
  | x :: rest => Ok (fold_left py_min2 rest x)
  end.

Definition py_max (xs : list Q) : result Q :=
  match xs with
  | [] => Raise (ValueError "max() arg is an empty sequence")
  | x :: rest => Ok (fold_left py_max2 rest x)
  end.

(** [range(n)] and [range(a, b)]. *)
Definition py_range (n : Z) : list Z :=
  map Z.of_nat (seq 0 (Z.to_nat n)).

Definition py_range2 (a b : Z) : list Z :=
  map (fun i => (a + Z.of_nat i)%Z) (seq 0 (Z.to_nat (b - a))).

(** [math.ceil(a / b)] on integers; [ZeroDivisionError] when [b = 0]. *)
Definition ceil_div (a b : Z) : result Z :=
  if (b =? 0)%Z then Raise (ZeroDivisionError "division by zero")
  else Ok (- ((- a) / b))%Z.

(** The nearest integer, ties to the even one. *)
Definition round_half_even (q : Q) : Z :=
  let f := Qfloor q in
  let r := q - inject_Z f in
  if Qltb r (1 # 2) then f
  else if Qltb (1 # 2) r then (f + 1)%Z
  else if Z.even f then f else (f + 1)%Z.

(** ** Float arithmetic

    The operations of Python on floats that the layout service uses: [+],
    [-], [*] and [round(x, 2)].  Each takes floats and gives a float, which
    is not the exact rational in general.  They are the members of a class,
    so that what is proved of the service holds of whichever functions they
    are. *)
Class FloatArithmetic : Type := {
  float_add : Q -> Q -> Q;
  float_sub : Q -> Q -> Q;
  float_mul : Q -> Q -> Q;
  py_round2 : Q -> Q
}.

(** *** The floats of CPython: IEEE 754 binary64, round to nearest, ties to
    even.  Values beyond the largest double, which Python turns into
    [inf], are outside this model: the result stays finite. *)

(** [2 ** e]. *)
Definition Qpow2 (e : Z) : Q :=
  if (0 <=? e)%Z then inject_Z (2 ^ e) else 1 # Z.to_pos (2 ^ (- e)).

(** The exponent [e] with [2 ** e <= m < 2 ** (e + 1)], for [m > 0]. *)
Definition binade (m : Q) : Z :=
  let e := (Z.log2 (Qnum m) - Z.log2 (Zpos (Qden m)))%Z in
  if Qle_bool (Qpow2 e) m then e else (e - 1)%Z.

(** The double nearest to [q]: a multiple of the unit in the last of the 53
    bits of its binade, or of [2 ** -1074] below the normal range. *)
Definition nearest_double (q : Q) : Q :=
  if Qeq_bool q 0 then 0
  else
    let m := Qabs q in
    let ulp := Qpow2 (Z.max (binade m) (-1022) - 52) in
    let v := inject_Z (round_half_even (m / ulp)) * ulp in
    Qred (if Qltb q 0 then - v else v).

(** [round(x, 2)] of CPython: the value of the float is rounded to two
    decimals, ties to even, and the decimal is read back as a float. *)
Definition double_round2 (x : Q) : Q :=
  nearest_double (inject_Z (round_half_even (x * 100)) / 100).

Definition cpython_floats : FloatArithmetic :=
  {| float_add := fun a b => nearest_double (a + b);
     float_sub := fun a b => nearest_double (a - b);
     float_mul := fun a b => nearest_double (a * b);
     py_round2 := double_round2 |}.

(** ** backend/geometry/types.py *)

Definition Point : Type := Q * Q.
(** [(x, y, w, h)] in centimetres. *)
Definition RectCM : Type := Q * Q * Q * Q.
(** [(min_x, min_y, max_x, max_y)]. *)
Definition BoundingBox : Type := Q * Q * Q * Q.
Definition NamedRect : Type := string * RectCM.

Definition bbox_width (b : BoundingBox) : Q :=
  let '(minx, miny, maxx, maxy) := b in maxx - minx.
Definition bbox_height (b : BoundingBox) : Q :=
  let '(minx, miny, maxx, maxy) := b in maxy - miny.
Definition bbox_area (b : BoundingBox) : Q := bbox_width b * bbox_height b.

(** ** backend/geometry/transformations.py: point and rectangle rotation *)

Definition rotate_point_90cw (pt : Point) : Point :=
  let '(x, y) := pt in (y, - x).

Definition rotate_point_180 (pt : Point) : Point :=
  let '(x, y) := pt in (- x, - y).

Definition rotate_point_270cw (pt : Point) : Point :=
  let '(x, y) := pt in (- y, x).

Definition rotate_rect_generic (r : RectCM) (rot : Z) : result RectCM :=
  let '(x, y, w, h) := r in
  let corners := [(x, y); (x + w, y); (x + w, y + h); (x, y + h)] in
  let rot := (rot mod 360)%Z in
  rc ←
    (if (rot =? 0)%Z then Ok corners
     else if (rot =? 90)%Z then Ok (map rotate_point_90cw corners)
     else if (rot =? 180)%Z then Ok (map rotate_point_180 corners)
     else if (rot =? 270)%Z then Ok (map rotate_point_270cw corners)
     else Raise (ValueError "Rotation must be multiple of 90."));
  let xs := map fst rc in
  let ys := map snd rc in
  minx ← py_min xs;
  miny ← py_min ys;
  maxx ← py_max xs;
  maxy ← py_max ys;
  Ok (minx, miny, maxx - minx, maxy - miny).

(** ** backend/geometry/polygons.py: class OrthoPoly *)

Record OrthoPoly : Type := mkOrthoPoly {
  outer : list Point;
  holes : list (list Point)
}.

Definition aabb (self : OrthoPoly) : result BoundingBox :=
  let xs := map fst (outer self) in
  let ys := map snd (outer self) in
  minx ← py_min xs;
  miny ← py_min ys;
  maxx ← py_max xs;
  maxy ← py_max ys;
  Ok (minx, miny, maxx, maxy).

Definition translate_point (dx dy : Q) (p : Point) : Point :=
  let '(x, y) := p in (x + dx, y + dy).

(** The values [translate] assigns to [self.outer] and [self.holes]. *)
Definition translate (self : OrthoPoly) (dx dy : Q) : OrthoPoly :=
  {| outer := map (translate_point dx dy) (outer self);
     holes := map (map (translate_point dx dy)) (holes self) |}.

Definition rotated_copy (self : OrthoPoly) (rot : Z) : result OrthoPoly :=
  let rot := (rot mod 360)%Z in
  if (rot =? 0)%Z then Ok (mkOrthoPoly (outer self) (holes self))
  else if (rot =? 90)%Z then
    Ok (mkOrthoPoly (map rotate_point_90cw (outer self))
                    (map (map rotate_point_90cw) (holes self)))
  else if (rot =? 180)%Z then
    Ok (mkOrthoPoly (map rotate_point_180 (outer self))
                    (map (map rotate_point_180) (holes self)))
  else if (rot =? 270)%Z then
    Ok (mkOrthoPoly (map rotate_point_270cw (outer self))
                    (map (map rotate_point_270cw) (holes self)))
  else Raise (ValueError "Rotation must be multiple of 90 degrees").

(** *** The object store

    [translate] returns [None] and rebinds the attributes of [self];
    [rotated_copy] builds a new object.  Polygon objects therefore live in
    a store indexed by object identity, a natural number. *)


Definition fresh_id (h : gmap nat OrthoPoly) : nat :=
  fresh (dom h).

(** [self.translate(dx, dy)]: no return value, [self] updated in place. *)
Definition obj_translate (self : nat) (dx dy : Q) (h : gmap nat OrthoPoly)
  : option (unit * gmap nat OrthoPoly) :=
  match h !! self with
  | Some p => Some (tt, <[self := translate p dx dy]> h)
  | None => None
  end.

(** [self.rotated_copy(rot)]: a new object, or the exception. *)
Definition obj_rotated_copy (self : nat) (rot : Z) (h : gmap nat OrthoPoly)
  : option (result (nat * gmap nat OrthoPoly)) :=
  match h !! self with
  | Some p =>
      Some (q ← rotated_copy p rot;
            let l := fresh_id h in
            Ok (l, <[l := q]> h))
  | None => None
  end.

(** ** backend/geometry/transformations.py: area and alignment *)

Definition vertex (vertices : list Point) (i : nat) : Point :=
  nth i vertices (0, 0).

(** One iteration of the shoelace loop of [polygon_area]. *)
Definition shoelace_step (vertices : list Point) (n : nat) (area : Q) (i : nat) : Q :=
  let j := ((i + 1) mod n)%nat in
  let area := area + fst (vertex vertices i) * snd (vertex vertices j) in
  area - fst (vertex vertices j) * snd (vertex vertices i).

Definition polygon_area (vertices : list Point) : Q :=
  let n := length vertices in
  Qabs (fold_left (shoelace_step vertices n) (seq 0 n) 0) / 2.

Definition calculate_polygon_area (poly : OrthoPoly) : Q :=
  fold_left (fun area hole => area - polygon_area hole)
            (holes poly) (polygon_area (outer poly)).

Definition rotate_and_align_top_left
    (poly : OrthoPoly) (rects : list NamedRect) (rot : Z)
  : result (OrthoPoly * list NamedRect) :=
  poly_r ← rotated_copy poly rot;
  '(minx, miny, maxx, maxy) ← aabb poly_r;
  let poly_r := translate poly_r (- minx) (- miny) in
  new_rects ←
    fold_left
      (fun acc nr =>
         new_rects ← acc;
         let '(name, r) := nr in
         '(rx, ry, rw, rh) ← rotate_rect_generic r rot;
         Ok (new_rects ++ [(name, (rx - minx, ry - miny, rw, rh))]))
      rects (Ok []);
  Ok (poly_r, new_rects).

(** ** Collaborators of the engine that are not part of the sources *)

(** Modelled from the spec: class [PlanoParams] of
    backend/models/parameters.py is missing; the spec (section 6) lists the
    box geometry it supplies: base length, width and height, the two side
    allowances and the four tab/flange arrays.  These are the attributes
    [_generate_cache_key] reads. *)
Module Params.
Record t : Type := mk {
  L : Q; A : Q; h : Q; cIzq : Q; cDer : Q;
  Tapas : list Q; CSup : list Q; Bases : list Q; CInf : list Q
}.
End Params.

(** The placement search of backend/nesting/algorithms.py (missing) is a
    parameter: any two functions of the signatures the engine calls.  A
    search may raise, and returns [None] when no placement exists.  The
    second-tile candidate is
    [(best_x, best_y, rot2, rects2T, poly2T, gwidth12, gheight12, garea12)],
    the third-tile candidate
    [(x3, y3, rects3T, poly3T, gwidth, gheight, garea)]. *)
Definition Candidate2 : Type :=
  Q * Q * Z * list NamedRect * OrthoPoly * Q * Q * Q.
Definition Candidate3 : Type :=
  Q * Q * list NamedRect * OrthoPoly * Q * Q * Q.

Class NestingAlgorithms : Type := {
  best_place_second_tile :
    OrthoPoly -> list NamedRect -> Q -> Q -> Q -> string ->
    result (option Candidate2);
  best_place_third_tile :
    OrthoPoly -> OrthoPoly -> list NamedRect -> list NamedRect -> Z ->
    Q -> Q -> Q -> string -> Params.t -> result (option Candidate3)
}.

(** [build_tile_orthopoly_and_edges_cm] goes through
    [rects_cm_from_params] and the pyclipper union of
    [OrthoPoly.from_rects_cm], and [DEFAULT_CONSTANTS.EPSILON] is defined in
    backend/utils/constants.py: all missing, taken as parameters. *)
Class GeometryBackend : Type := {
  build_tile_orthopoly_and_edges_cm :
    Params.t -> result (OrthoPoly * list NamedRect);
  EPSILON : Q
}.

(** ** backend/nesting/engine.py: cache key and cached pattern *)

(** One component of the cache key tuple. *)
Inductive key_part : Type :=
| KFloat (q : Q)
| KTuple (l : list Q)
| KStr (s : string).

Definition NestingCacheKey : Type := list key_part.

Fixpoint floats_eqb (l1 l2 : list Q) : bool :=
  match l1, l2 with
  | [], [] => true
  | a :: l1', b :: l2' => Qeq_bool a b && floats_eqb l1' l2'
  | _, _ => false
  end.

Definition key_part_eqb (a b : key_part) : bool :=
  match a, b with
  | KFloat x, KFloat y => Qeq_bool x y
  | KTuple l1, KTuple l2 => floats_eqb l1 l2
  | KStr s1, KStr s2 => String.eqb s1 s2
  | _, _ => false
  end.

(** [==] on key tuples: same length and pairwise equal components. *)
Fixpoint key_eqb (k1 k2 : list key_part) : bool :=
  match k1, k2 with
  | [], [] => true
  | a :: k1', b :: k2' => key_part_eqb a b && key_eqb k1' k2'
  | _, _ => false
  end.

(** The dictionary [pattern_data] built by [_store_nesting_result]. *)
Record PatternData : Type := mkPatternData {
  pd_poly1 : OrthoPoly;   pd_rects1 : list NamedRect;
  pd_poly2T : OrthoPoly;  pd_rects2T : list NamedRect;
  pd_poly3T : OrthoPoly;  pd_rects3T : list NamedRect;
  pd_dx2 : Q; pd_dy2 : Q; pd_dx3 : Q; pd_dy3 : Q;
  pd_rot1 : Z; pd_rot2 : Z;
  pd_paso_y : Q; pd_paso_x : Q; pd_clearance_cm : Q;
  pd_objective : string
}.

(** The dictionary returned by [calculate_optimal_nesting] after a full
    computation. *)
Record NestingResult : Type := mkNestingResult {
  nr_poly1 : OrthoPoly;   nr_rects1 : list NamedRect;
  nr_poly2T : OrthoPoly;  nr_rects2T : list NamedRect;
  nr_poly3T : OrthoPoly;  nr_rects3T : list NamedRect;
  nr_dx2 : Q; nr_dy2 : Q; nr_dx3 : Q; nr_dy3 : Q;
  nr_rot1 : Z; nr_rot2 : Z;
  nr_bounding_box : Q * Q * Q;
  nr_tiles_x : Z; nr_tiles_y : Z;
  nr_medianil_x : Q; nr_medianil_y : Q
}.

(** What [calculate_optimal_nesting] hands back: the cached dictionary on a
    cache hit, the freshly built one otherwise. *)
Inductive nesting_return : Type :=
| Cached (pd : PatternData)
| Computed (nr : NestingResult).

(** The motif: rotations and offsets of the three-tile unit, the keys the
    two dictionaries share. *)
Definition motif_of (r : nesting_return) : Z * Z * Q * Q * Q * Q :=
  match r with
  | Cached pd =>
      (pd_rot1 pd, pd_rot2 pd, pd_dx2 pd, pd_dy2 pd, pd_dx3 pd, pd_dy3 pd)
  | Computed nr =>
      (nr_rot1 nr, nr_rot2 nr, nr_dx2 nr, nr_dy2 nr, nr_dx3 nr, nr_dy3 nr)
  end.

(** Modelled from the spec: class [NestingCache] of
    backend/nesting/cache.py is missing.  Spec section 4.4: the cache keeps
    one most-recent pattern per objective, keyed by a cache key;
    [store(value, key)] replaces the slot; [is_valid(key)] is value equality
    against the stored key.  The engine reads the slot through the attribute
    [pattern_data].  The bounded LRU store and the hit counters of the same
    class are not used by the engine and are left out. *)
Record NestingCache : Type := mkNestingCache {
  pattern_data : option PatternData;
  stored_key : option (list key_part)
}.

(** Modelled from the spec: [NestingCache()], an empty slot. *)
Definition NestingCache_new : NestingCache :=
  {| pattern_data := None; stored_key := None |}.

(** Modelled from the spec: [store(value, key)] replaces the slot. *)
Definition NestingCache_store (value : PatternData) (key : list key_part)
    (c : NestingCache) : NestingCache :=
  {| pattern_data := Some value; stored_key := Some key |}.

(** Modelled from the spec: [is_valid(key)] is value equality against the
    stored key. *)
Definition NestingCache_is_valid (c : NestingCache) (key : list key_part) : bool :=
  match stored_key c with
  | Some k => key_eqb k key
  | None => false
  end.

(** ** backend/nesting/engine.py: class NestingEngine *)

Record NestingEngine : Type := mkNestingEngine {
  params : Params.t;
  nesting_cache_width : NestingCache;
  nesting_cache_height : NestingCache;
  last_cache_key_width : option (list key_part);
  last_cache_key_height : option (list key_part)
}.

(** [NestingEngine(params)]. *)
Definition NestingEngine_new (p : Params.t) : NestingEngine :=
  {| params := p;
     nesting_cache_width := NestingCache_new;
     nesting_cache_height := NestingCache_new;
     last_cache_key_width := None;
     last_cache_key_height := None |}.

Definition _generate_cache_key (self : NestingEngine)
    (paso_y paso_x clearance_cm : Q) (objective : string) : list key_part :=
  let p := params self in
  [ KFloat (Params.L p); KFloat (Params.A p); KFloat (Params.h p);
    KFloat (Params.cIzq p); KFloat (Params.cDer p);
    KTuple (Params.Tapas p);
    KTuple (Params.CSup p);
    KTuple (Params.Bases p);
    KTuple (Params.CInf p);
    KFloat paso_y; KFloat paso_x; KFloat clearance_cm; KStr objective ].

(** The engine together with a count of the calls made to the placement
    search ([best_place_second_tile] and [best_place_third_tile]). *)
Record World : Type := mkWorld {
  engine : NestingEngine;
  placement_calls : nat
}.

(** Engine methods: state passing with exceptions. *)
Definition Eng (A : Type) : Type := World -> result A * World.

#[global] Instance Eng_ret : MRet Eng := fun A a w => (Ok a, w).

#[global] Instance Eng_bind : MBind Eng := fun A B k m w =>
  match m w with
  | (Ok a, w') => k a w'
  | (Raise e, w') => (Raise e, w')
  end.

Definition get_engine : Eng NestingEngine := fun w => (Ok (engine w), w).

Definition put_engine (e : NestingEngine) : Eng unit :=
  fun w => (Ok tt, {| engine := e; placement_calls := placement_calls w |}).

(** A computation that does not touch the engine. *)
Definition lift_result {A} (r : result A) : Eng A := fun w => (r, w).

(** A call into the placement search. *)
Definition call_search {A} (r : result A) : Eng A :=
  fun w => (r, {| engine := engine w; placement_calls := S (placement_calls w) |}).

Section EngineMethods.
Context `{NestingAlgorithms} `{GeometryBackend}.

Definition _store_nesting_result
    (paso_y paso_x clearance_cm : Q) (objective : string)
    (poly1 : OrthoPoly) (rects1 : list NamedRect)
    (poly2T : OrthoPoly) (rects2T : list NamedRect)
    (poly3T : OrthoPoly) (rects3T : list NamedRect)
    (dx2 dy2 dx3 dy3 : Q) (rot1 rot2 : Z) : Eng unit :=
  self ← get_engine;
  let pattern_data :=
    {| pd_poly1 := mkOrthoPoly (outer poly1) (holes poly1);
       pd_rects1 := rects1;
       pd_poly2T := mkOrthoPoly (outer poly2T) (holes poly2T);
       pd_rects2T := rects2T;
       pd_poly3T := mkOrthoPoly (outer poly3T) (holes poly3T);
       pd_rects3T := rects3T;
       pd_dx2 := dx2; pd_dy2 := dy2; pd_dx3 := dx3; pd_dy3 := dy3;
       pd_rot1 := rot1; pd_rot2 := rot2;
       pd_paso_y := paso_y; pd_paso_x := paso_x;
       pd_clearance_cm := clearance_cm; pd_objective := objective |} in
  let cache_key :=
    _generate_cache_key self paso_y paso_x clearance_cm objective in
  if String.eqb objective "width" then
    put_engine
      {| params := params self;
         nesting_cache_width :=
           NestingCache_store pattern_data cache_key (nesting_cache_width self);
         nesting_cache_height := nesting_cache_height self;
         last_cache_key_width := Some cache_key;
         last_cache_key_height := last_cache_key_height self |}
  else
    put_engine
      {| params := params self;
         nesting_cache_width := nesting_cache_width self;
         nesting_cache_height :=
           NestingCache_store pattern_data cache_key (nesting_cache_height self);
         last_cache_key_width := last_cache_key_width self;
         last_cache_key_height := Some cache_key |}.

(** Returns the cached dictionary, or [None] where the code returns
    [False].  The test for the four metadata keys always passes on a
    dictionary built by [_store_nesting_result]. *)
Definition _render_from_cache
    (tiles_x tiles_y : Z) (medianil_x medianil_y : Q) (objective : string)
  : Eng (option PatternData) :=
  self ← get_engine;
  let cache :=
    if String.eqb objective "width" then nesting_cache_width self
    else nesting_cache_height self in
  match pattern_data cache with
  | None => mret None
  | Some pattern_data =>
      let current_key :=
        _generate_cache_key self
          (pd_paso_y pattern_data) (pd_paso_x pattern_data)
          (pd_clearance_cm pattern_data) (pd_objective pattern_data) in
      if negb (NestingCache_is_valid cache current_key) then mret None
      else mret (Some pattern_data)
  end.

(** The comparison key of the search loop; [None] is the initial
    [(inf, inf, inf)]. *)
Definition better (eps : Q) (key : Q * Q * Q) (global_key : option (Q * Q * Q)) : bool :=
  match global_key with
  | None => true
  | Some (g0, g1, g2) =>
      let '(k0, k1, k2) := key in
      if Qltb k0 (g0 - eps) then true
      else if Qle_bool (Qabs (k0 - g0)) eps then
        if Qltb k1 (g1 - eps) then true
        else if Qle_bool (Qabs (k1 - g1)) eps then
          if Qltb k2 (g2 - eps) then true else false
        else false
      else false
  end.

(** The tuple kept in [global_best]. *)
Definition GlobalBest : Type :=
  Z * OrthoPoly * list NamedRect *
  Q * Q * Z * list NamedRect * OrthoPoly *
  Q * Q * list NamedRect * OrthoPoly *
  Q * Q * Q.

(** Body of the loop [for rot1 in (90, 270)]. *)
Definition try_orientation
    (poly_base : OrthoPoly) (rects_base : list NamedRect)
    (paso_y paso_x clearance_cm : Q) (objective : string)
    (st : option GlobalBest * option (Q * Q * Q)) (rot1 : Z)
  : Eng (option GlobalBest * option (Q * Q * Q)) :=
  let '(global_best, global_key) := st in
  self ← get_engine;
  '(poly1, rects1) ← lift_result (rotate_and_align_top_left poly_base rects_base rot1);
  candidate_2tiles ← call_search
    (best_place_second_tile poly1 rects1 paso_y paso_x clearance_cm objective);
  match candidate_2tiles with
  | None => mret st
  | Some (best_x, best_y, rot2, rects2T, poly2T, gwidth12, gheight12, garea12) =>
      let poly2 := mkOrthoPoly (outer poly2T) (holes poly2T) in
      let poly2 := translate poly2 best_x best_y in
      candidate_3tiles ← call_search
        (best_place_third_tile poly1 poly2 rects1 rects2T rot1
           paso_y paso_x clearance_cm objective (params self));
      match candidate_3tiles with
      | None => mret st
      | Some (x3, y3, rects3T, poly3T, gwidth, gheight, garea) =>
          let key :=
            if String.eqb objective "width" then (gwidth, gheight, garea)
            else if String.eqb objective "height" then (gheight, gwidth, garea)
            else (garea, gwidth, gheight) in
          if better EPSILON key global_key then
            mret (Some (rot1, poly1, rects1,
                        best_x, best_y, rot2, rects2T, poly2T,
                        x3, y3, rects3T, poly3T,
                        gwidth, gheight, garea),
                  Some key)
          else mret st
      end
  end.

Fixpoint for_each {S X} (body : S -> X -> Eng S) (xs : list X) (s : S) : Eng S :=
  match xs with
  | [] => mret s
  | x :: rest => s' ← body s x; for_each body rest s'
  end.

Definition calculate_optimal_nesting
    (tiles_x tiles_y : Z)
    (paso_y paso_x clearance_cm medianil_x medianil_y : Q)
    (objective : string) (force_recalculate : bool)
  : Eng (option nesting_return) :=
  cached_data ←
    (if negb force_recalculate
     then _render_from_cache tiles_x tiles_y medianil_x medianil_y objective
     else mret None);
  match cached_data with
  | Some pattern_data => mret (Some (Cached pattern_data))
  | None =>
      self ← get_engine;
      '(poly_base, rects_base) ←
        lift_result (build_tile_orthopoly_and_edges_cm (params self));
      '(global_best, global_key) ←
        for_each
          (try_orientation poly_base rects_base paso_y paso_x clearance_cm objective)
          [90%Z; 270%Z] (None, None);
      match global_best with
      | None => mret None
      | Some (rot1, poly1, rects1,
              best_x, best_y, rot2, rects2T, poly2T,
              x3, y3, rects3T, poly3T,
              gwidth, gheight, garea) =>
          _ ← _store_nesting_result
                paso_y paso_x clearance_cm objective
                poly1 rects1 poly2T rects2T poly3T rects3T
                best_x best_y x3 y3 rot1 rot2;
          mret (Some (Computed
            {| nr_poly1 := poly1; nr_rects1 := rects1;
               nr_poly2T := poly2T; nr_rects2T := rects2T;
               nr_poly3T := poly3T; nr_rects3T := rects3T;
               nr_dx2 := best_x; nr_dy2 := best_y;
               nr_dx3 := x3; nr_dy3 := y3;
               nr_rot1 := rot1; nr_rot2 := rot2;
               nr_bounding_box := (gwidth, gheight, garea);
               nr_tiles_x := tiles_x; nr_tiles_y := tiles_y;
               nr_medianil_x := medianil_x; nr_medianil_y := medianil_y |}))
      end
  end.

(** *** calculate_global_bbox *)

(** Polygon and offsets of the tile in column [col] of a row. *)
Definition tile_placement (pattern_data : PatternData)
    (medianil_x row_offset_y : Q) (col : Z) : OrthoPoly * Q * Q :=
  let poly1 := pd_poly1 pattern_data in
  let poly2T := pd_poly2T pattern_data in
  let poly3T := pd_poly3T pattern_data in
  let dx2 := pd_dx2 pattern_data in
  let dy2 := pd_dy2 pattern_data in
  let dx3 := pd_dx3 pattern_data in
  let dy3 := pd_dy3 pattern_data in
  if (col =? 0)%Z then (poly1, 0, row_offset_y)
  else if (col =? 1)%Z then (poly2T, dx2 + medianil_x, dy2 + row_offset_y)
  else if (col =? 2)%Z then (poly3T, dx3 + 2 * medianil_x, dy3 + row_offset_y)
  else if (col mod 2 =? 1)%Z then
    let prev_tile_x :=
      dx3 * inject_Z ((col - 1) / 2) + inject_Z (col - 1) * medianil_x in
    let prev_tile_y := dy3 * inject_Z ((col - 1) / 2) in
    (poly2T, prev_tile_x + dx2 + medianil_x, prev_tile_y + dy2 + row_offset_y)
  else
    let prev_tile_x :=
      dx2 + dx3 * inject_Z ((col - 2) / 2) + inject_Z (col - 1) * medianil_x in
    let prev_tile_y := dy2 + dy3 * inject_Z ((col - 2) / 2) in
    (poly3T, prev_tile_x + (dx3 - dx2) + medianil_x,
     prev_tile_y + (dy3 - dy2) + row_offset_y).

(** The running global box; [None] is the initial
    [(inf, inf, -inf, -inf)]. *)
Definition update_global (g : option BoundingBox) (b : BoundingBox) : BoundingBox :=
  match g with
  | None => b
  | Some (global_minx, global_miny, global_maxx, global_maxy) =>
      let '(minx, miny, maxx, maxy) := b in
      (py_min2 global_minx minx, py_min2 global_miny miny,
       py_max2 global_maxx maxx, py_max2 global_maxy maxy)
  end.

(** Body of the inner loop [for col in range(tiles_x)]. *)
Definition bbox_col_step (pattern_data : PatternData)
    (medianil_x row_offset_y : Q)
    (acc : result (option BoundingBox)) (col : Z) : result (option BoundingBox) :=
  g ← acc;
  let '(current_poly, offset_x, offset_y) :=
    tile_placement pattern_data medianil_x row_offset_y col in
  '(minx, miny, maxx, maxy) ← aabb current_poly;
  Ok (Some (update_global g
              (minx + offset_x, miny + offset_y,
               maxx + offset_x, maxy + offset_y))).

(** Body of the outer loop [for row in range(tiles_y)]. *)
Definition bbox_row_step (pattern_data : PatternData)
    (tiles_x : Z) (medianil_x vertical_offset : Q)
    (acc : result (option BoundingBox)) (row : Z) : result (option BoundingBox) :=
  let row_offset_y := inject_Z row * vertical_offset in
  fold_left (bbox_col_step pattern_data medianil_x row_offset_y)
            (py_range tiles_x) acc.

(** The result is [None] when the loops place no tile: the code then
    returns the untouched [(inf, inf, -inf, -inf)]. *)
Definition calculate_global_bbox (self : NestingEngine)
    (tiles_x tiles_y : Z) (medianil_x medianil_y : Q) (objective : string)
  : result (option BoundingBox) :=
  let cache :=
    if String.eqb objective "width" then nesting_cache_width self
    else nesting_cache_height self in
  match pattern_data cache with
  | None =>
      '(poly_base, _) ← build_tile_orthopoly_and_edges_cm (params self);
      '(poly1, _) ← rotate_and_align_top_left poly_base [] 90;
      '(minx, miny, maxx, maxy) ← aabb poly1;
      Ok (Some (minx, miny, maxx, maxy))
  | Some pattern_data =>
      '(minx1, miny1, maxx1, maxy1) ← aabb (pd_poly1 pattern_data);
      let h1 := maxy1 - miny1 in
      let vertical_offset := h1 + medianil_y in
      fold_left (bbox_row_step pattern_data tiles_x medianil_x vertical_offset)
                (py_range tiles_y) (Ok None)
  end.

End EngineMethods.

(** ** backend/service/layout_service.py *)

Module LayoutRequest.
Record t : Type := mk {
  params : Params.t;
  tiles_x : Z;
  tiles_y : Z;
  medianil_x : Q;
  medianil_y : Q;
  paso_y : Q;
  paso_x : Q;
  clearance_cm : Q;
  sangria_izquierda : Q;
  sangria_derecha : Q;
  pinza : Q;
  contra_pinza : Q;
  objective : string
}.
End LayoutRequest.

(** The dictionary [layout_summary]. *)
Module LayoutSummary.
Record t : Type := mk {
  tiles_x : Z;
  tiles_y : Z;
  planilla : Z;
  medida_x_cm : Q;
  medida_y_cm : Q;
  area_cm2 : Q;
  objective : string
}.
End LayoutSummary.

(** [NonFinite] is the summary computed from the box
    [(inf, inf, -inf, -inf)], whose three measures are infinite. *)
Inductive layout_dict : Type :=
| Summary (s : LayoutSummary.t)
| NonFinite (tiles_x tiles_y planilla : Z) (objective : string).

Module LayoutResponse.
Record t : Type := mk {
  success : bool;
  layout : option layout_dict;
  message : option string
}.
End LayoutResponse.

(** The body of [optimize_layout], over the call it makes to the engine.
    The test [if not bbox] of the code never fires, a tuple of four numbers
    being true, and has no counterpart here.  The subtractions, the sums
    (from left to right) and the product are operations on floats, and the
    three measures are rounded with [round(., 2)]. *)
Definition optimize_layout_with `{FloatArithmetic}
    (engine_bbox : LayoutRequest.t -> result (option BoundingBox))
    (request : LayoutRequest.t) : LayoutResponse.t :=
  let attempt : result LayoutResponse.t :=
    if (LayoutRequest.tiles_x request <=? 0)%Z
       || (LayoutRequest.tiles_y request <=? 0)%Z
    then Ok (LayoutResponse.mk false None
               (Some "La cantidad de tiles debe ser mayor a 0 en ambos ejes."%string))
    else
      bbox ← engine_bbox request;
      match bbox with
      | Some (b0, b1, b2, b3) =>
          let medida_x := float_sub b2 b0 in
          let medida_y := float_sub b3 b1 in
          let medida_x_total :=
            float_add (float_add medida_x (LayoutRequest.sangria_izquierda request))
                      (LayoutRequest.sangria_derecha request) in
          let medida_y_total :=
            float_add (float_add medida_y (LayoutRequest.pinza request))
                      (LayoutRequest.contra_pinza request) in
          Ok (LayoutResponse.mk true
                (Some (Summary
                   {| LayoutSummary.tiles_x := LayoutRequest.tiles_x request;
                      LayoutSummary.tiles_y := LayoutRequest.tiles_y request;
                      LayoutSummary.planilla :=
                        (LayoutRequest.tiles_x request * LayoutRequest.tiles_y request)%Z;
                      LayoutSummary.medida_x_cm := py_round2 medida_x_total;
                      LayoutSummary.medida_y_cm := py_round2 medida_y_total;
                      LayoutSummary.area_cm2 :=
                        py_round2 (float_mul medida_x_total medida_y_total);
                      LayoutSummary.objective := LayoutRequest.objective request |}))
                None)
      | None =>
          Ok (LayoutResponse.mk true
                (Some (NonFinite
                   (LayoutRequest.tiles_x request)
                   (LayoutRequest.tiles_y request)
                   (LayoutRequest.tiles_x request * LayoutRequest.tiles_y request)%Z
                   (LayoutRequest.objective request)))
                None)
      end in
  match attempt with
  | Ok response => response
  | Raise exc => LayoutResponse.mk false None (Some (exn_str exc))
  end.

(** [engine = NestingEngine(request.params)] followed by
    [engine.calculate_global_bbox(...)]. *)
Definition service_engine_bbox `{GeometryBackend}
    (request : LayoutRequest.t) : result (option BoundingBox) :=
  let engine := NestingEngine_new (LayoutRequest.params request) in
  calculate_global_bbox engine
    (LayoutRequest.tiles_x request) (LayoutRequest.tiles_y request)
    (LayoutRequest.medianil_x request) (LayoutRequest.medianil_y request)
    (LayoutRequest.objective request).

Definition optimize_layout `{GeometryBackend} `{FloatArithmetic}
    (request : LayoutRequest.t) : LayoutResponse.t :=
  optimize_layout_with service_engine_bbox request.

(** ** frontend/ui/tile_tab.py: the production layout optimizer *)

(** The values of the spin boxes the optimizer reads. *)
Module TileTab.
Record t : Type := mk {
  sb_xmin : Q; sb_xmax : Q; sb_ymin : Q; sb_ymax : Q;
  sb_sangria_izquierda : Q; sb_sangria_derecha : Q;
  sb_pinza : Q; sb_contra_pinza : Q
}.
End TileTab.

(** [self.nesting_engine.calculate_global_bbox], as the optimizer sees it: a
    function of the tile counts, the two gaps and the objective that returns
    a box or raises.  The optimizer only asks for grids of at least one
    tile. *)
Class TabEngine : Type := {
  engine_global_bbox : Z -> Z -> Q -> Q -> string -> result BoundingBox
}.

(** The dictionary built by [_create_layout_result].  [razon] is a formatted
    sentence; its model keeps the numbers that are formatted into it. *)
Inductive Razon : Type :=
| RazonMinimo (tiros_con_min tiros_minimos : Z)
| RazonMaximo (tiros_con_max tiros_minimos : Z)
| RazonIntermedio (total_tiles_necesario : Z).

Module Layout.
Record t : Type := mk {
  tiles_x : Z;
  tiles_y : Z;
  total_tiles : Z;
  width_raw : Q;
  height_raw : Q;
  ancho : Q;
  alto : Q;
  area : Q;
  objective : string;
  planilla_tipo : string;
  razon : Razon;
  tiros_necesarios : Z
}.
End Layout.

(** The dictionary built by [_calculate_production_metrics]. *)
Module Metrics.
Record t : Type := mk {
  tiles_x_min : Z; tiles_y_min : Z; tiles_x_max : Z; tiles_y_max : Z;
  planos_min : Z; planos_max : Z;
  tiros_con_min : Z; tiros_con_max : Z;
  volumen : Z; tiros_minimos : Z
}.
End Metrics.

(** *** [while True] loops

    A loop body either goes round again, leaves the loop with [break], or
    leaves the function with [return].  The runner counts the iterations;
    the fuel bounds how many it may make. *)
Inductive loop_step (S R : Type) : Type :=
| Continue (s : S)
| Break (s : S)
| Return (r : R).
Arguments Continue {S R} s.
Arguments Break {S R} s.
Arguments Return {S R} r.

Inductive loop_outcome (S R : Type) : Type :=
| OutOfFuel
| Broke (s : S) (iterations : nat)
| Returned (r : R) (iterations : nat).
Arguments OutOfFuel {S R}.
Arguments Broke {S R} s iterations.
Arguments Returned {S R} r iterations.

Fixpoint while_true {S R} (fuel : nat) (body : S -> loop_step S R)
    (s : S) (done : nat) : loop_outcome S R :=
  match fuel with
  | O => OutOfFuel
  | Datatypes.S fuel' =>
      match body s with
      | Continue s' => while_true fuel' body s' (Datatypes.S done)
      | Break s' => Broke s' (Datatypes.S done)
      | Return r => Returned r (Datatypes.S done)
      end
  end.

(** A run of [_calculate_layout_bounds]: the value returned and the number
    of iterations each loop it entered has made. *)
Inductive bounds_run : Type :=
| BoundsOutOfFuel
| BoundsDone (r : option (Z * Z * Z * Z)) (iterations : list nat).

Section ProductionLayoutOptimizer.
Context `{TabEngine}.
Variable self : TileTab.t.

Definition _apply_margins_to_dims (medida_x medida_y : Q) : Q * Q :=
  let medida_x :=
    medida_x + (TileTab.sb_sangria_izquierda self + TileTab.sb_sangria_derecha self) in
  let medida_y :=
    medida_y + (TileTab.sb_pinza self + TileTab.sb_contra_pinza self) in
  (medida_x, medida_y).

Definition _read_bed_limits : result (Q * Q * Q * Q) :=
  let x_min := TileTab.sb_xmin self in
  let x_max := TileTab.sb_xmax self in
  let y_min := TileTab.sb_ymin self in
  let y_max := TileTab.sb_ymax self in
  if Qle_bool x_max x_min then
    Raise (ValueError "El valor de X max debe ser mayor que X min.")
  else if Qle_bool y_max y_min then
    Raise (ValueError "El valor de Y max debe ser mayor que Y min.")
  else Ok (x_min, x_max, y_min, y_max).

(** The four limits are optional arguments: when one of them is [None]
    all four are read from the spin boxes, and otherwise the limits
    passed are used as they are, without the check of
    [_read_bed_limits].  [_find_intermediate_layout] and
    [_create_layout_result] pass none; [_on_nesting_worker_success]
    passes the limits it has read with [_read_bed_limits] before.  The
    messages carry the formatted measures in the code. *)
Definition _ensure_layout_within_limits (medida_x medida_y : Q)
    (x_min x_max y_min y_max : option Q) : result unit :=
  '(x_min, x_max, y_min, y_max) ←
    match x_min, x_max, y_min, y_max with
    | Some x_min, Some x_max, Some y_min, Some y_max =>
        Ok (x_min, x_max, y_min, y_max)
    | _, _, _, _ => _read_bed_limits
    end;
  let eps := 1 # 1000000 in
  if Qltb medida_x (x_min - eps) || Qltb (x_max + eps) medida_x then
    Raise (ValueError "El ancho total queda fuera de los limites permitidos.")
  else if Qltb medida_y (y_min - eps) || Qltb (y_max + eps) medida_y then
    Raise (ValueError "El alto total queda fuera de los limites permitidos.")
  else Ok tt.

(** **** _calculate_layout_bounds *)

(** Loop "find minimum tiles_x". *)
Definition min_x_body (x_min_roland medianil_x medianil_y : Q) (objective : string)
    (tiles_x_min : Z) : loop_step Z (option (Z * Z * Z * Z)) :=
  match engine_global_bbox tiles_x_min 1 medianil_x medianil_y objective with
  | Raise e => Return None
  | Ok bbox =>
      let '(ancho_total, _) :=
        _apply_margins_to_dims (bbox_width bbox) (bbox_height bbox) in
      if Qle_bool x_min_roland ancho_total then Break tiles_x_min
      else
        let tiles_x_min := (tiles_x_min + 1)%Z in
        if (tiles_x_min >? 100)%Z then Return None
        else Continue tiles_x_min
  end.

(** Loop "find minimum tiles_y". *)
Definition min_y_body (y_min_roland medianil_x medianil_y : Q) (objective : string)
    (tiles_x_min : Z) (tiles_y_min : Z) : loop_step Z (option (Z * Z * Z * Z)) :=
  match engine_global_bbox tiles_x_min tiles_y_min medianil_x medianil_y objective with
  | Raise e => Return None
  | Ok bbox =>
      let '(_, alto_total) :=
        _apply_margins_to_dims (bbox_width bbox) (bbox_height bbox) in
      if Qle_bool y_min_roland alto_total then Break tiles_y_min
      else
        let tiles_y_min := (tiles_y_min + 1)%Z in
        if (tiles_y_min >? 100)%Z then Return None
        else Continue tiles_y_min
  end.

(** Loop "find maximum tiles_x". *)
Definition max_x_body (x_max_roland medianil_x medianil_y : Q) (objective : string)
    (tiles_x_max : Z) : loop_step Z (option (Z * Z * Z * Z)) :=
  match engine_global_bbox (tiles_x_max + 1) 1 medianil_x medianil_y objective with
  | Raise e => Return None
  | Ok bbox =>
      let '(ancho_total, _) :=
        _apply_margins_to_dims (bbox_width bbox) (bbox_height bbox) in
      if Qltb x_max_roland ancho_total then Break tiles_x_max
      else
        let tiles_x_max := (tiles_x_max + 1)%Z in
        if (tiles_x_max >? 100)%Z then Break tiles_x_max
        else Continue tiles_x_max
  end.

(** Loop "find maximum tiles_y". *)
Definition max_y_body (y_max_roland medianil_x medianil_y : Q) (objective : string)
    (tiles_x_max : Z) (tiles_y_max : Z) : loop_step Z (option (Z * Z * Z * Z)) :=
  match engine_global_bbox tiles_x_max (tiles_y_max + 1) medianil_x medianil_y objective with
  | Raise e => Return None
  | Ok bbox =>
      let '(_, alto_total) :=
        _apply_margins_to_dims (bbox_width bbox) (bbox_height bbox) in
      if Qltb y_max_roland alto_total then Break tiles_y_max
      else
        let tiles_y_max := (tiles_y_max + 1)%Z in
        if (tiles_y_max >? 100)%Z then Break tiles_y_max
        else Continue tiles_y_max
  end.

(** Every exception raised inside the [try] makes the function return
    [None]; the loop bodies above already turn a raising engine call into
    that return. *)
Definition _calculate_layout_bounds (fuel : nat) (objective : string)
    (x_min_roland x_max_roland y_min_roland y_max_roland : Q)
    (medianil_x medianil_y : Q) : bounds_run :=
  match while_true fuel
          (min_x_body x_min_roland medianil_x medianil_y objective) 1%Z 0 with
  | OutOfFuel => BoundsOutOfFuel
  | Returned r n1 => BoundsDone r [n1]
  | Broke tiles_x_min n1 =>
    match while_true fuel
            (min_y_body y_min_roland medianil_x medianil_y objective tiles_x_min)
            1%Z 0 with
    | OutOfFuel => BoundsOutOfFuel
    | Returned r n2 => BoundsDone r [n1; n2]
    | Broke tiles_y_min n2 =>
      match while_true fuel
              (max_x_body x_max_roland medianil_x medianil_y objective)
              tiles_x_min 0 with
      | OutOfFuel => BoundsOutOfFuel
      | Returned r n3 => BoundsDone r [n1; n2; n3]
      | Broke tiles_x_max n3 =>
        match while_true fuel
                (max_y_body y_max_roland medianil_x medianil_y objective tiles_x_max)
                tiles_y_min 0 with
        | OutOfFuel => BoundsOutOfFuel
        | Returned r n4 => BoundsDone r [n1; n2; n3; n4]
        | Broke tiles_y_max n4 =>
            BoundsDone (Some (tiles_x_min, tiles_y_min, tiles_x_max, tiles_y_max))
                       [n1; n2; n3; n4]
        end
      end
    end
  end.

(** **** _calculate_production_metrics *)

(** [max(1, math.ceil(volumen / planos)) if planos > 0 else 0]. *)
Definition tiros_con (volumen planos : Z) : Z :=
  if (planos >? 0)%Z then Z.max 1 (- ((- volumen) / planos))%Z else 0%Z.

Definition _calculate_production_metrics
    (tiles_x_min tiles_y_min tiles_x_max tiles_y_max volumen tiros_minimos : Z)
  : Metrics.t :=
  let planos_min := (tiles_x_min * tiles_y_min)%Z in
  let planos_max := (tiles_x_max * tiles_y_max)%Z in
  {| Metrics.tiles_x_min := tiles_x_min;
     Metrics.tiles_y_min := tiles_y_min;
     Metrics.tiles_x_max := tiles_x_max;
     Metrics.tiles_y_max := tiles_y_max;
     Metrics.planos_min := planos_min;
     Metrics.planos_max := planos_max;
     Metrics.tiros_con_min := tiros_con volumen planos_min;
     Metrics.tiros_con_max := tiros_con volumen planos_max;
     Metrics.volumen := volumen;
     Metrics.tiros_minimos := tiros_minimos |}.

(** **** _create_layout_result *)

Definition _create_layout_result (tiles_x tiles_y : Z) (medianil_x medianil_y : Q)
    (objective : string) (tipo_planilla : string) (razon : Razon)
    (volumen tiros_minimos : Z) : result Layout.t :=
  bbox ← engine_global_bbox tiles_x tiles_y medianil_x medianil_y objective;
  let ancho_raw := bbox_width bbox in
  let alto_raw := bbox_height bbox in
  let '(ancho, alto) := _apply_margins_to_dims ancho_raw alto_raw in
  _ ← _ensure_layout_within_limits ancho alto None None None None;
  let area := ancho * alto in
  let total_tiles := (tiles_x * tiles_y)%Z in
  c ← ceil_div volumen total_tiles;
  let tiros_necesarios := Z.max 1 c in
  Ok {| Layout.tiles_x := tiles_x;
        Layout.tiles_y := tiles_y;
        Layout.total_tiles := total_tiles;
        Layout.width_raw := ancho_raw;
        Layout.height_raw := alto_raw;
        Layout.ancho := ancho;
        Layout.alto := alto;
        Layout.area := area;
        Layout.objective := objective;
        Layout.planilla_tipo := tipo_planilla;
        Layout.razon := razon;
        Layout.tiros_necesarios := tiros_necesarios |}.

(** **** _find_intermediate_layout *)

(** An entry [(tx, ty, area_total, ancho_total, alto_total)] of
    [factores_posibles]. *)
Definition Factor : Type := Z * Z * Q * Q * Q.

Definition factor_area (f : Factor) : Q :=
  let '(tx, ty, area_total, ancho_total, alto_total) := f in area_total.

Definition factor_grid (f : Factor) : Z * Z :=
  let '(tx, ty, area_total, ancho_total, alto_total) := f in (tx, ty).

(** Body of the inner loop [for ty in range(tiles_y_min, tiles_y_max + 1)].
    Only the limit check sits inside the [try]: a [ValueError] it raises
    skips the candidate, an exception of the engine call propagates. *)
Definition intermediate_step (total_tiles_necesario : Z)
    (medianil_x medianil_y : Q) (objective : string) (tx : Z)
    (acc : result (list Factor)) (ty : Z) : result (list Factor) :=
  factores_posibles ← acc;
  if (tx * ty =? total_tiles_necesario)%Z then
    bbox ← engine_global_bbox tx ty medianil_x medianil_y objective;
    let ancho := bbox_width bbox in
    let alto := bbox_height bbox in
    let '(ancho_total, alto_total) := _apply_margins_to_dims ancho alto in
    match _ensure_layout_within_limits ancho_total alto_total
            None None None None with
    | Raise (ValueError _) => Ok factores_posibles
    | Raise e => Raise e
    | Ok _ =>
        let area_total := ancho_total * alto_total in
        Ok (factores_posibles ++ [(tx, ty, area_total, ancho_total, alto_total)])
    end
  else Ok factores_posibles.

(** [min(factores_posibles, key=lambda x: x[2])] on a non-empty list: the
    first entry of least area. *)
Definition min_by_area (first : Factor) (rest : list Factor) : Factor :=
  fold_left
    (fun best f => if Qltb (factor_area f) (factor_area best) then f else best)
    rest first.

Definition collect_factores
    (tiles_x_min tiles_y_min tiles_x_max tiles_y_max total_tiles_necesario : Z)
    (medianil_x medianil_y : Q) (objective : string) : result (list Factor) :=
  fold_left
    (fun acc tx =>
       fold_left
         (intermediate_step total_tiles_necesario medianil_x medianil_y objective tx)
         (py_range2 tiles_y_min (tiles_y_max + 1)) acc)
    (py_range2 tiles_x_min (tiles_x_max + 1)) (Ok []).

Definition _find_intermediate_layout
    (tiles_x_min tiles_y_min tiles_x_max tiles_y_max total_tiles_necesario : Z)
    (medianil_x medianil_y : Q) (objective : string) : result (option (Z * Z)) :=
  factores_posibles ←
    collect_factores tiles_x_min tiles_y_min tiles_x_max tiles_y_max
      total_tiles_necesario medianil_x medianil_y objective;
  match factores_posibles with
  | first :: rest =>
      let mejor_factor := min_by_area first rest in
      Ok (Some (factor_grid mejor_factor))
  | [] => Ok (Some (tiles_x_max, tiles_y_max))
  end.

(** **** _find_optimal_layout *)

Definition _find_optimal_layout (objective : string) (metrics : Metrics.t)
    (medianil_x medianil_y : Q) : result (option Layout.t) :=
  let tiles_x_min := Metrics.tiles_x_min metrics in
  let tiles_y_min := Metrics.tiles_y_min metrics in
  let tiles_x_max := Metrics.tiles_x_max metrics in
  let tiles_y_max := Metrics.tiles_y_max metrics in
  let tiros_con_min := Metrics.tiros_con_min metrics in
  let tiros_con_max := Metrics.tiros_con_max metrics in
  let tiros_minimos := Metrics.tiros_minimos metrics in
  let volumen := Metrics.volumen metrics in
  '(layout_optimo, razon_decision, tipo_planilla) ←
    (if (tiros_con_min <=? tiros_minimos)%Z then
       Ok (Some (tiles_x_min, tiles_y_min),
           RazonMinimo tiros_con_min tiros_minimos, "minima"%string)
     else if (tiros_con_max >=? tiros_minimos)%Z then
       Ok (Some (tiles_x_max, tiles_y_max),
           RazonMaximo tiros_con_max tiros_minimos, "maxima"%string)
     else
       total_tiles_necesario ← ceil_div volumen tiros_minimos;
       layout_optimo ←
         _find_intermediate_layout tiles_x_min tiles_y_min tiles_x_max tiles_y_max
           total_tiles_necesario medianil_x medianil_y objective;
       Ok (layout_optimo, RazonIntermedio total_tiles_necesario,
           "intermedia"%string));
  match layout_optimo with
  | Some (tiles_x, tiles_y) =>
      layout ← _create_layout_result tiles_x tiles_y medianil_x medianil_y
                 objective tipo_planilla razon_decision volumen tiros_minimos;
      Ok (Some layout)
  | None => Ok None
  end.

(** **** _calculate_layout_for_objective

    The outer [None] is a run of the bounds loops that exhausted its
    fuel; the [try/except] turns every exception into the result
    [None]. *)
Definition _calculate_layout_for_objective (fuel : nat) (objective : string)
    (x_min_roland x_max_roland y_min_roland y_max_roland : Q)
    (medianil_x medianil_y : Q) (volumen tiros_minimos : Z)
  : option (option Layout.t) :=
  match _calculate_layout_bounds fuel objective
          x_min_roland x_max_roland y_min_roland y_max_roland
          medianil_x medianil_y with
  | BoundsOutOfFuel => None
  | BoundsDone None _ => Some None
  | BoundsDone (Some (tiles_x_min, tiles_y_min, tiles_x_max, tiles_y_max)) _ =>
      let production_metrics :=
        _calculate_production_metrics
          tiles_x_min tiles_y_min tiles_x_max tiles_y_max volumen tiros_minimos in
      match _find_optimal_layout objective production_metrics medianil_x medianil_y with
      | Ok r => Some r
      | Raise e => Some None
      end
  end.

End ProductionLayoutOptimizer.

(** **** _compare_layouts *)

Definition _compare_layouts (layout_width layout_height : option Layout.t)
  : option Layout.t :=
  match layout_width, layout_height with
  | None, None => None
  | None, Some h => Some h
  | Some w, None => Some w
  | Some w, Some h =>
      if (Layout.total_tiles w >? Layout.total_tiles h)%Z then Some w
      else if (Layout.total_tiles h >? Layout.total_tiles w)%Z then Some h
      else if Qltb (Layout.area w) (Layout.area h) then Some w
      else Some h
  end.

(** ** Sample data

    The rectangle of the geometry tests. *)
Definition sample_rectangle : OrthoPoly :=
  {| outer := [(0, 0); (10, 0); (10, 5); (0, 5)]; holes := [] |}.

(** The two layouts of the comparison example: 4 tiles on area 100 for the
    width objective, 6 tiles on area 120 for the height objective. *)
Definition layout_width_4 : Layout.t :=
  {| Layout.tiles_x := 2; Layout.tiles_y := 2; Layout.total_tiles := 4;
     Layout.width_raw := 10; Layout.height_raw := 10;
     Layout.ancho := 10; Layout.alto := 10; Layout.area := 100;
     Layout.objective := "width"; Layout.planilla_tipo := "minima";
     Layout.razon := RazonMinimo 1 1; Layout.tiros_necesarios := 1 |}.

Definition layout_height_6 : Layout.t :=
  {| Layout.tiles_x := 3; Layout.tiles_y := 2; Layout.total_tiles := 6;
     Layout.width_raw := 12; Layout.height_raw := 10;
     Layout.ancho := 12; Layout.alto := 10; Layout.area := 120;
     Layout.objective := "height"; Layout.planilla_tipo := "minima";
     Layout.razon := RazonMinimo 1 1; Layout.tiros_necesarios := 1 |}.

(** A backend whose tile is the sample rectangle, a failing one, and the
    request of the layout service test. *)
Definition rectangle_backend : GeometryBackend :=
  {| build_tile_orthopoly_and_edges_cm := fun _ => Ok (sample_rectangle, []);
     EPSILON := 1 # 1000000000 |}.

Definition failing_backend : GeometryBackend :=
  {| build_tile_orthopoly_and_edges_cm :=
       fun _ => Raise (OtherException "clipper failure");
     EPSILON := 1 # 1000000000 |}.

Definition sample_params : Params.t :=
  {| Params.L := 20; Params.A := 15; Params.h := 10;
     Params.cIzq := 0; Params.cDer := 0;
     Params.Tapas := []; Params.CSup := []; Params.Bases := []; Params.CInf := [] |}.

Definition sample_request (tiles_x tiles_y : Z) : LayoutRequest.t :=
  {| LayoutRequest.params := sample_params;
     LayoutRequest.tiles_x := tiles_x;
     LayoutRequest.tiles_y := tiles_y;
     LayoutRequest.medianil_x := 0;
     LayoutRequest.medianil_y := 0;
     LayoutRequest.paso_y := 1 # 2;
     LayoutRequest.paso_x := 1 # 10;
     LayoutRequest.clearance_cm := 0;
     LayoutRequest.sangria_izquierda := 1;
     LayoutRequest.sangria_derecha := 1;
     LayoutRequest.pinza := 1 # 2;
     LayoutRequest.contra_pinza := 1 # 2;
     LayoutRequest.objective := "width" |}.

(** A 2 by 2 request with one margin only, on the left. *)
Definition margin_request (sangria_izquierda : Q) : LayoutRequest.t :=
  {| LayoutRequest.params := sample_params;
     LayoutRequest.tiles_x := 2;
     LayoutRequest.tiles_y := 2;
     LayoutRequest.medianil_x := 0;
     LayoutRequest.medianil_y := 0;
     LayoutRequest.paso_y := 1 # 2;
     LayoutRequest.paso_x := 1 # 10;
     LayoutRequest.clearance_cm := 0;
     LayoutRequest.sangria_izquierda := sangria_izquierda;
     LayoutRequest.sangria_derecha := 0;
     LayoutRequest.pinza := 0;
     LayoutRequest.contra_pinza := 0;
     LayoutRequest.objective := "width" |}.

(** The engine of the optimizer tests: the box grows linearly with the
    tile counts, [(0, 0, tiles_x * (10 + medianil_x), tiles_y * (5 + medianil_y))]. *)
Definition linear_engine : TabEngine :=
  {| engine_global_bbox := fun tiles_x tiles_y medianil_x medianil_y _ =>
       Ok (0, 0, inject_Z tiles_x * (10 + medianil_x),
                 inject_Z tiles_y * (5 + medianil_y)) |}.

(** A tab without margins and with the given bed limits. *)
Definition sample_tab (x_min x_max y_min y_max : Q) : TileTab.t :=
  {| TileTab.sb_xmin := x_min; TileTab.sb_xmax := x_max;
     TileTab.sb_ymin := y_min; TileTab.sb_ymax := y_max;
     TileTab.sb_sangria_izquierda := 0; TileTab.sb_sangria_derecha := 0;
     TileTab.sb_pinza := 0; TileTab.sb_contra_pinza := 0 |}.

(** An engine whose tiles are 1000 cm wide and 20 cm high. *)
Definition coarse_engine : TabEngine :=
  {| engine_global_bbox := fun tiles_x tiles_y _ _ _ =>
       Ok (0, 0, inject_Z tiles_x * 1000, inject_Z tiles_y * 20) |}.

(** A cached pattern of three upright 5 by 10 tiles placed side by side,
    and an engine whose width slot holds it. *)
Definition upright_tile : OrthoPoly :=
  {| outer := [(0, 0); (5, 0); (5, 10); (0, 10)]; holes := [] |}.

Definition sample_pattern : PatternData :=
  {| pd_poly1 := upright_tile; pd_rects1 := [];
     pd_poly2T := upright_tile; pd_rects2T := [];
     pd_poly3T := upright_tile; pd_rects3T := [];
     pd_dx2 := 5; pd_dy2 := 0; pd_dx3 := 10; pd_dy3 := 0;
     pd_rot1 := 90; pd_rot2 := 0;
     pd_paso_y := 1 # 2; pd_paso_x := 1 # 10; pd_clearance_cm := 0;
     pd_objective := "width" |}.

Definition sample_engine : NestingEngine :=
  {| params := sample_params;
     nesting_cache_width :=
       {| pattern_data := Some sample_pattern; stored_key := None |};
     nesting_cache_height := NestingCache_new;
     last_cache_key_width := None;
     last_cache_key_height := None |}.

(** A placement search that always puts the second tile 5 cm and the third
    tile 10 cm to the right of the base tile, and a fresh engine. *)
Definition side_by_side_search : NestingAlgorithms :=
  {| best_place_second_tile := fun _ _ _ _ _ _ =>
       Ok (Some (5, 0, 0%Z, [], upright_tile, 10, 10, 100));
     best_place_third_tile := fun _ _ _ _ _ _ _ _ _ _ =>
       Ok (Some (10, 0, [], upright_tile, 15, 10, 150)) |}.

Definition fresh_world : World :=
  {| engine := NestingEngine_new sample_params; placement_calls := 0 |}.

(** The square with a square hole of the area test. *)
Definition holed_square : OrthoPoly :=
  {| outer := [(0, 0); (10, 0); (10, 10); (0, 10)];
     holes := [[(2, 2); (8, 2); (8, 8); (2, 8)]] |}.

(** ** Vocabulary of the statements *)

Definition outcome_iterations {S R} (o : loop_outcome S R) : option nat :=
  match o with
  | OutOfFuel => None
  | Broke _ n | Returned _ n => Some n
  end.

(** A body that counts upwards and never continues beyond 100; [P] holds of
    every state it breaks with. *)
Definition counts_up {R} (body : Z -> loop_step Z R) (P : Z -> Prop) : Prop :=
  forall t, (1 <= t <= 100)%Z ->
    match body t with
    | Continue t' => t' = (t + 1)%Z /\ (t' <= 100)%Z
    | Break s => P s
    | Return _ => True
    end.

(** The number of iterations left before the counter passes 100. *)
Definition budget (t : Z) : nat := Z.to_nat (101 - t).

(** A body that fails to reach its target at every count up to 100 runs
    into the cap: it continues up to 100 and then returns [r]. *)
Definition always_short {R} (body : Z -> loop_step Z R) (r : R) : Prop :=
  forall t, (1 <= t <= 100)%Z ->
    body t = if (t + 1 >? 100)%Z then Return r else Continue (t + 1)%Z.

Definition in_range (t : Z) : Prop := (1 <= t <= 100)%Z.

Section BoundsVocabulary.
Context `{TabEngine}.
Variable self : TileTab.t.
Variables (objective : string) (medianil_x medianil_y : Q).

(** Every width up to 100 columns stays below the bed minimum. *)
Definition width_never_reached (x_min_roland : Q) : Prop :=
  forall t, (1 <= t <= 100)%Z ->
    exists bbox,
      engine_global_bbox t 1 medianil_x medianil_y objective = Ok bbox /\
      fst (_apply_margins_to_dims self (bbox_width bbox) (bbox_height bbox))
        < x_min_roland.

(** Every height up to 100 rows stays below the bed minimum. *)
Definition height_never_reached (y_min_roland : Q) (tiles_x_min : Z) : Prop :=
  forall t, (1 <= t <= 100)%Z ->
    exists bbox,
      engine_global_bbox tiles_x_min t medianil_x medianil_y objective = Ok bbox /\
      snd (_apply_margins_to_dims self (bbox_width bbox) (bbox_height bbox))
        < y_min_roland.
End BoundsVocabulary.

Section LayoutVocabulary.
Context `{TabEngine}.
Variable self : TileTab.t.
Variables (objective : string) (medianil_x medianil_y : Q).

(** The bed limits are well formed and the measures lie within them, up
    to the tolerance of one millionth. *)
Definition fits_bed (medida_x medida_y : Q) : Prop :=
  TileTab.sb_xmin self < TileTab.sb_xmax self /\
  TileTab.sb_ymin self < TileTab.sb_ymax self /\
  TileTab.sb_xmin self - (1 # 1000000) <= medida_x /\
  medida_x <= TileTab.sb_xmax self + (1 # 1000000) /\
  TileTab.sb_ymin self - (1 # 1000000) <= medida_y /\
  medida_y <= TileTab.sb_ymax self + (1 # 1000000).

(** The bounding box of the grid, margins added, has measures [w] and
    [h]. *)
Definition grid_measures (grid : Z * Z) (w h : Q) : Prop :=
  exists bbox,
    engine_global_bbox (fst grid) (snd grid) medianil_x medianil_y objective
      = Ok bbox /\
    w = bbox_width bbox
        + (TileTab.sb_sangria_izquierda self + TileTab.sb_sangria_derecha self) /\
    h = bbox_height bbox
        + (TileTab.sb_pinza self + TileTab.sb_contra_pinza self).

(** The margined bounding box of the grid lies within the bed limits. *)
Definition grid_fits (grid : Z * Z) : Prop :=
  exists w h, grid_measures grid w h /\ fits_bed w h.

(** The area of the margined bounding box of the grid. *)
Definition grid_area (grid : Z * Z) (a : Q) : Prop :=
  exists w h, grid_measures grid w h /\ a = w * h.

(** A grid between the bounds with exactly [required] tiles whose
    margined box lies within the bed limits. *)
Definition feasible
    (tiles_x_min tiles_y_min tiles_x_max tiles_y_max required : Z)
    (grid : Z * Z) : Prop :=
  (tiles_x_min <= fst grid <= tiles_x_max)%Z /\
  (tiles_y_min <= snd grid <= tiles_y_max)%Z /\
  (fst grid * snd grid = required)%Z /\
  grid_fits grid.

(** The entry of [factores_posibles] for a grid of [required] tiles whose
    margined box lies within the bed limits. *)
Definition candidate_entry (required : Z) (grid : Z * Z) (f : Factor) : Prop :=
  (fst grid * snd grid = required)%Z /\
  exists w h,
    grid_measures grid w h /\ fits_bed w h /\
    f = (fst grid, snd grid, w * h, w, h).

(** The engine answers every request for a box. *)
Definition engine_total : Prop :=
  forall tiles_x tiles_y,
    exists bbox,
      engine_global_bbox tiles_x tiles_y medianil_x medianil_y objective = Ok bbox.
End LayoutVocabulary.

(** [c] is [a / b] rounded up, for a positive [b]. *)
Definition is_ceil (a b c : Z) : Prop :=
  ((c - 1) * b < a <= c * b)%Z.

(** The box of the tile in row [row] and column [col] of the grid, when
    its polygon has one. *)
Definition tile_box (pattern_data : PatternData) (medianil_x vertical_offset : Q)
    (row col : Z) : BoundingBox :=
  let '(current_poly, offset_x, offset_y) :=
    tile_placement pattern_data medianil_x (inject_Z row * vertical_offset) col in
  match aabb current_poly with
  | Ok (minx, miny, maxx, maxy) =>
      (minx + offset_x, miny + offset_y, maxx + offset_x, maxy + offset_y)
  | Raise _ => (0, 0, 0, 0)
  end.

(** The polygon of the tile in row [row] and column [col] has a box. *)
Definition tile_ok (pattern_data : PatternData) (medianil_x vertical_offset : Q)
    (row col : Z) : Prop :=
  is_ok (aabb (fst (fst (tile_placement pattern_data medianil_x
                           (inject_Z row * vertical_offset) col)))) = true.

(** The boxes of all the tiles of a grid, row by row. *)
Definition grid_boxes (pattern_data : PatternData) (medianil_x vertical_offset : Q)
    (tiles_x tiles_y : Z) : list BoundingBox :=
  flat_map
    (fun row => map (tile_box pattern_data medianil_x vertical_offset row)
                    (py_range tiles_x))
    (py_range tiles_y).

Definition box_minx (b : BoundingBox) : Q := let '(a, _, _, _) := b in a.
Definition box_miny (b : BoundingBox) : Q := let '(_, a, _, _) := b in a.
Definition box_maxx (b : BoundingBox) : Q := let '(_, _, a, _) := b in a.
Definition box_maxy (b : BoundingBox) : Q := let '(_, _, _, a) := b in a.

(** [g] covers every box of [bs] and each of its sides is a side of one of
    them. *)
Definition hull (g : BoundingBox) (bs : list BoundingBox) : Prop :=
  (forall b, In b bs ->
     box_minx g <= box_minx b /\ box_miny g <= box_miny b /\
     box_maxx b <= box_maxx g /\ box_maxy b <= box_maxy g) /\
  (exists b, In b bs /\ box_minx g = box_minx b) /\
  (exists b, In b bs /\ box_miny g = box_miny b) /\
  (exists b, In b bs /\ box_maxx g = box_maxx b) /\
  (exists b, In b bs /\ box_maxy g = box_maxy b).

(** A box with its minimum corner below its maximum corner. *)
Definition proper_box (b : BoundingBox) : Prop :=
  box_minx b <= box_maxx b /\ box_miny b <= box_maxy b.

(** The three polygons of the pattern have points. *)
Definition pattern_has_points (pattern_data : PatternData) : Prop :=
  outer (pd_poly1 pattern_data) <> [] /\
  outer (pd_poly2T pattern_data) <> [] /\
  outer (pd_poly3T pattern_data) <> [].

(** The cache slot that serves an objective. *)
Definition cache_of (self : NestingEngine) (objective : string) : NestingCache :=
  if String.eqb objective "width" then nesting_cache_width self
  else nesting_cache_height self.

(** ** Vocabulary of the further properties *)

(** A named rectangle of the aligned list: the rotated rectangle of the
    same name, moved by the minimum corner [(minx, miny)] of the rotated
    polygon. *)
Definition aligned_rect (rot : Z) (minx miny : Q) (nr nr' : NamedRect) : Prop :=
  fst nr' = fst nr /\
  exists x y w h,
    rotate_rect_generic (snd nr) rot = Ok (x, y, w, h) /\
    snd nr' = (x - minx, y - miny, w, h).

(** The body of the loop of [rotate_and_align_top_left] over the named
    rectangles. *)
Definition align_step (rot : Z) (minx miny : Q)
    (acc : result (list NamedRect)) (nr : NamedRect) : result (list NamedRect) :=
  new_rects ← acc;
  let '(name, r) := nr in
  '(rx, ry, rw, rh) ← rotate_rect_generic r rot;
  Ok (new_rects ++ [(name, (rx - minx, ry - miny, rw, rh))]).

(** The point map [rotated_copy] applies for a reduced angle. *)
Definition turn (r : Z) (pt : Point) : Point :=
  if (r =? 90)%Z then rotate_point_90cw pt
  else if (r =? 180)%Z then rotate_point_180 pt
  else if (r =? 270)%Z then rotate_point_270cw pt
  else pt.





(** The orientation, polygon and rectangles of the base tile kept in
    [global_best]. *)
Definition best_orientation (b : GlobalBest) : Z * OrthoPoly * list NamedRect :=
  let '(rot1, poly1, rects1, _, _, _, _, _, _, _, _, _, _, _, _) := b in
  (rot1, poly1, rects1).

(** The base tile kept in [global_best] is the tile of the parameters,
    turned by one of the angles tried and aligned to the origin. *)
Definition aligned_best (poly_base : OrthoPoly) (rects_base : list NamedRect)
    (tried : list Z) (global_best : option GlobalBest) : Prop :=
  match global_best with
  | None => True
  | Some b =>
      let '(rot1, poly1, rects1) := best_orientation b in
      In rot1 tried /\
      rotate_and_align_top_left poly_base rects_base rot1 = Ok (poly1, rects1)
  end.

(** The three measures reported in a response, when it carries a summary. *)
Definition layout_measures (response : LayoutResponse.t) : option (Q * Q * Q) :=
  match LayoutResponse.layout response with
  | Some (Summary s) =>
      Some (LayoutSummary.medida_x_cm s, LayoutSummary.medida_y_cm s,
            LayoutSummary.area_cm2 s)
  | _ => None
  end.

(** ** frontend/ui/tile_tab.py: shots for a sheet

    [_compute_tiros(planilla)], over the values the two spin boxes return
    through [get_volumen()] and [get_tiros_minimos()]. *)
Definition _compute_tiros (get_volumen get_tiros_minimos planilla : Z) : Z :=
  if (planilla <=? 0)%Z then 0%Z
  else
    let volumen := Z.max 0 get_volumen in
    let tiros :=
      if (volumen >? 0)%Z then (- ((- volumen) / planilla))%Z else 0%Z in
    Z.max tiros get_tiros_minimos.


(** ** frontend/ui/tile_tab.py: generation of the cached pattern

    The part of the tab that [_generate_cache_for_objective] reads and
    writes: the box parameters, the three spin boxes of the search, the
    nesting engine with its counter of search calls, and the dictionary
    [_cache_signatures].  A signature is a tuple, so an entry that is
    missing and an entry that is [None] compare unequal to it alike, and
    both are an absent key here. *)
Record TabCacheState : Type := mkTabCacheState {
  tab_params : Params.t;
  sb_paso_y : Q;
  sb_paso_x : Q;
  sb_clearance : Q;
  nesting_engine : World;
  _cache_signatures : gmap string (list key_part)
}.

Definition _build_cache_signature (self : TabCacheState)
    (medianil_x medianil_y paso_y paso_x clearance : Q) : list key_part :=
  let p := tab_params self in
  [ KFloat (Params.L p); KFloat (Params.A p); KFloat (Params.h p);
    KFloat (Params.cIzq p); KFloat (Params.cDer p);
    KTuple (Params.Tapas p);
    KTuple (Params.CSup p);
    KTuple (Params.Bases p);
    KTuple (Params.CInf p);
    KFloat medianil_x; KFloat medianil_y;
    KFloat paso_y; KFloat paso_x; KFloat clearance ].

(** The test [cache_is_current]. *)
Definition cache_is_current (self : TabCacheState) (objective : string)
    (signature : list key_part) : bool :=
  let cache_obj :=
    if String.eqb objective "width"
    then nesting_cache_width (engine (nesting_engine self))
    else nesting_cache_height (engine (nesting_engine self)) in
  match pattern_data cache_obj with
  | Some _ =>
      match _cache_signatures self !! objective with
      | Some stored => key_eqb stored signature
      | None => false
      end
  | None => false
  end.

(** Returns nothing: the new state of the tab.  Every exception is caught
    and logged. *)
Definition _generate_cache_for_objective `{NestingAlgorithms} `{GeometryBackend}
    (self : TabCacheState) (objective : string) (tiles_x_base tiles_y_base : Z)
    (medianil_x medianil_y : Q) : TabCacheState :=
  let paso_y := sb_paso_y self in
  let paso_x := sb_paso_x self in
  let clearance := sb_clearance self in
  let signature :=
    _build_cache_signature self medianil_x medianil_y paso_y paso_x clearance in
  if cache_is_current self objective signature then self
  else
    let '(result, w) :=
      calculate_optimal_nesting tiles_x_base tiles_y_base paso_y paso_x clearance
        medianil_x medianil_y objective true (nesting_engine self) in
    match result with
    | Ok (Some _) =>
        {| tab_params := tab_params self;
           sb_paso_y := sb_paso_y self; sb_paso_x := sb_paso_x self;
           sb_clearance := sb_clearance self;
           nesting_engine := w;
           _cache_signatures := <[objective := signature]> (_cache_signatures self) |}
    | Ok None | Raise _ =>
        {| tab_params := tab_params self;
           sb_paso_y := sb_paso_y self; sb_paso_x := sb_paso_x self;
           sb_clearance := sb_clearance self;
           nesting_engine := w;
           _cache_signatures := _cache_signatures self |}
    end.

(** A tab over a new engine, with the default steps and no signature. *)
Definition fresh_tab : TabCacheState :=
  {| tab_params := sample_params;
     sb_paso_y := 1 # 2; sb_paso_x := 1 # 10; sb_clearance := 0;
     nesting_engine := fresh_world;
     _cache_signatures := ∅ |}.

(** Two lists of floats with equal values, and two boxes with equal
    geometry. *)
Definition same_floats (l l' : list Q) : Prop := Forall2 Qeq l l'.

Definition same_box (p p' : Params.t) : Prop :=
  Params.L p == Params.L p' /\ Params.A p == Params.A p' /\
  Params.h p == Params.h p' /\
  Params.cIzq p == Params.cIzq p' /\ Params.cDer p == Params.cDer p' /\
  same_floats (Params.Tapas p) (Params.Tapas p') /\
  same_floats (Params.CSup p) (Params.CSup p') /\
  same_floats (Params.Bases p) (Params.Bases p') /\
  same_floats (Params.CInf p) (Params.CInf p').

(** The measures lie within the four limits, up to the tolerance of one
    millionth. *)
Definition within_limits (x_min x_max y_min y_max medida_x medida_y : Q) : Prop :=
  x_min - (1 # 1000000) <= medida_x /\ medida_x <= x_max + (1 # 1000000) /\
  y_min - (1 # 1000000) <= medida_y /\ medida_y <= y_max + (1 # 1000000).

(** * Properties *)

(** ** Comparisons on rationals *)

Lemma Qltb_lt (x y : Q) : Qltb x y = true <-> x < y.
Proof.
  unfold Qltb. rewrite negb_true_iff, <- not_true_iff_false, Qle_bool_iff.
  split; intros Hxy; [now apply Qnot_le_lt | now apply Qlt_not_le].
Qed.

Lemma Qltb_ge (x y : Q) : Qltb x y = false <-> y <= x.
Proof.
  unfold Qltb. rewrite negb_false_iff. apply Qle_bool_iff.
Qed.

Lemma Qltb_opp (x y : Q) : Qltb (- x) (- y) = Qltb y x.
Proof.
  destruct (Qltb y x) eqn:E.
  - apply Qltb_lt in E. apply Qltb_lt. lra.
  - apply Qltb_ge in E. apply Qltb_ge. lra.
Qed.

Lemma Qopp_opp_eq (x : Q) : - - x = x.
Proof. destruct x as [n d]. unfold Qopp. simpl. now rewrite Z.opp_involutive. Qed.

Lemma py_min2_opp (a b : Q) : py_min2 (- a) (- b) = - py_max2 a b.
Proof. unfold py_min2, py_max2. rewrite Qltb_opp. now destruct (Qltb a b). Qed.

Lemma py_max2_opp (a b : Q) : py_max2 (- a) (- b) = - py_min2 a b.
Proof. unfold py_min2, py_max2. rewrite Qltb_opp. now destruct (Qltb b a). Qed.

Lemma fold_min_opp (l : list Q) (x : Q) :
  fold_left py_min2 (map Qopp l) (- x) = - fold_left py_max2 l x.
Proof.
  revert x. induction l as [|y l IH]; intros x; simpl; [reflexivity|].
  rewrite py_min2_opp. apply IH.
Qed.

Lemma fold_max_opp (l : list Q) (x : Q) :
  fold_left py_max2 (map Qopp l) (- x) = - fold_left py_min2 l x.
Proof.
  revert x. induction l as [|y l IH]; intros x; simpl; [reflexivity|].
  rewrite py_max2_opp. apply IH.
Qed.

(** ** Rotation angles *)

Lemma mod_360_cases (rot : Z) :
  ((rot mod 90 = 0 /\
    (rot mod 360 = 0 \/ rot mod 360 = 90 \/ rot mod 360 = 180 \/ rot mod 360 = 270))
   \/
   (rot mod 90 <> 0 /\
    rot mod 360 <> 0 /\ rot mod 360 <> 90 /\ rot mod 360 <> 180 /\ rot mod 360 <> 270))%Z.
Proof. Z.div_mod_to_equations. lia. Qed.

Lemma rotated_copy_mod (p : OrthoPoly) (rot : Z) :
  rotated_copy p rot = rotated_copy p (rot mod 360).
Proof. unfold rotated_copy. now rewrite Z.mod_mod. Qed.

Lemma rotate_rect_generic_mod (r : RectCM) (rot : Z) :
  rotate_rect_generic r rot = rotate_rect_generic r (rot mod 360).
Proof.
  destruct r as [[[x y] w] h]. unfold rotate_rect_generic.
  now rewrite Z.mod_mod.
Qed.

Lemma rotated_copy_rejects (p : OrthoPoly) (rot : Z) :
  (rot mod 90 <> 0)%Z ->
  rotated_copy p rot = Raise (ValueError "Rotation must be multiple of 90 degrees").
Proof.
  intros Hrot. unfold rotated_copy.
  destruct (mod_360_cases rot) as [[H0 _]|[_ (H0 & H1 & H2 & H3)]]; [contradiction|].
  apply Z.eqb_neq in H0, H1, H2, H3. now rewrite H0, H1, H2, H3.
Qed.

Lemma rotated_copy_accepts (p : OrthoPoly) (rot : Z) :
  (rot mod 90 = 0)%Z -> is_ok (rotated_copy p rot) = true.
Proof.
  intros Hrot. unfold rotated_copy.
  destruct (mod_360_cases rot) as [[_ H0]|[H0 _]]; [|contradiction].
  destruct H0 as [-> | [-> | [-> | ->]]]; reflexivity.
Qed.

Lemma rotate_rect_generic_rejects (r : RectCM) (rot : Z) :
  (rot mod 90 <> 0)%Z ->
  rotate_rect_generic r rot = Raise (ValueError "Rotation must be multiple of 90.").
Proof.
  intros Hrot. destruct r as [[[x y] w] h]. unfold rotate_rect_generic.
  destruct (mod_360_cases rot) as [[H0 _]|[_ (H0 & H1 & H2 & H3)]]; [contradiction|].
  apply Z.eqb_neq in H0, H1, H2, H3. now rewrite H0, H1, H2, H3.
Qed.

Lemma rotate_rect_generic_accepts (r : RectCM) (rot : Z) :
  (rot mod 90 = 0)%Z -> is_ok (rotate_rect_generic r rot) = true.
Proof.
  intros Hrot. destruct r as [[[x y] w] h]. unfold rotate_rect_generic.
  destruct (mod_360_cases rot) as [[_ H0]|[H0 _]]; [|contradiction].
  destruct H0 as [-> | [-> | [-> | ->]]]; reflexivity.
Qed.

(** ** Rotation of points and polygons (C6, C9) *)

(** C6.  A point [(x, y)] is sent to [(y, -x)] by the 90 degree clockwise
    rotation, to [(-x, -y)] by the 180 degree rotation and to [(-y, x)] by
    the 270 degree clockwise rotation; [rotated_copy] applies these maps to
    every point of the outer loop and of every hole; and every angle that
    is not a multiple of 90 degrees is rejected with a [ValueError] instead
    of producing a polygon. *)
Theorem rotation_closed_forms_and_rejection (x y : Q) (p : OrthoPoly) (rot : Z) :
  rotate_point_90cw (x, y) = (y, - x) /\
  rotate_point_180 (x, y) = (- x, - y) /\
  rotate_point_270cw (x, y) = (- y, x) /\
  rotated_copy p 90 =
    Ok {| outer := map (fun pt => (snd pt, - fst pt)) (outer p);
          holes := map (map (fun pt => (snd pt, - fst pt))) (holes p) |} /\
  rotated_copy p 180 =
    Ok {| outer := map (fun pt => (- fst pt, - snd pt)) (outer p);
          holes := map (map (fun pt => (- fst pt, - snd pt))) (holes p) |} /\
  rotated_copy p 270 =
    Ok {| outer := map (fun pt => (- snd pt, fst pt)) (outer p);
          holes := map (map (fun pt => (- snd pt, fst pt))) (holes p) |} /\
  ((rot mod 90 <> 0)%Z ->
   exists msg, rotated_copy p rot = Raise (ValueError msg)).
Proof.
  repeat split; try reflexivity.
  - unfold rotated_copy; simpl. f_equal. f_equal.
    + apply map_ext; now intros [a b].
    + apply map_ext; intros l; apply map_ext; now intros [a b].
  - unfold rotated_copy; simpl. f_equal. f_equal.
    + apply map_ext; now intros [a b].
    + apply map_ext; intros l; apply map_ext; now intros [a b].
  - unfold rotated_copy; simpl. f_equal. f_equal.
    + apply map_ext; now intros [a b].
    + apply map_ext; intros l; apply map_ext; now intros [a b].
  - intros Hrot. eexists. now apply rotated_copy_rejects.
Qed.

Lemma rotation_closed_forms_and_rejection_witness :
  (45 mod 90 <> 0)%Z /\
  exists msg, rotated_copy sample_rectangle 45 = Raise (ValueError msg).
Proof.
  split; [discriminate|].
  apply (rotation_closed_forms_and_rejection 1 2 sample_rectangle 45). discriminate.
Defined.

(** C9.  [rotated_copy] reduces the angle modulo 360 first and succeeds
    exactly when the reduced angle is 0, 90, 180 or 270: every multiple of
    90, negative or beyond 360, is accepted ([-90] behaves as [270], [450]
    as [90]) and every other angle raises [ValueError];
    [rotate_rect_generic] treats its angle in the same way. *)
Theorem rotation_angle_normalized_mod_360 (p : OrthoPoly) (r : RectCM) (rot : Z) :
  (rotated_copy p rot = rotated_copy p (rot mod 360) /\
   (is_ok (rotated_copy p rot) = true <->
    In (rot mod 360)%Z [0; 90; 180; 270]%Z) /\
   (forall k : Z, is_ok (rotated_copy p (90 * k)) = true) /\
   rotated_copy p (-90) = rotated_copy p 270 /\
   rotated_copy p 450 = rotated_copy p 90 /\
   ((rot mod 90 <> 0)%Z -> exists msg, rotated_copy p rot = Raise (ValueError msg)))
  /\
  (rotate_rect_generic r rot = rotate_rect_generic r (rot mod 360) /\
   (is_ok (rotate_rect_generic r rot) = true <->
    In (rot mod 360)%Z [0; 90; 180; 270]%Z) /\
   (forall k : Z, is_ok (rotate_rect_generic r (90 * k)) = true) /\
   rotate_rect_generic r (-90) = rotate_rect_generic r 270 /\
   rotate_rect_generic r 450 = rotate_rect_generic r 90 /\
   ((rot mod 90 <> 0)%Z ->
    exists msg, rotate_rect_generic r rot = Raise (ValueError msg))).
Proof.
  assert (Hin : In (rot mod 360)%Z [0; 90; 180; 270]%Z <-> (rot mod 90 = 0)%Z).
  { simpl. destruct (mod_360_cases rot) as [[H0 H1]|[H0 H1]]; split; intros HH;
      try assumption; try lia. }
  assert (Hk : forall k : Z, ((90 * k) mod 90 = 0)%Z).
  { intros k. rewrite Z.mul_comm. apply Z.mod_mul. discriminate. }
  split.
  - split; [apply rotated_copy_mod|].
    split; [|split; [|split; [|split]]].
    + rewrite Hin. split.
      * intros Hok. destruct (Z.eq_dec (rot mod 90) 0%Z) as [E|E]; [assumption|].
        rewrite (rotated_copy_rejects p rot E) in Hok. discriminate.
      * apply rotated_copy_accepts.
    + intros k. apply rotated_copy_accepts, Hk.
    + rewrite (rotated_copy_mod p (-90)). reflexivity.
    + rewrite (rotated_copy_mod p 450). reflexivity.
    + intros Hrot. eexists. now apply rotated_copy_rejects.
  - split; [apply rotate_rect_generic_mod|].
    split; [|split; [|split; [|split]]].
    + rewrite Hin. split.
      * intros Hok. destruct (Z.eq_dec (rot mod 90) 0%Z) as [E|E]; [assumption|].
        rewrite (rotate_rect_generic_rejects r rot E) in Hok. discriminate.
      * apply rotate_rect_generic_accepts.
    + intros k. apply rotate_rect_generic_accepts, Hk.
    + rewrite (rotate_rect_generic_mod r (-90)). reflexivity.
    + rewrite (rotate_rect_generic_mod r 450). reflexivity.
    + intros Hrot. eexists. now apply rotate_rect_generic_rejects.
Qed.

Lemma rotation_angle_normalized_mod_360_witness :
  is_ok (rotated_copy sample_rectangle (-630)) = true /\
  (exists msg, rotated_copy sample_rectangle 100 = Raise (ValueError msg)) /\
  is_ok (rotate_rect_generic (0, 0, 10, 5) 810) = true /\
  (exists msg, rotate_rect_generic (0, 0, 10, 5) (-45) = Raise (ValueError msg)).
Proof.
  pose proof (rotation_angle_normalized_mod_360 sample_rectangle (0, 0, 10, 5) 100)
    as [(_ & _ & Hk & _ & _ & Hrej) _].
  pose proof (rotation_angle_normalized_mod_360 sample_rectangle (0, 0, 10, 5) (-45))
    as [_ (_ & _ & Hk' & _ & _ & Hrej')].
  split; [exact (Hk (-7)%Z)|].
  split; [apply Hrej; discriminate|].
  split; [exact (Hk' 9%Z)|].
  apply Hrej'. discriminate.
Defined.

(** ** Rotation preserves the area and swaps the sides of the box (C3) *)

Section QuarterTurn.
(** A rotation by an odd multiple of 90 degrees. *)
Variable f : Point -> Point.
Hypothesis f_quarter :
  f = rotate_point_90cw \/ f = rotate_point_270cw.








End QuarterTurn.

Lemma aabb_nonempty (pt : Point) (rest : list Point) (hs : list (list Point)) :
  aabb {| outer := pt :: rest; holes := hs |} =
  Ok (fold_left py_min2 (map fst rest) (fst pt),
      fold_left py_min2 (map snd rest) (snd pt),
      fold_left py_max2 (map fst rest) (fst pt),
      fold_left py_max2 (map snd rest) (snd pt)).
Proof. reflexivity. Qed.

Lemma aabb_empty (hs : list (list Point)) :
  aabb {| outer := []; holes := hs |} =
  Raise (ValueError "min() arg is an empty sequence").
Proof. reflexivity. Qed.

Lemma map_fst_90 (l : list Point) : map fst (map rotate_point_90cw l) = map snd l.
Proof. rewrite map_map. apply map_ext. now intros [x y]. Qed.

Lemma map_snd_90 (l : list Point) :
  map snd (map rotate_point_90cw l) = map Qopp (map fst l).
Proof. rewrite !map_map. apply map_ext. now intros [x y]. Qed.



(** The box of a polygon turned by 90 degrees clockwise. *)
Lemma aabb_rotated_90 (p : OrthoPoly) (b : BoundingBox) :
  aabb p = Ok b ->
  exists b',
    aabb {| outer := map rotate_point_90cw (outer p);
            holes := map (map rotate_point_90cw) (holes p) |} = Ok b' /\
    bbox_width b' == bbox_height b /\ bbox_height b' == bbox_width b.
Proof.
  destruct p as [[|[x y] rest] hs]; [discriminate|].
  rewrite aabb_nonempty. intros [= <-]. simpl outer. simpl holes.
  cbn [map]. rewrite aabb_nonempty. eexists; split; [reflexivity|].
  change (rotate_point_90cw (x, y)) with (y, - x). cbn [fst snd].
  rewrite !map_fst_90, !map_snd_90, !fold_min_opp, !fold_max_opp.
  unfold bbox_width, bbox_height. split; ring.
Qed.




(** ** Which operations build a new polygon and which update in place (C7) *)

Lemma fresh_id_unused (h : gmap nat OrthoPoly) : h !! fresh_id h = None.
Proof. apply not_elem_of_dom. unfold fresh_id. apply is_fresh. Qed.

(** C7, as the code has it.  [rotated_copy] returns a new instance (an
    object that did not exist before) holding the rotated loops, and leaves
    every existing polygon, the original included, as it was.
    [translate] returns nothing and creates no object: it replaces the
    outer loop and the hole loops of the polygon it is called on by the
    shifted loops, and leaves every other polygon as it was. *)
Theorem rotated_copy_is_new_translate_is_in_place
    (h : gmap nat OrthoPoly) (self : nat) (p : OrthoPoly) (dx dy : Q) (rot : Z) :
  h !! self = Some p ->
  (forall p', rotated_copy p rot = Ok p' ->
     exists l h',
       obj_rotated_copy self rot h = Some (Ok (l, h')) /\
       h !! l = None /\
       h' !! l = Some p' /\
       h' !! self = Some p /\
       (forall i q, h !! i = Some q -> h' !! i = Some q)) /\
  (forall e, rotated_copy p rot = Raise e ->
     obj_rotated_copy self rot h = Some (Raise e)) /\
  (exists h',
     obj_translate self dx dy h = Some (tt, h') /\
     dom h' = dom h /\
     h' !! self =
       Some {| outer := map (fun pt => (fst pt + dx, snd pt + dy)) (outer p);
               holes := map (map (fun pt => (fst pt + dx, snd pt + dy))) (holes p) |} /\
     (forall i, i <> self -> h' !! i = h !! i)).
Proof.
  intros Hself. split; [|split].
  - intros p' Hrot. exists (fresh_id h), (<[fresh_id h := p']> h).
    pose proof (fresh_id_unused h) as Hfresh.
    unfold obj_rotated_copy. rewrite Hself, Hrot. simpl.
    split; [reflexivity|]. split; [exact Hfresh|].
    split; [apply lookup_insert_eq|].
    assert (Hkeep : forall i q, h !! i = Some q ->
                                <[fresh_id h := p']> h !! i = Some q).
    { intros i q Hi. rewrite lookup_insert_ne; [exact Hi|].
      intros <-. rewrite Hfresh in Hi. discriminate. }
    split; [now apply Hkeep | exact Hkeep].
  - intros e Hrot. unfold obj_rotated_copy. now rewrite Hself, Hrot.
  - exists (<[self := translate p dx dy]> h).
    unfold obj_translate. rewrite Hself.
    split; [reflexivity|]. split; [|split].
    + apply dom_insert_lookup_L. now exists p.
    + rewrite lookup_insert_eq. unfold translate. f_equal. f_equal.
      * apply map_ext. now intros [x y].
      * apply map_ext. intros l. apply map_ext. now intros [x y].
    + intros i Hi. now apply lookup_insert_ne.
Qed.

Lemma rotated_copy_is_new_translate_is_in_place_witness :
  exists h',
    obj_translate 0%nat 5 3 {[ 0%nat := sample_rectangle ]} = Some (tt, h') /\
    dom h' = dom ({[ 0%nat := sample_rectangle ]} : gmap nat OrthoPoly) /\
    h' !! 0%nat =
      Some {| outer := map (fun pt => (fst pt + 5, snd pt + 3)) (outer sample_rectangle);
              holes := map (map (fun pt => (fst pt + 5, snd pt + 3)))
                           (holes sample_rectangle) |} /\
    (forall i, i <> 0%nat ->
       h' !! i = ({[ 0%nat := sample_rectangle ]} : gmap nat OrthoPoly) !! i).
Proof.
  apply (rotated_copy_is_new_translate_is_in_place
           {[ 0%nat := sample_rectangle ]} 0%nat sample_rectangle 5 3 90).
  apply lookup_singleton_eq.
Defined.

(** C7 fails for [translate]: the call of the translation test,
    [poly.translate(5.0, 3.0)] on the 10 by 5 rectangle, returns no new
    polygon, creates no object, and afterwards the polygon it was called on
    has a different outer loop. *)
Lemma translate_changes_the_original :
  exists h',
    obj_translate 0%nat 5 3 {[ 0%nat := sample_rectangle ]} = Some (tt, h') /\
    dom h' = dom ({[ 0%nat := sample_rectangle ]} : gmap nat OrthoPoly) /\
    (outer <$> h' !! 0%nat) = Some [(0 + 5, 0 + 3); (10 + 5, 0 + 3); (10 + 5, 5 + 3); (0 + 5, 5 + 3)] /\
    (outer <$> h' !! 0%nat) <>
    (outer <$> ({[ 0%nat := sample_rectangle ]} : gmap nat OrthoPoly) !! 0%nat).
Proof.
  eexists. split; [unfold obj_translate; rewrite lookup_singleton_eq; reflexivity|].
  split; [apply dom_insert_lookup_L; rewrite lookup_singleton_eq; eauto|].
  rewrite lookup_insert_eq, lookup_singleton_eq. simpl.
  split; [reflexivity|]. intros [=].
Qed.

(** ** Comparison of the two objectives (C2) *)

(** C2.  Of two layouts the one with strictly more tiles is returned; with
    the same number of tiles the one of strictly smaller area (the height
    layout when the areas are equal too); when only one layout is present it
    is returned; when none is, the result is [None].  A width layout of 4
    tiles and area 100 loses against a height layout of 6 tiles and area
    120. *)
Theorem compare_layouts_tiles_then_area (w h : Layout.t) :
  _compare_layouts None None = None /\
  _compare_layouts (Some w) None = Some w /\
  _compare_layouts None (Some h) = Some h /\
  ((Layout.total_tiles w > Layout.total_tiles h)%Z ->
   _compare_layouts (Some w) (Some h) = Some w) /\
  ((Layout.total_tiles h > Layout.total_tiles w)%Z ->
   _compare_layouts (Some w) (Some h) = Some h) /\
  (Layout.total_tiles w = Layout.total_tiles h ->
   Layout.area w < Layout.area h ->
   _compare_layouts (Some w) (Some h) = Some w) /\
  (Layout.total_tiles w = Layout.total_tiles h ->
   Layout.area h <= Layout.area w ->
   _compare_layouts (Some w) (Some h) = Some h) /\
  (Layout.total_tiles w = 4%Z -> Layout.area w == 100 ->
   Layout.total_tiles h = 6%Z -> Layout.area h == 120 ->
   _compare_layouts (Some w) (Some h) = Some h).
Proof.
  unfold _compare_layouts.
  repeat split; try reflexivity.
  - intros Hgt. apply Z.gtb_gt in Hgt. now rewrite Hgt.
  - intros Hgt.
    destruct (Z.gtb_spec (Layout.total_tiles w) (Layout.total_tiles h)); [lia|].
    apply Z.gtb_gt in Hgt. now rewrite Hgt.
  - intros Heq Harea. rewrite Heq, Z.gtb_ltb, Z.ltb_irrefl.
    apply Qltb_lt in Harea. now rewrite Harea.
  - intros Heq Harea. rewrite Heq, Z.gtb_ltb, Z.ltb_irrefl.
    apply Qltb_ge in Harea. now rewrite Harea.
  - intros Hw _ Hh _. rewrite Hw, Hh. reflexivity.
Qed.

Lemma compare_layouts_tiles_then_area_witness :
  _compare_layouts (Some layout_width_4) (Some layout_height_6) = Some layout_height_6.
Proof.
  apply (compare_layouts_tiles_then_area layout_width_4 layout_height_6);
    reflexivity.
Defined.

(** ** The layout service (C10) *)

Lemma round_half_even_near (q : Q) :
  Qabs (inject_Z (round_half_even q) - q) <= 1 # 2.
Proof.
  unfold round_half_even.
  pose proof (Qfloor_le q) as Hlo. pose proof (Qlt_floor q) as Hhi.
  rewrite inject_Z_plus in Hhi. change (inject_Z 1) with 1 in Hhi.
  apply Qabs_Qle_condition.
  destruct (Qltb (q - inject_Z (Qfloor q)) (1 # 2)) eqn:E1.
  - apply Qltb_lt in E1. split; lra.
  - apply Qltb_ge in E1.
    destruct (Qltb (1 # 2) (q - inject_Z (Qfloor q))) eqn:E2.
    + rewrite inject_Z_plus. change (inject_Z 1) with 1. split; lra.
    + apply Qltb_ge in E2. destruct (Z.even (Qfloor q)).
      * split; lra.
      * rewrite inject_Z_plus. change (inject_Z 1) with 1. split; lra.
Qed.

(** The floats of CPython on known values: the literal 0.1, the sum
    0.1 + 0.2, which is 0.30000000000000004, and three roundings to two
    decimals: 2.675 is a float below 2.675 and rounds to 2.67, and the ties
    0.125 and 0.375 go to the even hundredth. *)
Example nearest_double_tenth :
  nearest_double (1 # 10) = 3602879701896397 # 36028797018963968.
Proof. vm_compute. reflexivity. Qed.

Example float_add_tenths :
  @float_add cpython_floats (nearest_double (1 # 10)) (nearest_double (2 # 10))
  = 1351079888211149 # 4503599627370496.
Proof. vm_compute. reflexivity. Qed.

Example py_round2_known_values :
  @py_round2 cpython_floats (nearest_double (2675 # 1000)) = nearest_double (267 # 100) /\
  @py_round2 cpython_floats (1 # 8) = nearest_double (12 # 100) /\
  @py_round2 cpython_floats (3 # 8) = nearest_double (38 # 100).
Proof. vm_compute. repeat split. Qed.

Section LayoutService.
Context `{GeometryBackend} `{FloatArithmetic}.

(** A fresh engine has empty cache slots, so its box is the box of the
    single base tile: finite whenever it is returned. *)
Lemma service_engine_bbox_finite (request : LayoutRequest.t) (b : option BoundingBox) :
  service_engine_bbox request = Ok b -> exists box, b = Some box.
Proof.
  unfold service_engine_bbox, calculate_global_bbox, NestingEngine_new.
  destruct (String.eqb _ _); simpl;
    (destruct (build_tile_orthopoly_and_edges_cm _) as [[poly_base rects]|e];
     simpl; [|discriminate];
     destruct (rotate_and_align_top_left poly_base [] 90) as [[poly1 rects1]|e];
     simpl; [|discriminate];
     destruct (aabb poly1) as [[[[minx miny] maxx] maxy]|e];
     simpl; [|discriminate];
     intros [= <-]; eauto).
Qed.

(** C10.  [optimize_layout] always produces a response.  With a tile count
    that is not positive the response is a failure with a message,
    whatever the engine would do (it is not consulted).  Otherwise an
    exception of the computation gives a failure carrying the message of
    the exception, and a box gives a success whose summary reports
    [planilla = tiles_x * tiles_y] and, each rounded with [round(., 2)],
    the float sum of the width of the box and the two side margins, the
    float sum of its height and the two gripper margins, and the float
    product of these two sums.  The sums are those the code computes:
    floats added from left to right, not the exact totals. *)
Theorem optimize_layout_never_raises (request : LayoutRequest.t) :
  (((LayoutRequest.tiles_x request <= 0)%Z \/ (LayoutRequest.tiles_y request <= 0)%Z) ->
   forall engine_bbox,
     optimize_layout_with engine_bbox request =
     {| LayoutResponse.success := false;
        LayoutResponse.layout := None;
        LayoutResponse.message :=
          Some "La cantidad de tiles debe ser mayor a 0 en ambos ejes."%string |}) /\
  ((0 < LayoutRequest.tiles_x request)%Z -> (0 < LayoutRequest.tiles_y request)%Z ->
   (forall exc, service_engine_bbox request = Raise exc ->
      optimize_layout request =
      {| LayoutResponse.success := false;
         LayoutResponse.layout := None;
         LayoutResponse.message := Some (exn_str exc) |}) /\
   (forall b, service_engine_bbox request = Ok b ->
      exists minx miny maxx maxy s,
        b = Some (minx, miny, maxx, maxy) /\
        optimize_layout request =
        {| LayoutResponse.success := true;
           LayoutResponse.layout := Some (Summary s);
           LayoutResponse.message := None |} /\
        LayoutSummary.tiles_x s = LayoutRequest.tiles_x request /\
        LayoutSummary.tiles_y s = LayoutRequest.tiles_y request /\
        LayoutSummary.planilla s =
          (LayoutRequest.tiles_x request * LayoutRequest.tiles_y request)%Z /\
        LayoutSummary.medida_x_cm s =
          py_round2
            (float_add
               (float_add (float_sub maxx minx)
                          (LayoutRequest.sangria_izquierda request))
               (LayoutRequest.sangria_derecha request)) /\
        LayoutSummary.medida_y_cm s =
          py_round2
            (float_add
               (float_add (float_sub maxy miny) (LayoutRequest.pinza request))
               (LayoutRequest.contra_pinza request)) /\
        LayoutSummary.area_cm2 s =
          py_round2
            (float_mul
               (float_add
                  (float_add (float_sub maxx minx)
                             (LayoutRequest.sangria_izquierda request))
                  (LayoutRequest.sangria_derecha request))
               (float_add
                  (float_add (float_sub maxy miny) (LayoutRequest.pinza request))
                  (LayoutRequest.contra_pinza request))) /\
        LayoutSummary.objective s = LayoutRequest.objective request)).
Proof.
  split.
  - intros Hbad engine_bbox. unfold optimize_layout_with.
    assert (Hguard : (LayoutRequest.tiles_x request <=? 0)%Z
                     || (LayoutRequest.tiles_y request <=? 0)%Z = true).
    { apply orb_true_iff. rewrite !Z.leb_le. exact Hbad. }
    now rewrite Hguard.
  - intros Hx Hy.
    assert (Hguard : (LayoutRequest.tiles_x request <=? 0)%Z
                     || (LayoutRequest.tiles_y request <=? 0)%Z = false).
    { apply orb_false_iff. rewrite !Z.leb_gt. now split. }
    split.
    + intros exc Hexc. unfold optimize_layout, optimize_layout_with.
      now rewrite Hguard, Hexc.
    + intros b Hb.
      destruct (service_engine_bbox_finite request b Hb)
        as [[[[minx miny] maxx] maxy] ->].
      exists minx, miny, maxx, maxy. eexists. split; [reflexivity|].
      unfold optimize_layout, optimize_layout_with.
      rewrite Hguard, Hb. cbn [mbind result_bind].
      split; [reflexivity|]. repeat split.
Qed.
End LayoutService.

Lemma optimize_layout_never_raises_witness :
  @optimize_layout_with cpython_floats
    (fun _ => Raise (OtherException "unused")) (sample_request 0 0) =
    {| LayoutResponse.success := false;
       LayoutResponse.layout := None;
       LayoutResponse.message :=
         Some "La cantidad de tiles debe ser mayor a 0 en ambos ejes."%string |}
  /\
  @optimize_layout failing_backend cpython_floats (sample_request 2 2) =
    {| LayoutResponse.success := false;
       LayoutResponse.layout := None;
       LayoutResponse.message := Some "clipper failure"%string |}
  /\
  exists s,
    @optimize_layout rectangle_backend cpython_floats
      (margin_request (nearest_double (1015 # 1000))) =
    {| LayoutResponse.success := true;
       LayoutResponse.layout := Some (Summary s);
       LayoutResponse.message := None |} /\
    LayoutSummary.planilla s = 4%Z /\
    LayoutSummary.medida_x_cm s = nearest_double (601 # 100).
Proof.
  split; [|split].
  - apply (@optimize_layout_never_raises rectangle_backend cpython_floats
             (sample_request 0 0)).
    left. simpl. lia.
  - destruct (@optimize_layout_never_raises failing_backend cpython_floats
                (sample_request 2 2)) as [_ Hpos].
    destruct Hpos as [Hexc _]; [reflexivity | reflexivity |].
    apply (Hexc (OtherException "clipper failure")). reflexivity.
  - destruct (@optimize_layout_never_raises rectangle_backend cpython_floats
                (margin_request (nearest_double (1015 # 1000)))) as [_ Hpos].
    destruct Hpos as [_ Hbox]; [reflexivity | reflexivity |].
    destruct (@service_engine_bbox rectangle_backend
                (margin_request (nearest_double (1015 # 1000)))) as [b|e] eqn:Hcall;
      [|vm_compute in Hcall; discriminate].
    destruct (Hbox b eq_refl)
      as (minx & miny & maxx & maxy & s & Hb & Hresp & _ & _ & Hplanilla & Hx & _).
    exists s. split; [exact Hresp|]. split; [exact Hplanilla|].
    rewrite Hx. subst b. vm_compute in Hcall. injection Hcall as <- <- <- <-.
    vm_compute. reflexivity.
Defined.

(** The request of the service test on the rectangle backend: a 2 by 2
    request reports 4 tiles per sheet and the box of the single rotated
    tile (5 by 10) plus the margins. *)
Example optimize_layout_success :
  @optimize_layout rectangle_backend cpython_floats (sample_request 2 2) =
  {| LayoutResponse.success := true;
     LayoutResponse.layout :=
       Some (Summary
         {| LayoutSummary.tiles_x := 2; LayoutSummary.tiles_y := 2;
            LayoutSummary.planilla := 4;
            LayoutSummary.medida_x_cm := 7;
            LayoutSummary.medida_y_cm := 11;
            LayoutSummary.area_cm2 := 77;
            LayoutSummary.objective := "width" |});
     LayoutResponse.message := None |}.
Proof. vm_compute. reflexivity. Qed.

(** Where the float sum and the exact sum part: a tile 5 cm wide with a
    left margin of 1.015 is reported as 6.01, and with a left margin of
    1.135 as 6.13, while the exact total of 5 and the float 1.135 would
    round to 6.14. *)
Example optimize_layout_float_sums :
  option_map (fun m => fst (fst m))
    (layout_measures
       (@optimize_layout rectangle_backend cpython_floats
          (margin_request (nearest_double (1015 # 1000)))))
    = Some (nearest_double (601 # 100)) /\
  option_map (fun m => fst (fst m))
    (layout_measures
       (@optimize_layout rectangle_backend cpython_floats
          (margin_request (nearest_double (1135 # 1000)))))
    = Some (nearest_double (613 # 100)) /\
  inject_Z (round_half_even ((5 + nearest_double (1135 # 1000)) * 100)) / 100
    == 614 # 100.
Proof. vm_compute. repeat split. Qed.

(** ** The bed-limit expansion loops terminate (C8) *)

Lemma while_true_counts_up {R} (body : Z -> loop_step Z R) (P : Z -> Prop) :
  counts_up body P ->
  forall fuel t done,
    (1 <= t <= 100)%Z -> (budget t <= fuel)%nat ->
    (exists s n, while_true fuel body t done = Broke s n /\ P s /\
                 (n <= done + budget t)%nat) \/
    (exists r n, while_true fuel body t done = Returned r n /\
                 (n <= done + budget t)%nat).
Proof.
  intros Hbody. induction fuel as [|fuel IH]; intros t done Ht Hfuel.
  - unfold budget in Hfuel. lia.
  - simpl. specialize (Hbody t Ht). destruct (body t) as [t'|s|r].
    + destruct Hbody as [-> Hle].
      destruct (IH (t + 1)%Z (S done)) as [(s & n & E & HP & Hn)|(r & n & E & Hn)];
        try lia; unfold budget in *; try lia.
      * left. exists s, n. repeat split; try assumption. lia.
      * right. exists r, n. split; [assumption|]. lia.
    + left. exists s, (S done). repeat split; try assumption.
      unfold budget. lia.
    + right. exists r, (S done). split; [reflexivity|]. unfold budget. lia.
Qed.

(** Once a loop has ended, more fuel changes nothing. *)
Lemma while_true_more_fuel {S R} (body : S -> loop_step S R) :
  forall fuel fuel' s done,
    (fuel <= fuel')%nat ->
    while_true fuel body s done <> OutOfFuel ->
    while_true fuel' body s done = while_true fuel body s done.
Proof.
  induction fuel as [|fuel IH]; intros fuel' s done Hle Hne.
  - now contradiction Hne.
  - destruct fuel' as [|fuel']; [lia|]. simpl in *.
    destruct (body s); try reflexivity. apply IH; [lia | assumption].
Qed.

Lemma while_true_cap {R} (body : Z -> loop_step Z R) (r : R) :
  always_short body r ->
  forall fuel t done,
    (1 <= t <= 100)%Z -> (budget t <= fuel)%nat ->
    while_true fuel body t done = Returned r (done + budget t).
Proof.
  intros Hbody. induction fuel as [|fuel IH]; intros t done Ht Hfuel.
  - unfold budget in Hfuel. lia.
  - simpl. rewrite (Hbody t Ht).
    destruct (Z.gtb_spec (t + 1) 100) as [Hgt|Hle].
    + f_equal. unfold budget. lia.
    + rewrite IH; [|lia|unfold budget in *; lia]. f_equal. unfold budget. lia.
Qed.

Section BoundsLoops.
Context `{TabEngine}.
Variable self : TileTab.t.
Variables (objective : string) (medianil_x medianil_y : Q).

Lemma min_x_counts_up (x_min_roland : Q) :
  counts_up (min_x_body self x_min_roland medianil_x medianil_y objective) in_range.
Proof.
  intros t Ht. unfold min_x_body.
  destruct (engine_global_bbox t 1 medianil_x medianil_y objective); [|exact I].
  simpl. destruct (Qle_bool _ _); [exact Ht|].
  destruct (Z.gtb_spec (t + 1) 100); [exact I | split; [reflexivity | lia]].
Qed.

Lemma min_y_counts_up (y_min_roland : Q) (tiles_x_min : Z) :
  counts_up (min_y_body self y_min_roland medianil_x medianil_y objective tiles_x_min)
            in_range.
Proof.
  intros t Ht. unfold min_y_body.
  destruct (engine_global_bbox tiles_x_min t medianil_x medianil_y objective);
    [|exact I].
  simpl. destruct (Qle_bool _ _); [exact Ht|].
  destruct (Z.gtb_spec (t + 1) 100); [exact I | split; [reflexivity | lia]].
Qed.

Lemma max_x_counts_up (x_max_roland : Q) :
  counts_up (max_x_body self x_max_roland medianil_x medianil_y objective)
            (fun _ => True).
Proof.
  intros t Ht. unfold max_x_body.
  destruct (engine_global_bbox (t + 1) 1 medianil_x medianil_y objective); [|exact I].
  simpl. destruct (Qltb _ _); [exact I|].
  destruct (Z.gtb_spec (t + 1) 100); [exact I | split; [reflexivity | lia]].
Qed.

Lemma max_y_counts_up (y_max_roland : Q) (tiles_x_max : Z) :
  counts_up (max_y_body self y_max_roland medianil_x medianil_y objective tiles_x_max)
            (fun _ => True).
Proof.
  intros t Ht. unfold max_y_body.
  destruct (engine_global_bbox tiles_x_max (t + 1) medianil_x medianil_y objective);
    [|exact I].
  simpl. destruct (Qltb _ _); [exact I|].
  destruct (Z.gtb_spec (t + 1) 100); [exact I | split; [reflexivity | lia]].
Qed.

Lemma min_x_cap (x_min_roland : Q) :
  width_never_reached self objective medianil_x medianil_y x_min_roland ->
  always_short (min_x_body self x_min_roland medianil_x medianil_y objective) None.
Proof.
  intros Hshort t Ht. destruct (Hshort t Ht) as (bbox & Hb & Hlt).
  unfold min_x_body. rewrite Hb. simpl in *.
  apply Qltb_lt in Hlt. unfold Qltb in Hlt. apply negb_true_iff in Hlt.
  now rewrite Hlt.
Qed.

Lemma min_y_cap (y_min_roland : Q) (tiles_x_min : Z) :
  height_never_reached self objective medianil_x medianil_y y_min_roland tiles_x_min ->
  always_short
    (min_y_body self y_min_roland medianil_x medianil_y objective tiles_x_min) None.
Proof.
  intros Hshort t Ht. destruct (Hshort t Ht) as (bbox & Hb & Hlt).
  unfold min_y_body. rewrite Hb. simpl in *.
  apply Qltb_lt in Hlt. unfold Qltb in Hlt. apply negb_true_iff in Hlt.
  now rewrite Hlt.
Qed.

Lemma loop_runs {R} (body : Z -> loop_step Z R) (P : Z -> Prop) (t : Z) :
  counts_up body P -> in_range t ->
  exists o,
    (forall fuel, (100 <= fuel)%nat -> while_true fuel body t 0 = o) /\
    match o with
    | OutOfFuel => False
    | Broke s n => P s /\ (n <= 100)%nat
    | Returned r n => (n <= 100)%nat
    end.
Proof.
  intros Hbody Ht. unfold in_range in Ht.
  assert (Hbudget : (budget t <= 100)%nat) by (unfold budget; lia).
  destruct (while_true_counts_up body P Hbody 100 t 0 Ht Hbudget)
    as [(s & n & E & HP & Hn)|(r & n & E & Hn)].
  - exists (Broke s n). split; [|split; [assumption | lia]].
    intros fuel Hfuel. rewrite <- E. apply while_true_more_fuel; [assumption|].
    rewrite E. discriminate.
  - exists (Returned r n). split; [|lia].
    intros fuel Hfuel. rewrite <- E. apply while_true_more_fuel; [assumption|].
    rewrite E. discriminate.
Qed.

(** C8.  Each of the four expansion loops of [_calculate_layout_bounds]
    ends within 100 iterations: a fuel of 100 per loop is never exhausted,
    a larger fuel changes nothing, and no loop makes more than 100
    iterations.  When the width (or, once the columns are fixed, the
    height) stays below the bed minimum for every count up to 100, the
    loop stops at its hundredth iteration and the procedure returns
    [None]. *)
Theorem layout_bounds_loops_terminate
    (x_min_roland x_max_roland y_min_roland y_max_roland : Q) :
  exists r iterations,
    _calculate_layout_bounds self 100 objective
      x_min_roland x_max_roland y_min_roland y_max_roland
      medianil_x medianil_y = BoundsDone r iterations /\
    Forall (fun n => (n <= 100)%nat) iterations /\
    (forall fuel, (100 <= fuel)%nat ->
       _calculate_layout_bounds self fuel objective
         x_min_roland x_max_roland y_min_roland y_max_roland
         medianil_x medianil_y = BoundsDone r iterations) /\
    (width_never_reached self objective medianil_x medianil_y x_min_roland ->
     r = None /\ iterations = [100%nat]) /\
    (forall tiles_x_min n1,
       while_true 100
         (min_x_body self x_min_roland medianil_x medianil_y objective) 1%Z 0
       = Broke tiles_x_min n1 ->
       height_never_reached self objective medianil_x medianil_y
         y_min_roland tiles_x_min ->
       r = None /\ iterations = [n1; 100%nat]).
Proof.
  assert (H1 : in_range 1) by (unfold in_range; lia).
  destruct (loop_runs _ _ 1%Z (min_x_counts_up x_min_roland) H1)
    as (o1 & Hrun1 & Ho1).
  destruct o1 as [|tiles_x_min n1|r1 n1]; [contradiction| |].
  2:{ (* the first loop returns *)
    exists r1, [n1]. unfold _calculate_layout_bounds.
    split; [now rewrite (Hrun1 100%nat (le_n _))|].
    split; [repeat (constructor; [assumption|]); constructor|].
    split; [intros fuel Hfuel; now rewrite (Hrun1 fuel Hfuel)|].
    split.
    - intros Hshort.
      pose proof (while_true_cap _ None (min_x_cap x_min_roland Hshort)
                    100 1%Z 0%nat ltac:(lia) ltac:(unfold budget; lia)) as Hcap.
      rewrite (Hrun1 100%nat (le_n _)) in Hcap. now injection Hcap as -> ->.
    - intros txm m Hbroke. rewrite (Hrun1 100%nat (le_n _)) in Hbroke.
      discriminate. }
  destruct Ho1 as [Hx1 Hn1].
  destruct (loop_runs _ _ 1%Z (min_y_counts_up y_min_roland tiles_x_min) H1)
    as (o2 & Hrun2 & Ho2).
  assert (Hnocap :
    width_never_reached self objective medianil_x medianil_y x_min_roland -> False).
  { intros Hshort.
    pose proof (while_true_cap _ None (min_x_cap x_min_roland Hshort)
                  100 1%Z 0%nat ltac:(lia) ltac:(unfold budget; lia)) as Hcap.
    rewrite (Hrun1 100%nat (le_n _)) in Hcap. discriminate. }
  destruct o2 as [|tiles_y_min n2|r2 n2]; [contradiction| |].
  2:{ (* the second loop returns *)
    exists r2, [n1; n2]. unfold _calculate_layout_bounds.
    split; [now rewrite (Hrun1 100%nat (le_n _)), (Hrun2 100%nat (le_n _))|].
    split; [repeat (constructor; [assumption|]); constructor|].
    split; [intros fuel Hfuel; now rewrite (Hrun1 fuel Hfuel), (Hrun2 fuel Hfuel)|].
    split; [intros Hshort; now destruct (Hnocap Hshort)|].
    intros txm m Hbroke Hshort.
    rewrite (Hrun1 100%nat (le_n _)) in Hbroke. injection Hbroke as <- <-.
    pose proof (while_true_cap _ None (min_y_cap y_min_roland tiles_x_min Hshort)
                  100 1%Z 0%nat ltac:(lia) ltac:(unfold budget; lia)) as Hcap.
    rewrite (Hrun2 100%nat (le_n _)) in Hcap. now injection Hcap as -> ->. }
  destruct Ho2 as [Hy2 Hn2].
  assert (Hnocap2 : forall txm m,
    while_true 100
      (min_x_body self x_min_roland medianil_x medianil_y objective) 1%Z 0
    = Broke txm m ->
    height_never_reached self objective medianil_x medianil_y y_min_roland txm ->
    False).
  { intros txm m Hbroke Hshort.
    rewrite (Hrun1 100%nat (le_n _)) in Hbroke. injection Hbroke as <- <-.
    pose proof (while_true_cap _ None (min_y_cap y_min_roland tiles_x_min Hshort)
                  100 1%Z 0%nat ltac:(lia) ltac:(unfold budget; lia)) as Hcap.
    rewrite (Hrun2 100%nat (le_n _)) in Hcap. discriminate. }
  destruct (loop_runs _ _ tiles_x_min (max_x_counts_up x_max_roland) Hx1)
    as (o3 & Hrun3 & Ho3).
  destruct o3 as [|tiles_x_max n3|r3 n3]; [contradiction| |].
  2:{ exists r3, [n1; n2; n3]. unfold _calculate_layout_bounds.
    split; [now rewrite (Hrun1 100%nat (le_n _)), (Hrun2 100%nat (le_n _)),
              (Hrun3 100%nat (le_n _))|].
    split; [repeat (constructor; [assumption|]); constructor|].
    split; [intros fuel Hfuel;
            now rewrite (Hrun1 fuel Hfuel), (Hrun2 fuel Hfuel), (Hrun3 fuel Hfuel)|].
    split; [intros Hshort; now destruct (Hnocap Hshort)|].
    intros txm m Hbroke Hshort. now destruct (Hnocap2 txm m Hbroke Hshort). }
  destruct Ho3 as [_ Hn3].
  destruct (loop_runs _ _ tiles_y_min (max_y_counts_up y_max_roland tiles_x_max) Hy2)
    as (o4 & Hrun4 & Ho4).
  destruct o4 as [|tiles_y_max n4|r4 n4]; [contradiction| |].
  - destruct Ho4 as [_ Hn4].
    exists (Some (tiles_x_min, tiles_y_min, tiles_x_max, tiles_y_max)), [n1; n2; n3; n4].
    unfold _calculate_layout_bounds.
    split; [now rewrite (Hrun1 100%nat (le_n _)), (Hrun2 100%nat (le_n _)),
              (Hrun3 100%nat (le_n _)), (Hrun4 100%nat (le_n _))|].
    split; [repeat (constructor; [assumption|]); constructor|].
    split; [intros fuel Hfuel;
            now rewrite (Hrun1 fuel Hfuel), (Hrun2 fuel Hfuel),
              (Hrun3 fuel Hfuel), (Hrun4 fuel Hfuel)|].
    split; [intros Hshort; now destruct (Hnocap Hshort)|].
    intros txm m Hbroke Hshort. now destruct (Hnocap2 txm m Hbroke Hshort).
  - exists r4, [n1; n2; n3; n4]. unfold _calculate_layout_bounds.
    split; [now rewrite (Hrun1 100%nat (le_n _)), (Hrun2 100%nat (le_n _)),
              (Hrun3 100%nat (le_n _)), (Hrun4 100%nat (le_n _))|].
    split; [repeat (constructor; [assumption|]); constructor|].
    split; [intros fuel Hfuel;
            now rewrite (Hrun1 fuel Hfuel), (Hrun2 fuel Hfuel),
              (Hrun3 fuel Hfuel), (Hrun4 fuel Hfuel)|].
    split; [intros Hshort; now destruct (Hnocap Hshort)|].
    intros txm m Hbroke Hshort. now destruct (Hnocap2 txm m Hbroke Hshort).
Qed.
End BoundsLoops.

Lemma layout_bounds_loops_terminate_witness :
  exists r iterations,
    @_calculate_layout_bounds linear_engine (sample_tab 5000 6000 10 100)
      100 "width" 5000 6000 10 100 0 0 = BoundsDone r iterations /\
    r = None /\ iterations = [100%nat].
Proof.
  destruct (@layout_bounds_loops_terminate linear_engine
              (sample_tab 5000 6000 10 100) "width" 0 0 5000 6000 10 100)
    as (r & iterations & Hrun & _ & _ & Hcap & _).
  exists r, iterations. split; [exact Hrun|]. apply Hcap.
  intros t [Hlo Hhi]. eexists. split; [reflexivity|]. simpl.
  assert (Ht : inject_Z t <= 100) by (rewrite (Zle_Qle t 100) in Hhi; exact Hhi).
  lra.
Defined.

(** On the linear engine (10 cm per column, 5 cm per row) and a bed of 10
    to 100 cm in both directions the bounds are 1 to 10 columns and 2 to 20
    rows, found after 1, 2, 10 and 19 iterations. *)
Example layout_bounds_linear :
  @_calculate_layout_bounds linear_engine (sample_tab 10 100 10 100)
    100 "width" 10 100 10 100 0 0
  = BoundsDone (Some (1, 2, 10, 20)%Z) [1; 2; 10; 19]%nat.
Proof. vm_compute. reflexivity. Qed.

(** ** The production decision (C1) *)

Lemma is_ceil_div (a b : Z) : (0 < b)%Z -> is_ceil a b (- ((- a) / b))%Z.
Proof.
  intros Hb. unfold is_ceil.
  pose proof (Z.div_mod (- a) b ltac:(lia)) as Hdm.
  pose proof (Z.mod_pos_bound (- a) b Hb) as Hm.
  nia.
Qed.

Lemma py_range2_In (a b t : Z) : In t (py_range2 a b) <-> (a <= t < b)%Z.
Proof.
  unfold py_range2. rewrite in_map_iff. split.
  - intros (i & <- & Hi). apply in_seq in Hi. lia.
  - intros Ht. exists (Z.to_nat (t - a)). split; [lia|]. apply in_seq. lia.
Qed.

Lemma min_by_area_spec (first : Factor) (rest : list Factor) :
  In (min_by_area first rest) (first :: rest) /\
  forall f, In f (first :: rest) ->
            factor_area (min_by_area first rest) <= factor_area f.
Proof.
  unfold min_by_area. revert first.
  induction rest as [|g rest IH]; intros first; simpl.
  - split; [now left|]. intros f [<- | []]. apply Qle_refl.
  - destruct (Qltb (factor_area g) (factor_area first)) eqn:E.
    + apply Qltb_lt in E. destruct (IH g) as [Hin Hmin]. split.
      * destruct Hin as [Hin | Hin]; [right; left; exact Hin | right; right; exact Hin].
      * intros f [<- | [<- | Hf]].
        -- apply Qle_trans with (factor_area g); [apply Hmin; now left | lra].
        -- apply Hmin. now left.
        -- apply Hmin. now right.
    + apply Qltb_ge in E. destruct (IH first) as [Hin Hmin]. split.
      * destruct Hin as [Hin | Hin]; [left; exact Hin | right; right; exact Hin].
      * intros f [<- | [<- | Hf]].
        -- apply Hmin. now left.
        -- apply Qle_trans with (factor_area first); [apply Hmin; now left | exact E].
        -- apply Hmin. now right.
Qed.

Section OptimalLayout.
Context `{TabEngine}.
Variable self : TileTab.t.
Variables (objective : string) (medianil_x medianil_y : Q).

(** The check as [_find_intermediate_layout] and [_create_layout_result]
    call it, without limits. *)
Lemma ensure_cases (medida_x medida_y : Q) :
  (fits_bed self medida_x medida_y /\
   _ensure_layout_within_limits self medida_x medida_y None None None None
     = Ok tt) \/
  (~ fits_bed self medida_x medida_y /\
   exists msg,
     _ensure_layout_within_limits self medida_x medida_y None None None None
       = Raise (ValueError msg)).
Proof.
  unfold _ensure_layout_within_limits, _read_bed_limits, fits_bed. cbv iota.
  destruct (Qle_bool (TileTab.sb_xmax self) (TileTab.sb_xmin self)) eqn:Ex.
  { apply Qle_bool_iff in Ex. right. split; [lra | simpl; eauto]. }
  destruct (Qle_bool (TileTab.sb_ymax self) (TileTab.sb_ymin self)) eqn:Ey.
  { apply Qle_bool_iff in Ey. right. split; [lra | simpl; eauto]. }
  assert (Hx : TileTab.sb_xmin self < TileTab.sb_xmax self).
  { apply Qnot_le_lt. intros Hle. apply Qle_bool_iff in Hle. congruence. }
  assert (Hy : TileTab.sb_ymin self < TileTab.sb_ymax self).
  { apply Qnot_le_lt. intros Hle. apply Qle_bool_iff in Hle. congruence. }
  simpl.
  destruct (Qltb medida_x (TileTab.sb_xmin self - (1 # 1000000))) eqn:E1.
  { apply Qltb_lt in E1. right. split; [lra | simpl; eauto]. }
  destruct (Qltb (TileTab.sb_xmax self + (1 # 1000000)) medida_x) eqn:E2.
  { apply Qltb_lt in E2. right. split; [lra | simpl; eauto]. }
  destruct (Qltb medida_y (TileTab.sb_ymin self - (1 # 1000000))) eqn:E3.
  { apply Qltb_lt in E3. right. split; [lra | simpl; eauto]. }
  destruct (Qltb (TileTab.sb_ymax self + (1 # 1000000)) medida_y) eqn:E4.
  { apply Qltb_lt in E4. right. split; [lra | simpl; eauto]. }
  apply Qltb_ge in E1, E2, E3, E4. left. simpl. repeat split; assumption.
Qed.

Hypothesis engine_answers : engine_total objective medianil_x medianil_y.

Lemma intermediate_step_spec (required tx ty : Z) (fs : list Factor) :
  exists new,
    intermediate_step self required medianil_x medianil_y objective tx (Ok fs) ty
      = Ok (fs ++ new) /\
    forall f, In f new <->
              candidate_entry self objective medianil_x medianil_y required (tx, ty) f.
Proof.
  unfold intermediate_step, candidate_entry, grid_measures. simpl.
  destruct (Z.eqb_spec (tx * ty) required) as [Heq|Hne].
  2:{ exists []. split; [now rewrite app_nil_r|].
      intros f. split; [intros [] | intros [Heq _]; contradiction]. }
  destruct (engine_answers tx ty) as [bbox Hb]. rewrite Hb. simpl.
  set (w := bbox_width bbox
            + (TileTab.sb_sangria_izquierda self + TileTab.sb_sangria_derecha self)).
  set (h := bbox_height bbox
            + (TileTab.sb_pinza self + TileTab.sb_contra_pinza self)).
  destruct (ensure_cases w h) as [[Hfit ->] | [Hnofit (msg & ->)]].
  - exists [(tx, ty, w * h, w, h)]. split; [reflexivity|].
    intros f. split.
    + intros [<- | []]. split; [assumption|]. exists w, h.
      split; [|split; [assumption | reflexivity]].
      exists bbox. now repeat split.
    + intros (_ & w' & h' & (bbox' & Hb' & -> & ->) & _ & ->).
      injection Hb' as <-. now left.
  - exists []. split; [now rewrite app_nil_r|].
    intros f. split; [intros []|].
    intros (_ & w' & h' & (bbox' & Hb' & -> & ->) & Hfit & _).
    injection Hb' as <-. contradiction.
Qed.

Lemma inner_loop_spec (required tx : Z) (ys : list Z) :
  forall fs, exists new,
    fold_left
      (intermediate_step self required medianil_x medianil_y objective tx)
      ys (Ok fs) = Ok (fs ++ new) /\
    forall f, In f new <->
      exists ty, In ty ys /\
        candidate_entry self objective medianil_x medianil_y required (tx, ty) f.
Proof.
  induction ys as [|ty ys IH]; intros fs; cbn [fold_left].
  - exists []. split; [now rewrite app_nil_r|].
    intros f. split; [intros [] | intros (ty & [] & _)].
  - destruct (intermediate_step_spec required tx ty fs) as (new1 & -> & H1).
    destruct (IH (fs ++ new1)) as (new2 & -> & H2).
    exists (new1 ++ new2). split; [now rewrite app_assoc|].
    intros f. rewrite in_app_iff, H1, H2. split.
    + intros [Hc | (ty' & Hin & Hc)];
        [exists ty; split; [now left | exact Hc]
        |exists ty'; split; [now right | exact Hc]].
    + intros (ty' & [<- | Hin] & Hc);
        [left; exact Hc | right; exists ty'; split; assumption].
Qed.

Lemma outer_loop_spec (required : Z) (ys xs : list Z) :
  forall fs, exists new,
    fold_left
      (fun acc tx =>
         fold_left
           (intermediate_step self required medianil_x medianil_y objective tx)
           ys acc)
      xs (Ok fs) = Ok (fs ++ new) /\
    forall f, In f new <->
      exists tx ty, In tx xs /\ In ty ys /\
        candidate_entry self objective medianil_x medianil_y required (tx, ty) f.
Proof.
  induction xs as [|tx xs IH]; intros fs; cbn [fold_left].
  - exists []. split; [now rewrite app_nil_r|].
    intros f. split; [intros [] | intros (tx & ty & [] & _)].
  - destruct (inner_loop_spec required tx ys fs) as (new1 & -> & H1).
    destruct (IH (fs ++ new1)) as (new2 & -> & H2).
    exists (new1 ++ new2). split; [now rewrite app_assoc|].
    intros f. rewrite in_app_iff, H1, H2. split.
    + intros [(ty & Hin & Hc) | (tx' & ty & Hx & Hy & Hc)];
        [exists tx, ty; split; [now left | split; assumption]
        |exists tx', ty; split; [now right | split; assumption]].
    + intros (tx' & ty & [<- | Hx] & Hy & Hc);
        [left; exists ty; split; assumption
        |right; exists tx', ty; split; [assumption | split; assumption]].
Qed.

Lemma collect_factores_spec
    (tiles_x_min tiles_y_min tiles_x_max tiles_y_max required : Z) :
  exists fs,
    collect_factores self tiles_x_min tiles_y_min tiles_x_max tiles_y_max
      required medianil_x medianil_y objective = Ok fs /\
    forall f, In f fs <->
      exists grid,
        feasible self objective medianil_x medianil_y
          tiles_x_min tiles_y_min tiles_x_max tiles_y_max required grid /\
        candidate_entry self objective medianil_x medianil_y required grid f.
Proof.
  unfold collect_factores.
  destruct (outer_loop_spec required
              (py_range2 tiles_y_min (tiles_y_max + 1))
              (py_range2 tiles_x_min (tiles_x_max + 1)) [])
    as (fs & -> & Hfs).
  exists fs. split; [reflexivity|]. intros f. rewrite Hfs. split.
  - intros (tx & ty & Hx & Hy & Hc). exists (tx, ty).
    apply py_range2_In in Hx, Hy. split; [|exact Hc].
    destruct Hc as (Hreq & w & h & Hm & Hfit & _).
    unfold feasible; simpl in *.
    split; [lia|]. split; [lia|]. split; [exact Hreq|].
    exists w, h. split; assumption.
  - intros ([tx ty] & (Hx & Hy & _) & Hc). simpl in *.
    exists tx, ty. rewrite !py_range2_In.
    split; [lia|]. split; [lia|]. exact Hc.
Qed.

Lemma grid_measures_unique (grid : Z * Z) (w h w' h' : Q) :
  grid_measures self objective medianil_x medianil_y grid w h ->
  grid_measures self objective medianil_x medianil_y grid w' h' ->
  w = w' /\ h = h'.
Proof.
  intros (b & Hb & -> & ->) (b' & Hb' & -> & ->).
  rewrite Hb in Hb'. injection Hb' as <-. now split.
Qed.

Lemma candidate_entry_grid (required : Z) (grid : Z * Z) (f : Factor) :
  candidate_entry self objective medianil_x medianil_y required grid f ->
  factor_grid f = grid /\
  forall a, grid_area self objective medianil_x medianil_y grid a ->
            a = factor_area f.
Proof.
  destruct grid as [tx ty]. intros (_ & w & h & Hm & _ & ->). simpl.
  split; [reflexivity|]. intros a (w' & h' & Hm' & ->).
  now destruct (grid_measures_unique _ _ _ _ _ Hm Hm') as [-> ->].
Qed.

Lemma feasible_has_entry
    (tiles_x_min tiles_y_min tiles_x_max tiles_y_max required : Z)
    (grid : Z * Z) :
  feasible self objective medianil_x medianil_y
    tiles_x_min tiles_y_min tiles_x_max tiles_y_max required grid ->
  exists f, candidate_entry self objective medianil_x medianil_y required grid f.
Proof.
  intros (_ & _ & Hreq & w & h & Hm & Hfit).
  exists (fst grid, snd grid, w * h, w, h). split; [exact Hreq|].
  exists w, h. split; [exact Hm | split; [exact Hfit | reflexivity]].
Qed.

(** The intermediate search: a feasible grid of least area when there is
    one, the maximal grid otherwise. *)
Lemma find_intermediate_layout_spec
    (tiles_x_min tiles_y_min tiles_x_max tiles_y_max required : Z) :
  exists grid,
    _find_intermediate_layout self tiles_x_min tiles_y_min tiles_x_max tiles_y_max
      required medianil_x medianil_y objective = Ok (Some grid) /\
    ((exists g, feasible self objective medianil_x medianil_y
                  tiles_x_min tiles_y_min tiles_x_max tiles_y_max required g) ->
     feasible self objective medianil_x medianil_y
       tiles_x_min tiles_y_min tiles_x_max tiles_y_max required grid /\
     forall g a a',
       feasible self objective medianil_x medianil_y
         tiles_x_min tiles_y_min tiles_x_max tiles_y_max required g ->
       grid_area self objective medianil_x medianil_y grid a ->
       grid_area self objective medianil_x medianil_y g a' ->
       a <= a') /\
    ((forall g, ~ feasible self objective medianil_x medianil_y
                    tiles_x_min tiles_y_min tiles_x_max tiles_y_max required g) ->
     grid = (tiles_x_max, tiles_y_max)) /\
    ((exists g, feasible self objective medianil_x medianil_y
                  tiles_x_min tiles_y_min tiles_x_max tiles_y_max required g) \/
     (forall g, ~ feasible self objective medianil_x medianil_y
                    tiles_x_min tiles_y_min tiles_x_max tiles_y_max required g)).
Proof.
  unfold _find_intermediate_layout.
  destruct (collect_factores_spec tiles_x_min tiles_y_min tiles_x_max tiles_y_max
              required) as (fs & -> & Hfs).
  destruct fs as [|first rest]; simpl.
  - assert (Hnone : forall g,
              ~ feasible self objective medianil_x medianil_y
                  tiles_x_min tiles_y_min tiles_x_max tiles_y_max required g).
    { intros g Hg. destruct (feasible_has_entry _ _ _ _ _ _ Hg) as (f & Hf).
      destruct (proj2 (Hfs f)) as []. now exists g. }
    exists (tiles_x_max, tiles_y_max). split; [reflexivity|].
    split; [|split; [reflexivity | right; exact Hnone]].
    intros (g & Hg). now destruct (Hnone g).
  - destruct (min_by_area_spec first rest) as [Hin Hmin].
    set (best := min_by_area first rest) in *.
    destruct (proj1 (Hfs best) Hin) as (grid & Hfeas & Hentry).
    destruct (candidate_entry_grid _ _ _ Hentry) as [Hgrid Harea].
    exists grid. split; [now rewrite Hgrid|].
    split; [|split; [|left; now exists grid]].
    + intros _. split; [exact Hfeas|].
      intros g a a' Hg Ha Ha'.
      destruct (feasible_has_entry _ _ _ _ _ _ Hg) as (f & Hf).
      destruct (candidate_entry_grid _ _ _ Hf) as [_ Hareaf].
      rewrite (Harea a Ha), (Hareaf a' Ha').
      apply Hmin, Hfs. now exists g.
    + intros Hnone. now destruct (Hnone grid).
Qed.

(** [_create_layout_result] returns the layout of the grid when its
    margined box lies within the bed limits and raises otherwise. *)
Lemma create_layout_result_spec (tiles_x tiles_y : Z) (tipo : string)
    (razon : Razon) (volumen tiros_minimos : Z) :
  (1 <= tiles_x)%Z -> (1 <= tiles_y)%Z ->
  (grid_fits self objective medianil_x medianil_y (tiles_x, tiles_y) ->
   exists layout,
     _create_layout_result self tiles_x tiles_y medianil_x medianil_y objective
       tipo razon volumen tiros_minimos = Ok layout /\
     Layout.tiles_x layout = tiles_x /\
     Layout.tiles_y layout = tiles_y /\
     Layout.total_tiles layout = (tiles_x * tiles_y)%Z /\
     Layout.planilla_tipo layout = tipo) /\
  (~ grid_fits self objective medianil_x medianil_y (tiles_x, tiles_y) ->
   exists msg,
     _create_layout_result self tiles_x tiles_y medianil_x medianil_y objective
       tipo razon volumen tiros_minimos = Raise (ValueError msg)).
Proof.
  intros Hx Hy. unfold _create_layout_result.
  destruct (engine_answers tiles_x tiles_y) as [bbox Hb]. rewrite Hb. simpl.
  set (w := bbox_width bbox
            + (TileTab.sb_sangria_izquierda self + TileTab.sb_sangria_derecha self)).
  set (h := bbox_height bbox
            + (TileTab.sb_pinza self + TileTab.sb_contra_pinza self)).
  assert (Hm : grid_measures self objective medianil_x medianil_y
                 (tiles_x, tiles_y) w h).
  { exists bbox. now repeat split. }
  assert (Hz : ((tiles_x * tiles_y =? 0) = false)%Z) by (apply Z.eqb_neq; nia).
  destruct (ensure_cases w h) as [[Hfit ->] | [Hnofit (msg & ->)]]; simpl.
  - split.
    + intros _. unfold ceil_div. rewrite Hz. simpl. eexists.
      split; [reflexivity|]. now repeat split.
    + intros Hno. destruct Hno. now exists w, h.
  - split.
    + intros (w' & h' & Hm' & Hfit).
      destruct (grid_measures_unique _ _ _ _ _ Hm Hm') as [<- <-]. contradiction.
    + intros _. now exists msg.
Qed.

(** C1, as the code has it.  With bounds of at least one tile and a
    positive volume, the shots at the minimal and at the maximal grid are
    the volume divided by the tiles of the grid, rounded up and at least
    1.  The optimizer selects the minimal grid (class "minima") when the
    shots at the minimal grid do not exceed the minimum shots; otherwise
    the maximal grid (class "maxima") when the shots at the maximal grid
    reach the minimum shots; otherwise (class "intermedia") it rounds up
    volume / minimum shots to the required number of tiles and selects,
    among the grids between the bounds with exactly that many tiles whose
    margined box passes the bed-limit check, one of least area, or the
    maximal grid when there is none.  The selected grid is then returned
    as the layout when its own margined box passes the bed-limit check,
    and a [ValueError] is raised when it does not. *)
Theorem production_decision
    (tiles_x_min tiles_y_min tiles_x_max tiles_y_max volumen tiros_minimos : Z) :
  (1 <= tiles_x_min)%Z -> (1 <= tiles_y_min)%Z ->
  (1 <= tiles_x_max)%Z -> (1 <= tiles_y_max)%Z ->
  (0 < volumen)%Z ->
  exists shots_at_min shots_at_max grid tipo,
    let metrics :=
      _calculate_production_metrics
        tiles_x_min tiles_y_min tiles_x_max tiles_y_max volumen tiros_minimos in
    (exists c, is_ceil volumen (tiles_x_min * tiles_y_min) c /\
               shots_at_min = Z.max 1 c) /\
    (exists c, is_ceil volumen (tiles_x_max * tiles_y_max) c /\
               shots_at_max = Z.max 1 c) /\
    Metrics.tiros_con_min metrics = shots_at_min /\
    Metrics.tiros_con_max metrics = shots_at_max /\
    ((shots_at_min <= tiros_minimos)%Z ->
     grid = (tiles_x_min, tiles_y_min) /\ tipo = "minima"%string) /\
    ((tiros_minimos < shots_at_min)%Z -> (tiros_minimos <= shots_at_max)%Z ->
     grid = (tiles_x_max, tiles_y_max) /\ tipo = "maxima"%string) /\
    ((tiros_minimos < shots_at_min)%Z -> (shots_at_max < tiros_minimos)%Z ->
     tipo = "intermedia"%string /\
     exists required,
       is_ceil volumen tiros_minimos required /\
       ((exists g, feasible self objective medianil_x medianil_y
                     tiles_x_min tiles_y_min tiles_x_max tiles_y_max required g) ->
        feasible self objective medianil_x medianil_y
          tiles_x_min tiles_y_min tiles_x_max tiles_y_max required grid /\
        forall g a a',
          feasible self objective medianil_x medianil_y
            tiles_x_min tiles_y_min tiles_x_max tiles_y_max required g ->
          grid_area self objective medianil_x medianil_y grid a ->
          grid_area self objective medianil_x medianil_y g a' ->
          a <= a') /\
       ((forall g, ~ feasible self objective medianil_x medianil_y
                       tiles_x_min tiles_y_min tiles_x_max tiles_y_max required g) ->
        grid = (tiles_x_max, tiles_y_max))) /\
    (grid_fits self objective medianil_x medianil_y grid ->
     exists layout,
       _find_optimal_layout self objective metrics medianil_x medianil_y
         = Ok (Some layout) /\
       Layout.tiles_x layout = fst grid /\
       Layout.tiles_y layout = snd grid /\
       Layout.planilla_tipo layout = tipo) /\
    (~ grid_fits self objective medianil_x medianil_y grid ->
     exists msg,
       _find_optimal_layout self objective metrics medianil_x medianil_y
         = Raise (ValueError msg)).
Proof.
  intros Hxmin Hymin Hxmax Hymax Hvol.
  assert (Hpmin : (0 < tiles_x_min * tiles_y_min)%Z) by nia.
  assert (Hpmax : (0 < tiles_x_max * tiles_y_max)%Z) by nia.
  pose proof (is_ceil_div volumen _ Hpmin) as Hcmin.
  pose proof (is_ceil_div volumen _ Hpmax) as Hcmax.
  set (cmin := (- (- volumen / (tiles_x_min * tiles_y_min)))%Z) in *.
  set (cmax := (- (- volumen / (tiles_x_max * tiles_y_max)))%Z) in *.
  assert (Hmin : tiros_con volumen (tiles_x_min * tiles_y_min) = Z.max 1 cmin).
  { unfold tiros_con. apply Z.gtb_lt in Hpmin. now rewrite Hpmin. }
  assert (Hmax : tiros_con volumen (tiles_x_max * tiles_y_max) = Z.max 1 cmax).
  { unfold tiros_con. apply Z.gtb_lt in Hpmax. now rewrite Hpmax. }
  exists (Z.max 1 cmin), (Z.max 1 cmax).
  unfold _find_optimal_layout, _calculate_production_metrics.
  cbn [Metrics.tiles_x_min Metrics.tiles_y_min Metrics.tiles_x_max
       Metrics.tiles_y_max Metrics.tiros_con_min Metrics.tiros_con_max
       Metrics.tiros_minimos Metrics.volumen].
  rewrite Hmin, Hmax.
  destruct (Z.leb_spec (Z.max 1 cmin) tiros_minimos) as [Hle|Hgt].
  - (* minimal grid *)
    exists (tiles_x_min, tiles_y_min), "minima"%string. cbn zeta.
    split; [now exists cmin|]. split; [now exists cmax|].
    split; [reflexivity|]. split; [reflexivity|].
    split; [now intros _|]. split; [intros; lia|]. split; [intros; lia|].
    cbn [mbind result_bind fst snd].
    destruct (create_layout_result_spec tiles_x_min tiles_y_min "minima"
                (RazonMinimo (Z.max 1 cmin) tiros_minimos) volumen tiros_minimos
                Hxmin Hymin) as [Hfit Hnofit].
    split.
    + intros Hg. destruct (Hfit Hg) as (layout & -> & Hlx & Hly & _ & Htipo).
      exists layout. now repeat split.
    + intros Hg. destruct (Hnofit Hg) as (msg & ->). now exists msg.
  - destruct (Z.geb_spec (Z.max 1 cmax) tiros_minimos) as [Hge|Hlt].
    + (* maximal grid *)
      exists (tiles_x_max, tiles_y_max), "maxima"%string. cbn zeta.
      split; [now exists cmin|]. split; [now exists cmax|].
      split; [reflexivity|]. split; [reflexivity|].
      split; [intros; lia|]. split; [now intros _ _|]. split; [intros; lia|].
      cbn [mbind result_bind fst snd].
      destruct (create_layout_result_spec tiles_x_max tiles_y_max "maxima"
                  (RazonMaximo (Z.max 1 cmax) tiros_minimos) volumen tiros_minimos
                  Hxmax Hymax) as [Hfit Hnofit].
      split.
      * intros Hg. destruct (Hfit Hg) as (layout & -> & Hlx & Hly & _ & Htipo).
        exists layout. now repeat split.
      * intros Hg. destruct (Hnofit Hg) as (msg & ->). now exists msg.
    + (* intermediate grid *)
      assert (Hms : (0 < tiros_minimos)%Z) by lia.
      unfold ceil_div.
      assert (Hz : ((tiros_minimos =? 0) = false)%Z) by (apply Z.eqb_neq; lia).
      rewrite Hz. cbn [mbind result_bind].
      set (required := (- (- volumen / tiros_minimos))%Z).
      destruct (find_intermediate_layout_spec
                  tiles_x_min tiles_y_min tiles_x_max tiles_y_max required)
        as (grid & Hfind & Hsome & Hnone & Hdec).
      rewrite Hfind. cbn [mbind result_bind].
      exists grid, "intermedia"%string. cbn zeta.
      split; [now exists cmin|]. split; [now exists cmax|].
      split; [reflexivity|]. split; [reflexivity|].
      split; [intros; lia|]. split; [intros; lia|].
      split.
      { intros _ _. split; [reflexivity|]. exists required.
        split; [apply is_ceil_div; assumption|]. split; assumption. }
      assert (Hgrid : (1 <= fst grid)%Z /\ (1 <= snd grid)%Z).
      { destruct Hdec as [Hex | Hno].
        - destruct (Hsome Hex) as [(Hx & Hy & _) _]. lia.
        - rewrite (Hnone Hno). simpl. lia. }
      destruct grid as [tx ty]. simpl in Hgrid. destruct Hgrid as [Htx Hty].
      destruct (create_layout_result_spec tx ty "intermedia"
                  (RazonIntermedio required) volumen tiros_minimos
                  Htx Hty) as [Hfit Hnofit].
      split.
      * intros Hg. destruct (Hfit Hg) as (layout & -> & Hlx & Hly & _ & Htipo).
        exists layout. now repeat split.
      * intros Hg. destruct (Hnofit Hg) as (msg & ->). now exists msg.
Qed.
End OptimalLayout.

Lemma linear_engine_total (objective : string) (medianil_x medianil_y : Q) :
  @engine_total linear_engine objective medianil_x medianil_y.
Proof. intros tiles_x tiles_y. eexists. reflexivity. Qed.

Lemma production_decision_witness :
  exists layout,
    @_find_optimal_layout linear_engine (sample_tab 10 100 10 100) "width"
      (_calculate_production_metrics 2 2 5 4 100 5) 0 0 = Ok (Some layout) /\
    Layout.tiles_x layout = 5%Z /\
    Layout.tiles_y layout = 4%Z /\
    Layout.planilla_tipo layout = "maxima"%string.
Proof.
  destruct (@production_decision linear_engine (sample_tab 10 100 10 100)
              "width" 0 0 (linear_engine_total "width" 0 0)
              2 2 5 4 100 5
              ltac:(lia) ltac:(lia) ltac:(lia) ltac:(lia) ltac:(lia))
    as (shots_at_min & shots_at_max & grid & tipo
        & (cmin & Hcmin & ->) & (cmax & Hcmax & ->) & _ & _ & _ & Hmax & _ & Hfit & _).
  unfold is_ceil in Hcmin, Hcmax.
  destruct Hmax as [-> ->]; [lia | lia |].
  apply Hfit.
  exists (inject_Z 5 * (10 + 0) - 0 + (0 + 0)), (inject_Z 4 * (5 + 0) - 0 + (0 + 0)).
  split.
  - eexists. split; [reflexivity|]. split; reflexivity.
  - unfold fits_bed. simpl. repeat split; unfold Qlt, Qle; simpl; lia.
Defined.

(** C1 fails where the selected grid does not fit the bed.  Tiles 1000 cm
    wide on a bed of 10 to 50 cm: the bounds are 1 to 1 columns and 1 to 2
    rows; with a volume of 1 and 1 minimum shot the shots at the minimal
    grid (1) do not exceed the minimum shots, yet no minimal grid is
    returned: [_find_optimal_layout] raises [ValueError], and the caller
    turns it into "no layout". *)
Lemma minimal_grid_not_returned :
  @_calculate_layout_bounds coarse_engine (sample_tab 10 50 10 50)
    100 "width" 10 50 10 50 0 0
  = BoundsDone (Some (1, 1, 1, 2)%Z) [1; 1; 1; 2]%nat /\
  (Metrics.tiros_con_min (_calculate_production_metrics 1 1 1 2 1 1) <= 1)%Z /\
  @_find_optimal_layout coarse_engine (sample_tab 10 50 10 50) "width"
    (_calculate_production_metrics 1 1 1 2 1 1) 0 0
  = Raise (ValueError "El ancho total queda fuera de los limites permitidos.") /\
  @_calculate_layout_for_objective coarse_engine (sample_tab 10 50 10 50)
    100 "width" 10 50 10 50 0 0 1 1
  = Some None.
Proof.
  split; [vm_compute; reflexivity|].
  split; [vm_compute; discriminate|].
  split; vm_compute; reflexivity.
Qed.

(** The production example of the spec: volume 100 and 5 minimum shots,
    4 tiles on the minimal grid (25 shots) and 20 on the maximal grid
    (5 shots): the maximal grid is chosen. *)
Example production_example_maximal :
  option_map (fun l => (Layout.tiles_x l, Layout.tiles_y l, Layout.planilla_tipo l,
                        Layout.tiros_necesarios l))
    (match @_find_optimal_layout linear_engine (sample_tab 10 100 10 100) "width"
             (_calculate_production_metrics 2 2 5 4 100 5) 0 0 with
     | Ok r => r
     | Raise _ => None
     end)
  = Some (5, 4, "maxima"%string, 5)%Z.
Proof. vm_compute. reflexivity. Qed.

(** Intermediate searches on the linear engine, bounds 1 to 10 columns and
    2 to 20 rows: 10 required tiles give the first grid of 10 tiles, 23
    required tiles have no grid and fall back to the maximal one. *)
Example intermediate_first_of_least_area :
  @_find_intermediate_layout linear_engine (sample_tab 10 100 10 100)
    1 2 10 20 10 0 0 "width" = Ok (Some (1, 10)%Z).
Proof. vm_compute. reflexivity. Qed.

Example intermediate_falls_back_to_maximal :
  @_find_intermediate_layout linear_engine (sample_tab 10 100 10 100)
    1 2 10 20 23 0 0 "width" = Ok (Some (10, 20)%Z).
Proof. vm_compute. reflexivity. Qed.

(** ** The global box grows with the grid (C4) *)

Lemma py_min2_cases (a b : Q) :
  (py_min2 a b = a /\ a <= b) \/ (py_min2 a b = b /\ b <= a).
Proof.
  unfold py_min2. destruct (Qltb b a) eqn:E.
  - apply Qltb_lt in E. right. split; [reflexivity | lra].
  - apply Qltb_ge in E. left. split; [reflexivity | exact E].
Qed.

Lemma py_max2_cases (a b : Q) :
  (py_max2 a b = a /\ b <= a) \/ (py_max2 a b = b /\ a <= b).
Proof.
  unfold py_max2. destruct (Qltb a b) eqn:E.
  - apply Qltb_lt in E. right. split; [reflexivity | lra].
  - apply Qltb_ge in E. left. split; [reflexivity | exact E].
Qed.

Lemma fold_min_le_init (l : list Q) (x : Q) : fold_left py_min2 l x <= x.
Proof.
  revert x. induction l as [|y l IH]; intros x; simpl; [apply Qle_refl|].
  apply Qle_trans with (py_min2 x y); [apply IH|].
  destruct (py_min2_cases x y) as [[-> _] | [-> Hle]]; [apply Qle_refl | exact Hle].
Qed.

Lemma fold_max_ge_init (l : list Q) (x : Q) : x <= fold_left py_max2 l x.
Proof.
  revert x. induction l as [|y l IH]; intros x; simpl; [apply Qle_refl|].
  apply Qle_trans with (py_max2 x y); [|apply IH].
  destruct (py_max2_cases x y) as [[-> _] | [-> Hle]]; [apply Qle_refl | exact Hle].
Qed.

(** The box of a polygon with points is proper. *)
Lemma aabb_proper (p : OrthoPoly) :
  outer p <> [] ->
  exists minx miny maxx maxy,
    aabb p = Ok (minx, miny, maxx, maxy) /\ minx <= maxx /\ miny <= maxy.
Proof.
  destruct p as [[|[x y] rest] hs]; [intros Hne; now contradiction Hne|].
  intros _. rewrite aabb_nonempty. do 4 eexists. split; [reflexivity|].
  cbn [fst snd]. split.
  - apply Qle_trans with x; [apply fold_min_le_init | apply fold_max_ge_init].
  - apply Qle_trans with y; [apply fold_min_le_init | apply fold_max_ge_init].
Qed.

Lemma tile_placement_poly (pd : PatternData) (medianil_x row_offset_y : Q) (col : Z) :
  let poly := fst (fst (tile_placement pd medianil_x row_offset_y col)) in
  poly = pd_poly1 pd \/ poly = pd_poly2T pd \/ poly = pd_poly3T pd.
Proof.
  unfold tile_placement.
  destruct (col =? 0)%Z; [now left|].
  destruct (col =? 1)%Z; [right; now left|].
  destruct (col =? 2)%Z; [right; now right|].
  destruct (col mod 2 =? 1)%Z; [right; now left | right; now right].
Qed.

Lemma aabb_ok_proper (p : OrthoPoly) (minx miny maxx maxy : Q) :
  aabb p = Ok (minx, miny, maxx, maxy) -> minx <= maxx /\ miny <= maxy.
Proof.
  destruct p as [[|[x y] rest] hs]; [discriminate|].
  rewrite aabb_nonempty. intros [= <- <- <- <-]. cbn [fst snd]. split.
  - apply Qle_trans with x; [apply fold_min_le_init | apply fold_max_ge_init].
  - apply Qle_trans with y; [apply fold_min_le_init | apply fold_max_ge_init].
Qed.

Section GlobalBox.
Variable pd : PatternData.
Variables medianil_x vertical_offset : Q.

Lemma tile_ok_of_points (row col : Z) :
  pattern_has_points pd -> tile_ok pd medianil_x vertical_offset row col.
Proof.
  intros (H1 & H2 & H3). unfold tile_ok.
  destruct (tile_placement_poly pd medianil_x (inject_Z row * vertical_offset) col)
    as [-> | [-> | ->]];
    [destruct (aabb_proper _ H1) as (a & b & c & d & -> & _)
    |destruct (aabb_proper _ H2) as (a & b & c & d & -> & _)
    |destruct (aabb_proper _ H3) as (a & b & c & d & -> & _)]; reflexivity.
Qed.

Lemma tile_box_proper (row col : Z) :
  tile_ok pd medianil_x vertical_offset row col ->
  proper_box (tile_box pd medianil_x vertical_offset row col).
Proof.
  unfold tile_ok, tile_box.
  destruct (tile_placement pd medianil_x (inject_Z row * vertical_offset) col)
    as [[poly ox] oy]. simpl.
  destruct (aabb poly) as [[[[minx miny] maxx] maxy]|e] eqn:Hb; [|discriminate].
  intros _. destruct (aabb_ok_proper _ _ _ _ _ Hb) as [Hx Hy].
  unfold proper_box; simpl. split; lra.
Qed.

(** One step of the column loop: the tile is added when its polygon has
    a box, and the exception of [aabb] comes out otherwise. *)
Lemma bbox_col_step_cases (row : Z) (g : option BoundingBox) (col : Z) :
  (tile_ok pd medianil_x vertical_offset row col /\
   bbox_col_step pd medianil_x (inject_Z row * vertical_offset) (Ok g) col
   = Ok (Some (update_global g (tile_box pd medianil_x vertical_offset row col))))
  \/
  (~ tile_ok pd medianil_x vertical_offset row col /\
   exists e,
     bbox_col_step pd medianil_x (inject_Z row * vertical_offset) (Ok g) col
     = Raise e).
Proof.
  unfold bbox_col_step, tile_box, tile_ok.
  destruct (tile_placement pd medianil_x (inject_Z row * vertical_offset) col)
    as [[poly ox] oy]. cbn [mbind result_bind fst].
  destruct (aabb poly) as [[[[minx miny] maxx] maxy]|e].
  - left. now split.
  - right. split; [discriminate | now exists e].
Qed.

Lemma bbox_row_raise (row_offset_y : Q) (cols : list Z) (e : exn) :
  fold_left (bbox_col_step pd medianil_x row_offset_y) cols (Raise e) = Raise e.
Proof. induction cols as [|col cols IH]; [reflexivity | exact IH]. Qed.

Lemma bbox_grid_raise (tiles_x : Z) (rows : list Z) (e : exn) :
  fold_left (bbox_row_step pd tiles_x medianil_x vertical_offset) rows (Raise e)
  = Raise e.
Proof.
  induction rows as [|row rows IH]; [reflexivity|]. cbn [fold_left].
  unfold bbox_row_step at 2. now rewrite bbox_row_raise.
Qed.

(** A row of the grid: the loop succeeds exactly when every tile of the
    row has a box, and then it has folded the boxes of the row. *)
Lemma bbox_row_cases (row : Z) (cols : list Z) :
  forall g,
    ((forall col, In col cols -> tile_ok pd medianil_x vertical_offset row col) /\
     fold_left (bbox_col_step pd medianil_x (inject_Z row * vertical_offset))
               cols (Ok g)
     = Ok (fold_left (fun g b => Some (update_global g b))
             (map (tile_box pd medianil_x vertical_offset row) cols) g))
    \/
    ((exists col, In col cols /\ ~ tile_ok pd medianil_x vertical_offset row col) /\
     exists e,
       fold_left (bbox_col_step pd medianil_x (inject_Z row * vertical_offset))
                 cols (Ok g) = Raise e).
Proof.
  induction cols as [|col cols IH]; intros g; cbn [fold_left map].
  - left. split; [intros col []| reflexivity].
  - destruct (bbox_col_step_cases row g col) as [[Hok ->] | [Hbad (e & ->)]].
    + destruct (IH (Some (update_global g
                            (tile_box pd medianil_x vertical_offset row col))))
        as [[Hall ->] | [(c & Hc & Hbad) (e & ->)]].
      * left. split; [|reflexivity]. intros c [<- | Hc]; [exact Hok | now apply Hall].
      * right. split; [exists c; split; [now right | exact Hbad] | now exists e].
    + right. split; [exists col; split; [now left | exact Hbad]|].
      exists e. apply bbox_row_raise.
Qed.

(** The whole grid, likewise. *)
Lemma bbox_grid_cases (tiles_x : Z) (rows : list Z) :
  forall g,
    ((forall row col, In row rows -> In col (py_range tiles_x) ->
                      tile_ok pd medianil_x vertical_offset row col) /\
     fold_left (bbox_row_step pd tiles_x medianil_x vertical_offset) rows (Ok g)
     = Ok (fold_left (fun g b => Some (update_global g b))
             (flat_map
                (fun row => map (tile_box pd medianil_x vertical_offset row)
                                (py_range tiles_x))
                rows) g))
    \/
    ((exists row col, In row rows /\ In col (py_range tiles_x) /\
                      ~ tile_ok pd medianil_x vertical_offset row col) /\
     exists e,
       fold_left (bbox_row_step pd tiles_x medianil_x vertical_offset) rows (Ok g)
       = Raise e).
Proof.
  induction rows as [|row rows IH]; intros g; cbn [fold_left flat_map].
  - left. split; [intros row col []| reflexivity].
  - unfold bbox_row_step at 2 4.
    destruct (bbox_row_cases row (py_range tiles_x) g)
      as [[Hrow ->] | [(c & Hc & Hbad) (e & ->)]].
    + destruct (IH (fold_left (fun g b => Some (update_global g b))
                      (map (tile_box pd medianil_x vertical_offset row)
                           (py_range tiles_x)) g))
        as [[Hall ->] | [(r & c & Hr & Hc & Hbad) (e & ->)]].
      * left. split; [|now rewrite fold_left_app].
        intros r c [<- | Hr] Hc; [now apply Hrow | now apply Hall].
      * right. split; [|now exists e].
        exists r, c. split; [now right | now split].
    + right. split; [exists row, c; split; [now left | now split]|].
      exists e. apply bbox_grid_raise.
Qed.
End GlobalBox.

Lemma hull_ext (g : BoundingBox) (l l' : list BoundingBox) :
  (forall b, In b l <-> In b l') -> hull g l -> hull g l'.
Proof.
  intros Hext (Hcov & (b1 & H1 & E1) & (b2 & H2 & E2) & (b3 & H3 & E3) & (b4 & H4 & E4)).
  split; [intros b Hb; apply Hcov, Hext, Hb|].
  split; [exists b1; split; [apply Hext, H1 | exact E1]|].
  split; [exists b2; split; [apply Hext, H2 | exact E2]|].
  split; [exists b3; split; [apply Hext, H3 | exact E3]|].
  exists b4; split; [apply Hext, H4 | exact E4].
Qed.

Lemma hull_single (b : BoundingBox) : hull b [b].
Proof.
  split.
  - intros b' [<- | []]. repeat split; apply Qle_refl.
  - repeat split; exists b; split; try reflexivity; now left.
Qed.

Lemma hull_update (g b : BoundingBox) (seen : list BoundingBox) :
  hull g seen -> hull (update_global (Some g) b) (b :: seen).
Proof.
  intros (Hcov & (b1 & H1 & E1) & (b2 & H2 & E2) & (b3 & H3 & E3) & (b4 & H4 & E4)).
  destruct g as [[[gminx gminy] gmaxx] gmaxy], b as [[[minx miny] maxx] maxy].
  unfold update_global. simpl in E1, E2, E3, E4.
  destruct (py_min2_cases gminx minx) as [[Ea La] | [Ea La]];
  destruct (py_min2_cases gminy miny) as [[Eb Lb] | [Eb Lb]];
  destruct (py_max2_cases gmaxx maxx) as [[Ec Lc] | [Ec Lc]];
  destruct (py_max2_cases gmaxy maxy) as [[Ed Ld] | [Ed Ld]];
  rewrite Ea, Eb, Ec, Ed;
  (split;
   [ intros b' [<- | Hb']; simpl;
     [ repeat split; lra
     | destruct (Hcov b' Hb') as (C1 & C2 & C3 & C4); simpl in C1, C2, C3, C4;
       repeat split; lra ]
   | simpl;
     split; [first [ exists (minx, miny, maxx, maxy); split; [now left | reflexivity]
                   | exists b1; split; [now right | exact E1] ]|];
     split; [first [ exists (minx, miny, maxx, maxy); split; [now left | reflexivity]
                   | exists b2; split; [now right | exact E2] ]|];
     split; [first [ exists (minx, miny, maxx, maxy); split; [now left | reflexivity]
                   | exists b3; split; [now right | exact E3] ]|];
     first [ exists (minx, miny, maxx, maxy); split; [now left | reflexivity]
           | exists b4; split; [now right | exact E4] ] ]).
Qed.

Lemma fold_hull (bs : list BoundingBox) :
  forall g seen,
    hull g seen ->
    exists g',
      fold_left (fun g b => Some (update_global g b)) bs (Some g) = Some g' /\
      hull g' (rev bs ++ seen).
Proof.
  induction bs as [|b bs IH]; intros g seen Hg; cbn [fold_left].
  - exists g. now split.
  - destruct (IH _ _ (hull_update g b seen Hg)) as (g' & E & Hg').
    exists g'. split; [exact E|].
    apply (hull_ext g' (rev bs ++ b :: seen)); [|exact Hg'].
    intros x. simpl. rewrite !in_app_iff. simpl. tauto.
Qed.

(** The global box of a non-empty list of boxes is their hull. *)
Lemma fold_hull_nonempty (b : BoundingBox) (bs : list BoundingBox) :
  exists g,
    fold_left (fun g b => Some (update_global g b)) (b :: bs) None = Some g /\
    hull g (b :: bs).
Proof.
  cbn [fold_left update_global].
  destruct (fold_hull bs b [b] (hull_single b)) as (g & E & Hg).
  exists g. split; [exact E|].
  apply (hull_ext g (rev bs ++ [b])); [|exact Hg].
  intros x. rewrite in_app_iff, <- in_rev. simpl. tauto.
Qed.

(** A hull over more boxes is at least as wide, as high and as large. *)
Lemma hull_monotone (g g' : BoundingBox) (bs bs' : list BoundingBox) :
  hull g bs -> hull g' bs' ->
  (forall b, In b bs -> In b bs') ->
  (forall b, In b bs -> proper_box b) ->
  0 <= bbox_width g /\ 0 <= bbox_height g /\
  bbox_width g <= bbox_width g' /\
  bbox_height g <= bbox_height g' /\
  bbox_area g <= bbox_area g'.
Proof.
  intros (Hcov & (b1 & H1 & E1) & (b2 & H2 & E2) & (b3 & H3 & E3) & (b4 & H4 & E4))
         (Hcov' & _) Hincl Hproper.
  destruct (Hcov b1 H1) as (_ & _ & A1 & _). destruct (Hproper b1 H1) as [P1 _].
  destruct (Hcov b2 H2) as (_ & _ & _ & A2). destruct (Hproper b2 H2) as [_ P2].
  destruct (Hcov' b1 (Hincl b1 H1)) as (C1 & _).
  destruct (Hcov' b2 (Hincl b2 H2)) as (_ & C2 & _).
  destruct (Hcov' b3 (Hincl b3 H3)) as (_ & _ & C3 & _).
  destruct (Hcov' b4 (Hincl b4 H4)) as (_ & _ & _ & C4).
  destruct g as [[[gminx gminy] gmaxx] gmaxy], g' as [[[gminx' gminy'] gmaxx'] gmaxy'].
  unfold bbox_area, bbox_width, bbox_height.
  simpl in *. rewrite <- E1 in *. rewrite <- E2 in *.
  rewrite <- E3 in *. rewrite <- E4 in *.
  assert (W0 : 0 <= gmaxx - gminx) by lra.
  assert (H0 : 0 <= gmaxy - gminy) by lra.
  assert (W : gmaxx - gminx <= gmaxx' - gminx') by lra.
  assert (Hh : gmaxy - gminy <= gmaxy' - gminy') by lra.
  repeat split; try assumption. nra.
Qed.

Lemma py_range_In (n t : Z) : In t (py_range n) <-> (0 <= t < n)%Z.
Proof.
  unfold py_range. rewrite in_map_iff. split.
  - intros (i & <- & Hi). apply in_seq in Hi. lia.
  - intros Ht. exists (Z.to_nat t). split; [lia|]. apply in_seq. lia.
Qed.

Lemma grid_boxes_In (pd : PatternData) (medianil_x vertical_offset : Q)
    (tiles_x tiles_y : Z) (b : BoundingBox) :
  In b (grid_boxes pd medianil_x vertical_offset tiles_x tiles_y) <->
  exists row col,
    (0 <= row < tiles_y)%Z /\ (0 <= col < tiles_x)%Z /\
    b = tile_box pd medianil_x vertical_offset row col.
Proof.
  unfold grid_boxes. rewrite in_flat_map. split.
  - intros (row & Hrow & Hb). apply in_map_iff in Hb as (col & <- & Hcol).
    apply py_range_In in Hrow, Hcol. now exists row, col.
  - intros (row & col & Hrow & Hcol & ->). exists row.
    split; [now apply py_range_In|]. apply in_map_iff. exists col.
    split; [reflexivity | now apply py_range_In].
Qed.

Section GlobalBoxMonotone.
Context `{GeometryBackend}.
Variable self : NestingEngine.
Variable objective : string.
Variable pd : PatternData.
Hypothesis cached : pattern_data (cache_of self objective) = Some pd.
Variables medianil_x medianil_y : Q.

(** With a cached pattern the rows are shifted by the height of the base
    tile plus the row gap. *)
Lemma calculate_global_bbox_cached (tiles_x tiles_y : Z) :
  calculate_global_bbox self tiles_x tiles_y medianil_x medianil_y objective
  = match aabb (pd_poly1 pd) with
    | Ok (minx1, miny1, maxx1, maxy1) =>
        fold_left
          (bbox_row_step pd tiles_x medianil_x (maxy1 - miny1 + medianil_y))
          (py_range tiles_y) (Ok None)
    | Raise e => Raise e
    end.
Proof.
  unfold calculate_global_bbox. fold (cache_of self objective). rewrite cached.
  now destruct (aabb (pd_poly1 pd)) as [[[[minx1 miny1] maxx1] maxy1]|e].
Qed.

(** The running box over a grid of at least one tile is the hull of the
    boxes of its tiles. *)
Lemma grid_hull (vertical_offset : Q) (tiles_x tiles_y : Z) :
  (1 <= tiles_x)%Z -> (1 <= tiles_y)%Z ->
  exists g,
    fold_left (fun g b => Some (update_global g b))
      (grid_boxes pd medianil_x vertical_offset tiles_x tiles_y) None = Some g /\
    hull g (grid_boxes pd medianil_x vertical_offset tiles_x tiles_y).
Proof.
  intros Htx Hty.
  assert (Hmem : In (tile_box pd medianil_x vertical_offset 0 0)
                    (grid_boxes pd medianil_x vertical_offset tiles_x tiles_y)).
  { apply grid_boxes_In. exists 0%Z, 0%Z. repeat split; lia. }
  destruct (grid_boxes pd medianil_x vertical_offset tiles_x tiles_y) as [|b bs];
    [destruct Hmem|].
  apply fold_hull_nonempty.
Qed.

(** C4.  For a cached motif, any gaps and grids of at least one tile:
    whenever [calculate_global_bbox] returns the box of a grid, it also
    returns the box of every grid with no more columns and no more rows,
    and that box is no wider, no higher and no larger in area: the area
    of the returned box is non-decreasing in [tiles_x] and in [tiles_y].
    The box is returned for every grid when the three polygons of the motif
    have points (a polygon without points has no box: [aabb] raises). *)
Theorem global_bbox_area_monotone (tiles_x tiles_y tiles_x' tiles_y' : Z) :
  (1 <= tiles_x <= tiles_x')%Z -> (1 <= tiles_y <= tiles_y')%Z ->
  (pattern_has_points pd ->
   is_ok (calculate_global_bbox self tiles_x' tiles_y'
            medianil_x medianil_y objective) = true) /\
  (forall r',
     calculate_global_bbox self tiles_x' tiles_y' medianil_x medianil_y objective
       = Ok r' ->
     exists b b',
       r' = Some b' /\
       calculate_global_bbox self tiles_x tiles_y medianil_x medianil_y objective
         = Ok (Some b) /\
       0 <= bbox_area b /\
       bbox_width b <= bbox_width b' /\
       bbox_height b <= bbox_height b' /\
       bbox_area b <= bbox_area b').
Proof.
  intros Hx Hy. rewrite !calculate_global_bbox_cached. split.
  - intros Hpoints. pose proof Hpoints as (H1 & _).
    destruct (aabb_proper _ H1) as (minx1 & miny1 & maxx1 & maxy1 & -> & _).
    destruct (bbox_grid_cases pd medianil_x (maxy1 - miny1 + medianil_y)
                tiles_x' (py_range tiles_y') None)
      as [[_ ->] | [(row & col & _ & _ & Hbad) _]]; [reflexivity|].
    destruct Hbad. now apply tile_ok_of_points.
  - intros r'.
    destruct (aabb (pd_poly1 pd)) as [[[[minx1 miny1] maxx1] maxy1]|e];
      [|discriminate].
    set (voff := maxy1 - miny1 + medianil_y).
    destruct (bbox_grid_cases pd medianil_x voff tiles_x' (py_range tiles_y') None)
      as [[Hall' ->] | [_ (e & ->)]]; [|discriminate].
    intros [= <-].
    destruct (bbox_grid_cases pd medianil_x voff tiles_x (py_range tiles_y) None)
      as [[Hall ->] | [(row & col & Hrow & Hcol & Hbad) _]].
    2:{ destruct Hbad. apply py_range_In in Hrow, Hcol.
        apply Hall'; apply py_range_In; lia. }
    fold (grid_boxes pd medianil_x voff tiles_x tiles_y).
    fold (grid_boxes pd medianil_x voff tiles_x' tiles_y').
    destruct (grid_hull voff tiles_x tiles_y) as (g & -> & Hg); [lia | lia |].
    destruct (grid_hull voff tiles_x' tiles_y') as (g' & -> & Hg'); [lia | lia |].
    exists g, g'. split; [reflexivity|]. split; [reflexivity|].
    destruct (hull_monotone g g' _ _ Hg Hg') as (W0 & H0 & W & Hh & A).
    + intros b Hb. apply grid_boxes_In in Hb as (row & col & Hrow & Hcol & ->).
      apply grid_boxes_In. exists row, col. repeat split; lia.
    + intros b Hb. apply grid_boxes_In in Hb as (row & col & Hrow & Hcol & ->).
      apply tile_box_proper, Hall; apply py_range_In; lia.
    + repeat split; try assumption. unfold bbox_area. nra.
Qed.
End GlobalBoxMonotone.

Lemma global_bbox_area_monotone_witness :
  exists b b',
    @calculate_global_bbox rectangle_backend sample_engine 4 2 1 1 "width"
      = Ok (Some b') /\
    @calculate_global_bbox rectangle_backend sample_engine 2 1 1 1 "width"
      = Ok (Some b) /\
    0 <= bbox_area b /\
    bbox_width b <= bbox_width b' /\
    bbox_height b <= bbox_height b' /\
    bbox_area b <= bbox_area b'.
Proof.
  destruct (@global_bbox_area_monotone rectangle_backend sample_engine "width"
              sample_pattern eq_refl 1 1 2 1 4 2 ltac:(lia) ltac:(lia))
    as [Hreturns Hmono].
  destruct (@calculate_global_bbox rectangle_backend sample_engine 4 2 1 1 "width")
    as [r'|e] eqn:Hlarge.
  - destruct (Hmono r' eq_refl) as (b & b' & -> & Hsmall & Hrest).
    exists b, b'. split; [reflexivity|]. split; [exact Hsmall | exact Hrest].
  - assert (Hpoints : pattern_has_points sample_pattern)
      by (repeat split; discriminate).
    specialize (Hreturns Hpoints). discriminate Hreturns.
Defined.

(** The 4 by 2 grid of upright 5 by 10 tiles with gaps of 1 cm: columns
    every 6 cm, rows every 11 cm, a box of 23 by 21. *)
Example global_bbox_4_by_2 :
  option_map (fun b => (Qred (bbox_width b), Qred (bbox_height b)))
    (match @calculate_global_bbox rectangle_backend sample_engine 4 2 1 1 "width" with
     | Ok r => r
     | Raise _ => None
     end)
  = Some (23, 21).
Proof. vm_compute. reflexivity. Qed.

(** ** A second identical request is served from the cache (C5) *)

Lemma floats_eqb_refl (l : list Q) : floats_eqb l l = true.
Proof.
  induction l as [|q l IH]; simpl; [reflexivity|].
  now rewrite Qeq_bool_refl, IH.
Qed.

Lemma key_part_eqb_refl (k : key_part) : key_part_eqb k k = true.
Proof.
  destruct k; simpl.
  - apply Qeq_bool_refl.
  - apply floats_eqb_refl.
  - apply String.eqb_refl.
Qed.

Lemma key_eqb_refl (k : list key_part) : key_eqb k k = true.
Proof.
  induction k as [|a k IH]; simpl; [reflexivity|].
  now rewrite key_part_eqb_refl, IH.
Qed.

Section CacheHit.
Context `{NestingAlgorithms} `{GeometryBackend}.

(** Reading the cache changes nothing, and what it returns is the
    content of the slot of the objective. *)
Lemma render_from_cache_reads (tiles_x tiles_y : Z) (medianil_x medianil_y : Q)
    (objective : string) (w : World) :
  exists o,
    _render_from_cache tiles_x tiles_y medianil_x medianil_y objective w
      = (Ok o, w) /\
    forall pd, o = Some pd ->
               pattern_data (cache_of (engine w) objective) = Some pd.
Proof.
  unfold _render_from_cache, cache_of, get_engine,
    mbind, mret, Eng_bind, Eng_ret. cbn beta iota.
  destruct (pattern_data _) as [pd|].
  - destruct (NestingCache_is_valid _ _); cbn [negb].
    + exists (Some pd). split; [reflexivity | now intros ? [= <-]].
    + exists None. split; [reflexivity | discriminate].
  - exists None. split; [reflexivity | discriminate].
Qed.

(** Right after [_store_nesting_result], the cache of the objective
    answers with the stored pattern. *)
Lemma render_after_store
    (tiles_x tiles_y : Z) (medianil_x medianil_y : Q)
    (paso_y paso_x clearance_cm : Q) (objective : string)
    (poly1 : OrthoPoly) (rects1 : list NamedRect)
    (poly2T : OrthoPoly) (rects2T : list NamedRect)
    (poly3T : OrthoPoly) (rects3T : list NamedRect)
    (dx2 dy2 dx3 dy3 : Q) (rot1 rot2 : Z) (w : World) :
  exists w' pd,
    _store_nesting_result paso_y paso_x clearance_cm objective
      poly1 rects1 poly2T rects2T poly3T rects3T dx2 dy2 dx3 dy3 rot1 rot2 w
      = (Ok tt, w') /\
    placement_calls w' = placement_calls w /\
    _render_from_cache tiles_x tiles_y medianil_x medianil_y objective w'
      = (Ok (Some pd), w') /\
    (pd_rot1 pd, pd_rot2 pd, pd_dx2 pd, pd_dy2 pd, pd_dx3 pd, pd_dy3 pd)
      = (rot1, rot2, dx2, dy2, dx3, dy3).
Proof.
  unfold _store_nesting_result, _render_from_cache, get_engine, put_engine,
    mbind, mret, Eng_bind, Eng_ret. cbn beta iota.
  destruct (String.eqb objective "width") eqn:Eobj.
  - do 2 eexists. split; [reflexivity|]. split; [reflexivity|].
    unfold NestingCache_is_valid, NestingCache_store, _generate_cache_key.
    cbn [engine nesting_cache_width nesting_cache_height pattern_data
         stored_key params pd_paso_y pd_paso_x pd_clearance_cm pd_objective].
    rewrite key_eqb_refl. cbn [negb].
    split; reflexivity.
  - do 2 eexists. split; [reflexivity|]. split; [reflexivity|].
    unfold NestingCache_is_valid, NestingCache_store, _generate_cache_key.
    cbn [engine nesting_cache_width nesting_cache_height pattern_data
         stored_key params pd_paso_y pd_paso_x pd_clearance_cm pd_objective].
    rewrite key_eqb_refl. cbn [negb].
    split; reflexivity.
Qed.

(** C5.  When a call of [calculate_optimal_nesting] without
    [force_recalculate] has returned a result, the same call made again
    right after it is answered from the cache: it returns the pattern
    stored in the slot of the objective, with the rotations and offsets of
    the first result, leaves the engine as it was and makes no call to the
    placement search. *)
Theorem second_call_served_from_cache
    (tiles_x tiles_y : Z)
    (paso_y paso_x clearance_cm medianil_x medianil_y : Q)
    (objective : string) (w w1 : World) (r1 : nesting_return) :
  calculate_optimal_nesting tiles_x tiles_y paso_y paso_x clearance_cm
    medianil_x medianil_y objective false w = (Ok (Some r1), w1) ->
  exists pd,
    pattern_data (cache_of (engine w1) objective) = Some pd /\
    calculate_optimal_nesting tiles_x tiles_y paso_y paso_x clearance_cm
      medianil_x medianil_y objective false w1 = (Ok (Some (Cached pd)), w1) /\
    motif_of (Cached pd) = motif_of r1 /\
    forall r2 w2,
      calculate_optimal_nesting tiles_x tiles_y paso_y paso_x clearance_cm
        medianil_x medianil_y objective false w1 = (r2, w2) ->
      placement_calls w2 = placement_calls w1.
Proof.
  intros Hfirst.
  assert (Hhit : forall pd w',
    _render_from_cache tiles_x tiles_y medianil_x medianil_y objective w'
      = (Ok (Some pd), w') ->
    calculate_optimal_nesting tiles_x tiles_y paso_y paso_x clearance_cm
      medianil_x medianil_y objective false w' = (Ok (Some (Cached pd)), w')).
  { intros pd w' Hr. unfold calculate_optimal_nesting, mbind, Eng_bind.
    cbn [negb]. now rewrite Hr. }
  assert (Hgoal : exists pd,
    _render_from_cache tiles_x tiles_y medianil_x medianil_y objective w1
      = (Ok (Some pd), w1) /\
    motif_of (Cached pd) = motif_of r1).
  { destruct (render_from_cache_reads tiles_x tiles_y medianil_x medianil_y
                objective w) as (o & Hr & _).
    unfold calculate_optimal_nesting, mbind, Eng_bind in Hfirst.
    cbn [negb] in Hfirst. rewrite Hr in Hfirst.
    destruct o as [pd|].
    - (* the first call was itself a hit *)
      unfold mret, Eng_ret in Hfirst. injection Hfirst as <- <-.
      exists pd. now split.
    - (* the first call ran the search and stored its result *)
      unfold get_engine, lift_result in Hfirst. cbn beta iota in Hfirst.
      destruct (build_tile_orthopoly_and_edges_cm (params (engine w)))
        as [[poly_base rects_base]|e]; [|discriminate].
      destruct (for_each _ _ _ w) as [[[global_best global_key]|e] w'];
        [|discriminate].
      destruct global_best as [best|];
        [|unfold mret, Eng_ret in Hfirst; discriminate].
      destruct best as [[[[[[[[[[[[[[rot1 poly1] rects1] best_x] best_y] rot2]
        rects2T] poly2T] x3] y3] rects3T] poly3T] gwidth] gheight] garea].
      destruct (render_after_store tiles_x tiles_y medianil_x medianil_y
                  paso_y paso_x clearance_cm objective
                  poly1 rects1 poly2T rects2T poly3T rects3T
                  best_x best_y x3 y3 rot1 rot2 w')
        as (w'' & pd & Hstore & _ & Hrender & Hmotif).
      rewrite Hstore in Hfirst. unfold mret, Eng_ret in Hfirst.
      injection Hfirst as <- <-.
      exists pd. split; [exact Hrender|]. exact Hmotif. }
  destruct Hgoal as (pd & Hrender & Hmotif).
  exists pd.
  destruct (render_from_cache_reads tiles_x tiles_y medianil_x medianil_y
              objective w1) as (o & Hr & Ho).
  rewrite Hrender in Hr. injection Hr as <-.
  split; [now apply Ho|]. split; [now apply Hhit|]. split; [exact Hmotif|].
  intros r2 w2 Hsecond. rewrite (Hhit pd w1 Hrender) in Hsecond.
  now injection Hsecond as _ <-.
Qed.
End CacheHit.

Lemma second_call_served_from_cache_witness :
  exists r1 w1 pd,
    @calculate_optimal_nesting side_by_side_search rectangle_backend
      3 2 (1 # 2) (1 # 10) 0 0 0 "width" false fresh_world = (Ok (Some r1), w1) /\
    placement_calls w1 = 4%nat /\
    @calculate_optimal_nesting side_by_side_search rectangle_backend
      3 2 (1 # 2) (1 # 10) 0 0 0 "width" false w1 = (Ok (Some (Cached pd)), w1) /\
    motif_of (Cached pd) = motif_of r1.
Proof.
  destruct (@calculate_optimal_nesting side_by_side_search rectangle_backend
              3 2 (1 # 2) (1 # 10) 0 0 0 "width" false fresh_world)
    as [[[r1|]|e] w1] eqn:Hfirst;
    [|vm_compute in Hfirst; discriminate|vm_compute in Hfirst; discriminate].
  destruct (@second_call_served_from_cache side_by_side_search rectangle_backend
              3 2 (1 # 2) (1 # 10) 0 0 0 "width" fresh_world w1 r1 Hfirst)
    as (pd & _ & Hsecond & Hmotif & _).
  exists r1, w1, pd. split; [reflexivity|].
  split; [|split; assumption].
  vm_compute in Hfirst. now injection Hfirst as _ <-.
Defined.

(** The first request on a fresh engine tries both orientations (four
    calls to the search); the repeated request adds none. *)
Example two_requests_four_search_calls :
  let first :=
    @calculate_optimal_nesting side_by_side_search rectangle_backend
      3 2 (1 # 2) (1 # 10) 0 0 0 "width" false fresh_world in
  let second :=
    @calculate_optimal_nesting side_by_side_search rectangle_backend
      3 2 (1 # 2) (1 # 10) 0 0 0 "width" false (snd first) in
  placement_calls (snd first) = 4%nat /\
  placement_calls (snd second) = 4%nat /\
  option_map motif_of (match fst second with Ok r => r | Raise _ => None end)
    = Some (90%Z, 0%Z, 5, 0, 10, 0).
Proof. vm_compute. repeat split. Qed.

(** ** The geometry tests of the repository *)

Example test_rotation_90_clockwise : rotate_point_90cw (1, 0) = (0, - (1)).
Proof. reflexivity. Qed.

Example test_rotation_180 : rotate_point_180 (1, 2) = (- (1), - (2)).
Proof. reflexivity. Qed.

Example test_rectangle_rotation_0 :
  rotate_rect_generic (0, 0, 10, 5) 0 = Ok (0, 0, 10 - 0, 5 - 0).
Proof. reflexivity. Qed.

Example test_rectangle_rotation_90 :
  exists x y w h,
    rotate_rect_generic (0, 0, 10, 5) 90 = Ok (x, y, w, h) /\ w == 5 /\ h == 10.
Proof. do 4 eexists. split; [reflexivity|]. split; reflexivity. Qed.

Example test_aabb_calculation : aabb sample_rectangle = Ok (0, 0, 10, 5).
Proof. reflexivity. Qed.

Example test_polygon_translation :
  outer (translate sample_rectangle 5 3)
  = [(0 + 5, 0 + 3); (10 + 5, 0 + 3); (10 + 5, 5 + 3); (0 + 5, 5 + 3)].
Proof. reflexivity. Qed.

Example test_rectangle_area : calculate_polygon_area sample_rectangle == 50.
Proof. reflexivity. Qed.

Example test_polygon_with_hole_area : calculate_polygon_area holed_square == 64.
Proof. reflexivity. Qed.

Example test_polygon_rotation :
  exists p b,
    rotated_copy sample_rectangle 90 = Ok p /\ aabb p = Ok b /\
    bbox_width b == 5 /\ bbox_height b == 10.
Proof. do 2 eexists. repeat split; reflexivity. Qed.

(** * Further properties of the geometry *)

(** ** The bounding box encloses the outer loop *)

Lemma fold_min_spec (l : list Q) (x : Q) :
  In (fold_left py_min2 l x) (x :: l) /\
  forall y, In y (x :: l) -> fold_left py_min2 l x <= y.
Proof.
  revert x. induction l as [|z l IH]; intros x; cbn [fold_left].
  - split; [now left|]. intros y [<- | []]. apply Qle_refl.
  - destruct (IH (py_min2 x z)) as [Hin Hle].
    destruct (py_min2_cases x z) as [[E Hxz] | [E Hzx]]; rewrite E in *.
    + split.
      * destruct Hin as [Hin | Hin]; [left; exact Hin | right; right; exact Hin].
      * intros y [<- | [<- | Hy]].
        -- apply Hle. now left.
        -- apply Qle_trans with x; [apply Hle; now left | exact Hxz].
        -- apply Hle. now right.
    + split.
      * destruct Hin as [Hin | Hin]; [right; left; exact Hin | right; right; exact Hin].
      * intros y [<- | [<- | Hy]].
        -- apply Qle_trans with z; [apply Hle; now left | exact Hzx].
        -- apply Hle. now left.
        -- apply Hle. now right.
Qed.

Lemma fold_max_spec (l : list Q) (x : Q) :
  In (fold_left py_max2 l x) (x :: l) /\
  forall y, In y (x :: l) -> y <= fold_left py_max2 l x.
Proof.
  revert x. induction l as [|z l IH]; intros x; cbn [fold_left].
  - split; [now left|]. intros y [<- | []]. apply Qle_refl.
  - destruct (IH (py_max2 x z)) as [Hin Hle].
    destruct (py_max2_cases x z) as [[E Hzx] | [E Hxz]]; rewrite E in *.
    + split.
      * destruct Hin as [Hin | Hin]; [left; exact Hin | right; right; exact Hin].
      * intros y [<- | [<- | Hy]].
        -- apply Hle. now left.
        -- apply Qle_trans with x; [exact Hzx | apply Hle; now left].
        -- apply Hle. now right.
    + split.
      * destruct Hin as [Hin | Hin]; [right; left; exact Hin | right; right; exact Hin].
      * intros y [<- | [<- | Hy]].
        -- apply Qle_trans with z; [exact Hxz | apply Hle; now left].
        -- apply Hle. now left.
        -- apply Hle. now right.
Qed.

(** X1.  When [aabb] returns a box, every point of the outer loop lies
    between its corners, and each of its four sides passes through a point
    of the outer loop; it raises [ValueError] exactly on a polygon whose
    outer loop is empty, whatever its holes. *)
Theorem aabb_encloses_outer_loop (p : OrthoPoly) :
  (outer p = [] <-> exists msg, aabb p = Raise (ValueError msg)) /\
  (forall minx miny maxx maxy,
     aabb p = Ok (minx, miny, maxx, maxy) ->
     (forall x y, In (x, y) (outer p) ->
        minx <= x /\ x <= maxx /\ miny <= y /\ y <= maxy) /\
     (exists y, In (minx, y) (outer p)) /\
     (exists y, In (maxx, y) (outer p)) /\
     (exists x, In (x, miny) (outer p)) /\
     (exists x, In (x, maxy) (outer p))).
Proof.
  destruct p as [[|[x0 y0] rest] hs].
  - split; [split; [intros _; eexists; reflexivity | reflexivity]|].
    intros minx miny maxx maxy Hb. discriminate.
  - split.
    { split; [discriminate|]. intros (msg & Hb). rewrite aabb_nonempty in Hb.
      discriminate. }
    intros minx miny maxx maxy. rewrite aabb_nonempty. cbn [fst snd outer].
    intros [= <- <- <- <-].
    destruct (fold_min_spec (map fst rest) x0) as [Imx Lmx].
    destruct (fold_min_spec (map snd rest) y0) as [Imy Lmy].
    destruct (fold_max_spec (map fst rest) x0) as [IMx LMx].
    destruct (fold_max_spec (map snd rest) y0) as [IMy LMy].
    change (x0 :: map fst rest) with (map fst ((x0, y0) :: rest)) in *.
    change (y0 :: map snd rest) with (map snd ((x0, y0) :: rest)) in *.
    split.
    + intros x y Hin.
      pose proof (in_map fst _ _ Hin) as Hx. pose proof (in_map snd _ _ Hin) as Hy.
      cbn [fst snd] in Hx, Hy. repeat split; auto.
    + apply in_map_iff in Imx as ([a b] & E1 & H1).
      apply in_map_iff in IMx as ([c d] & E2 & H2).
      apply in_map_iff in Imy as ([e f] & E3 & H3).
      apply in_map_iff in IMy as ([g h] & E4 & H4).
      cbn [fst snd] in E1, E2, E3, E4. subst a c f h.
      split; [now exists b|]. split; [now exists d|].
      split; [now exists e | now exists g].
Qed.

Lemma aabb_encloses_outer_loop_witness :
  0 <= 10 /\ 10 <= 10 /\ 0 <= 0 /\ 0 <= 5.
Proof.
  destruct (aabb_encloses_outer_loop sample_rectangle) as [_ Hbox].
  destruct (Hbox 0 0 10 5 eq_refl) as [Hin _].
  apply (Hin 10 0). right. now left.
Defined.

(** ** Translation and the bounding box *)

Lemma Qltb_plus_r (a b d : Q) : Qltb (a + d) (b + d) = Qltb a b.
Proof.
  destruct (Qltb a b) eqn:E.
  - apply Qltb_lt in E. apply Qltb_lt. lra.
  - apply Qltb_ge in E. apply Qltb_ge. lra.
Qed.

Lemma fold_min_shift (l : list Q) (x d : Q) :
  fold_left py_min2 (map (fun v => v + d) l) (x + d) = fold_left py_min2 l x + d.
Proof.
  revert x. induction l as [|y l IH]; intros x; cbn [fold_left map]; [reflexivity|].
  replace (py_min2 (x + d) (y + d)) with (py_min2 x y + d); [apply IH|].
  unfold py_min2. rewrite Qltb_plus_r. now destruct (Qltb y x).
Qed.

Lemma fold_max_shift (l : list Q) (x d : Q) :
  fold_left py_max2 (map (fun v => v + d) l) (x + d) = fold_left py_max2 l x + d.
Proof.
  revert x. induction l as [|y l IH]; intros x; cbn [fold_left map]; [reflexivity|].
  replace (py_max2 (x + d) (y + d)) with (py_max2 x y + d); [apply IH|].
  unfold py_max2. rewrite Qltb_plus_r. now destruct (Qltb x y).
Qed.

Lemma aabb_translate (p : OrthoPoly) (dx dy : Q) :
  aabb (translate p dx dy) =
  match aabb p with
  | Ok (minx, miny, maxx, maxy) => Ok (minx + dx, miny + dy, maxx + dx, maxy + dy)
  | Raise e => Raise e
  end.
Proof.
  destruct p as [[|[x y] rest] hs]; [reflexivity|].
  unfold translate. cbn [outer holes map translate_point].
  rewrite !aabb_nonempty. cbn [fst snd].
  assert (Hx : map fst (map (translate_point dx dy) rest)
               = map (fun v => v + dx) (map fst rest)).
  { rewrite !map_map. apply map_ext. now intros [a b]. }
  assert (Hy : map snd (map (translate_point dx dy) rest)
               = map (fun v => v + dy) (map snd rest)).
  { rewrite !map_map. apply map_ext. now intros [a b]. }
  now rewrite Hx, Hy, !fold_min_shift, !fold_max_shift.
Qed.

(** X2.  Translating a polygon moves its bounding box by the same offsets:
    after [translate(dx, dy)] the box is the old box with [dx] added to both
    abscissas and [dy] to both ordinates, so its width and height are
    unchanged; a polygon without points has no box before or after. *)
Theorem translate_moves_the_box (p : OrthoPoly) (dx dy : Q) :
  (forall minx miny maxx maxy,
     aabb p = Ok (minx, miny, maxx, maxy) ->
     aabb (translate p dx dy) = Ok (minx + dx, miny + dy, maxx + dx, maxy + dy) /\
     bbox_width (minx + dx, miny + dy, maxx + dx, maxy + dy)
       == bbox_width (minx, miny, maxx, maxy) /\
     bbox_height (minx + dx, miny + dy, maxx + dx, maxy + dy)
       == bbox_height (minx, miny, maxx, maxy)) /\
  (forall e, aabb p = Raise e -> aabb (translate p dx dy) = Raise e).
Proof.
  split.
  - intros minx miny maxx maxy Hb. rewrite aabb_translate, Hb.
    split; [reflexivity|]. unfold bbox_width, bbox_height. split; ring.
  - intros e Hb. now rewrite aabb_translate, Hb.
Qed.

(** ** Rotation followed by alignment *)

Lemma rotated_copy_lengths (p pr : OrthoPoly) (rot : Z) :
  rotated_copy p rot = Ok pr ->
  length (outer pr) = length (outer p) /\ length (holes pr) = length (holes p).
Proof.
  unfold rotated_copy.
  destruct (_ =? 0)%Z; [intros [= <-]; now split|].
  destruct (_ =? 90)%Z; [intros [= <-]; simpl; now rewrite !length_map|].
  destruct (_ =? 180)%Z; [intros [= <-]; simpl; now rewrite !length_map|].
  destruct (_ =? 270)%Z; [intros [= <-]; simpl; now rewrite !length_map|].
  discriminate.
Qed.

Lemma align_rects_spec (rot : Z) (minx miny : Q) (rects : list NamedRect) :
  (rot mod 90 = 0)%Z ->
  forall acc, exists new,
    fold_left (align_step rot minx miny) rects (Ok acc) = Ok (acc ++ new) /\
    Forall2 (aligned_rect rot minx miny) rects new.
Proof.
  intros Hrot.
  induction rects as [|[name r] rects IH]; intros acc; cbn [fold_left].
  - exists []. split; [now rewrite app_nil_r | constructor].
  - pose proof (rotate_rect_generic_accepts r rot Hrot) as Hok.
    destruct (rotate_rect_generic r rot) as [[[[x y] w] h]|e] eqn:Hr; [|discriminate].
    assert (Hstep : align_step rot minx miny (Ok acc) (name, r)
                    = Ok (acc ++ [(name, (x - minx, y - miny, w, h))])).
    { unfold align_step. cbn [mbind result_bind]. now rewrite Hr. }
    rewrite Hstep.
    destruct (IH (acc ++ [(name, (x - minx, y - miny, w, h))])) as (new & -> & Hall).
    exists ((name, (x - minx, y - miny, w, h)) :: new).
    split; [now rewrite <- app_assoc|].
    constructor; [|exact Hall]. split; [reflexivity|].
    exists x, y, w, h. cbn [snd]. now split.
Qed.

(** X3.  For an angle that is a multiple of 90 and a polygon with points,
    [rotate_and_align_top_left] returns the rotated polygon moved so that
    the minimum corner of its bounding box is the origin, with the width
    and height of the rotated polygon, and the list of the rotated
    rectangles, names and order kept, each moved by the same offset.  It
    raises [ValueError] for every other angle and for a polygon without
    points. *)
Theorem rotate_and_align_top_left_spec
    (poly : OrthoPoly) (rects : list NamedRect) (rot : Z) :
  ((rot mod 90 = 0)%Z -> outer poly <> [] ->
   exists poly_r rects_r rotated minx miny maxx maxy,
     rotate_and_align_top_left poly rects rot = Ok (poly_r, rects_r) /\
     rotated_copy poly rot = Ok rotated /\
     aabb rotated = Ok (minx, miny, maxx, maxy) /\
     poly_r = translate rotated (- minx) (- miny) /\
     aabb poly_r = Ok (minx + - minx, miny + - miny, maxx + - minx, maxy + - miny) /\
     minx + - minx == 0 /\ miny + - miny == 0 /\
     maxx + - minx == maxx - minx /\ maxy + - miny == maxy - miny /\
     Forall2 (aligned_rect rot minx miny) rects rects_r) /\
  ((rot mod 90 <> 0)%Z ->
   exists msg, rotate_and_align_top_left poly rects rot = Raise (ValueError msg)) /\
  ((rot mod 90 = 0)%Z -> outer poly = [] ->
   exists msg, rotate_and_align_top_left poly rects rot = Raise (ValueError msg)).
Proof.
  unfold rotate_and_align_top_left. split; [|split].
  - intros Hrot Hne.
    pose proof (rotated_copy_accepts poly rot Hrot) as Hok.
    destruct (rotated_copy poly rot) as [rotated|e] eqn:Hr; [|discriminate].
    destruct (rotated_copy_lengths _ _ _ Hr) as [Hlen _].
    assert (Hne' : outer rotated <> []).
    { intros E. rewrite E in Hlen. destruct (outer poly); [now apply Hne | discriminate]. }
    destruct (aabb_proper rotated Hne') as (minx & miny & maxx & maxy & Hb & _).
    cbn [mbind result_bind]. rewrite Hb. cbn [mbind result_bind].
    change (fold_left _ rects (Ok []))
      with (fold_left (align_step rot minx miny) rects (Ok [])).
    destruct (align_rects_spec rot minx miny rects Hrot []) as (new & -> & Hall).
    cbn [mbind result_bind app].
    exists (translate rotated (- minx) (- miny)), new, rotated, minx, miny, maxx, maxy.
    split; [reflexivity|]. split; [reflexivity|]. split; [exact Hb|].
    split; [reflexivity|]. split; [now rewrite aabb_translate, Hb|].
    repeat split; try ring. exact Hall.
  - intros Hrot. rewrite (rotated_copy_rejects poly rot Hrot). eexists. reflexivity.
  - intros Hrot Hempty.
    pose proof (rotated_copy_accepts poly rot Hrot) as Hok.
    destruct (rotated_copy poly rot) as [rotated|e] eqn:Hr; [|discriminate].
    destruct (rotated_copy_lengths _ _ _ Hr) as [Hlen _].
    rewrite Hempty in Hlen. destruct rotated as [[|pt o] hs]; [|discriminate].
    cbn [mbind result_bind]. rewrite aabb_empty. eexists. reflexivity.
Qed.

Lemma rotate_and_align_top_left_spec_witness :
  exists msg,
    rotate_and_align_top_left sample_rectangle [] 45 = Raise (ValueError msg).
Proof.
  destruct (rotate_and_align_top_left_spec sample_rectangle [] 45) as (_ & Hbad & _).
  apply Hbad. discriminate.
Defined.

(** The rectangle of the tests, turned by 90 degrees and aligned: the box
    runs from the origin to (5, 10). *)
Example align_sample_rectangle :
  exists p r b, rotate_and_align_top_left sample_rectangle [] 90 = Ok (p, r) /\
                aabb p = Ok b /\
                Qred (box_minx b) = 0 /\ Qred (box_miny b) = 0 /\
                Qred (box_maxx b) = 5 /\ Qred (box_maxy b) = 10.
Proof. do 3 eexists. repeat split. Qed.

(** ** Rotations compose *)

Lemma rotated_copy_turn (p : OrthoPoly) (rot : Z) :
  (rot mod 90 = 0)%Z ->
  rotated_copy p rot =
  Ok {| outer := map (turn (rot mod 360)) (outer p);
        holes := map (map (turn (rot mod 360))) (holes p) |}.
Proof.
  intros Hrot. unfold rotated_copy.
  destruct (mod_360_cases rot) as [[_ H0]|[H0 _]]; [|contradiction].
  destruct H0 as [-> | [-> | [-> | ->]]]; cbn [Z.eqb Pos.eqb]; try reflexivity.
  f_equal. unfold turn. cbn [Z.eqb]. f_equal.
  - symmetry. apply map_id.
  - symmetry. erewrite map_ext; [apply map_id|]. intros l. apply map_id.
Qed.

Lemma turn_turn (a b : Z) (pt : Point) :
  In a [0; 90; 180; 270]%Z -> In b [0; 90; 180; 270]%Z ->
  turn b (turn a pt) = turn ((a + b) mod 360) pt.
Proof.
  destruct pt as [x y]. simpl.
  intros [<- | [<- | [<- | [<- | []]]]] [<- | [<- | [<- | [<- | []]]]];
    destruct x as [[|xn|xn] xd], y as [[|yn|yn] yd]; reflexivity.
Qed.

(** X4.  Rotations by multiples of 90 compose by adding the angles:
    rotating a copy rotated by [a] by [b] gives exactly the copy rotated by
    [a + b].  In particular a quarter turn followed by three quarter turns,
    or a half turn done twice, gives back the outer loop and the holes of
    the original polygon. *)
Theorem rotated_copy_composes (p : OrthoPoly) (a b : Z) :
  (a mod 90 = 0)%Z -> (b mod 90 = 0)%Z ->
  (q ← rotated_copy p a; rotated_copy q b) = rotated_copy p (a + b) /\
  (((a + b) mod 360 = 0)%Z ->
   (q ← rotated_copy p a; rotated_copy q b) = Ok p).
Proof.
  intros Ha Hb.
  assert (Hab : ((a + b) mod 90 = 0)%Z).
  { rewrite Z.add_mod, Ha, Hb by discriminate. reflexivity. }
  assert (Ina : In (a mod 360)%Z [0; 90; 180; 270]%Z).
  { simpl. destruct (mod_360_cases a) as [[_ H0]|[H0 _]]; [|contradiction].
    destruct H0 as [E | [E | [E | E]]]; rewrite E; auto. }
  assert (Inb : In (b mod 360)%Z [0; 90; 180; 270]%Z).
  { simpl. destruct (mod_360_cases b) as [[_ H0]|[H0 _]]; [|contradiction].
    destruct H0 as [E | [E | [E | E]]]; rewrite E; auto. }
  assert (Hcomp : (q ← rotated_copy p a; rotated_copy q b) = rotated_copy p (a + b)).
  { rewrite (rotated_copy_turn p a Ha). cbn [mbind result_bind].
    rewrite (rotated_copy_turn _ b Hb), (rotated_copy_turn p (a + b) Hab).
    cbn [outer holes]. rewrite Z.add_mod by discriminate.
    f_equal. f_equal.
    - rewrite map_map. apply map_ext. intros pt. now apply turn_turn.
    - rewrite map_map. apply map_ext. intros l. rewrite map_map.
      apply map_ext. intros pt. now apply turn_turn. }
  split; [exact Hcomp|].
  intros Hzero. rewrite Hcomp, (rotated_copy_turn p (a + b) Hab), Hzero.
  destruct p as [o hs]. cbn [outer holes]. f_equal. f_equal.
  - apply map_id.
  - erewrite map_ext; [apply map_id|]. intros l. apply map_id.
Qed.

Lemma rotated_copy_composes_witness :
  (q ← rotated_copy sample_rectangle 90; rotated_copy q 270) = Ok sample_rectangle.
Proof.
  apply (rotated_copy_composes sample_rectangle 90 270); reflexivity.
Defined.

(** ** Rotation of a rectangle *)

Lemma fold_min_eq (l : list Q) (x c : Q) :
  In c (x :: l) -> (forall y, In y (x :: l) -> c <= y) ->
  fold_left py_min2 l x == c.
Proof.
  intros Hin Hle. destruct (fold_min_spec l x) as [Hm Hml].
  apply Qle_antisym; [now apply Hml | now apply Hle].
Qed.

Lemma fold_max_eq (l : list Q) (x c : Q) :
  In c (x :: l) -> (forall y, In y (x :: l) -> y <= c) ->
  fold_left py_max2 l x == c.
Proof.
  intros Hin Hle. destruct (fold_max_spec l x) as [Hm Hml].
  apply Qle_antisym; [now apply Hle | now apply Hml].
Qed.

Ltac extremum c :=
  first [apply (fold_min_eq _ _ c) | apply (fold_max_eq _ _ c)];
  [simpl; tauto
  |let y := fresh "y" in let Hy := fresh "Hy" in
   simpl; intros y Hy;
   repeat (destruct Hy as [<- | Hy]; [lra|]); contradiction].

(** X5.  A rectangle of non-negative width and height turned by a multiple
    of 90 degrees is returned as a rectangle of non-negative sides and of
    the same area: its sides are kept by 0 and 180 degrees and exchanged by
    90 and 270 degrees, and its corner of least coordinates is the image of
    the corner the rotation sends there. *)
Theorem rotate_rect_generic_closed_forms (x y w h : Q) (rot : Z) :
  0 <= w -> 0 <= h -> (rot mod 90 = 0)%Z ->
  exists x' y' w' h',
    rotate_rect_generic (x, y, w, h) rot = Ok (x', y', w', h') /\
    0 <= w' /\ 0 <= h' /\ w' * h' == w * h /\
    ((rot mod 360 = 0)%Z -> x' == x /\ y' == y /\ w' == w /\ h' == h) /\
    ((rot mod 360 = 90)%Z -> x' == y /\ y' == - (x + w) /\ w' == h /\ h' == w) /\
    ((rot mod 360 = 180)%Z ->
       x' == - (x + w) /\ y' == - (y + h) /\ w' == w /\ h' == h) /\
    ((rot mod 360 = 270)%Z -> x' == - (y + h) /\ y' == x /\ w' == h /\ h' == w).
Proof.
  intros Hw Hh Hrot.
  destruct (mod_360_cases rot) as [[_ H0]|[H0 _]]; [|contradiction].
  unfold rotate_rect_generic.
  destruct H0 as [E | [E | [E | E]]]; rewrite E;
    cbn [Z.eqb Pos.eqb map fst snd mbind result_bind py_min py_max
         rotate_point_90cw rotate_point_180 rotate_point_270cw];
    do 4 eexists; (split; [reflexivity|]).
  - assert (Hx : fold_left py_min2 [x + w; x + w; x] x == x) by extremum x.
    assert (Hy : fold_left py_min2 [y; y + h; y + h] y == y) by extremum y.
    assert (HX : fold_left py_max2 [x + w; x + w; x] x == x + w) by extremum (x + w).
    assert (HY : fold_left py_max2 [y; y + h; y + h] y == y + h) by extremum (y + h).
    rewrite Hx, Hy, HX, HY.
    repeat split; try discriminate; try lra; try nra; try reflexivity.
  - assert (Hx : fold_left py_min2 [y; y + h; y + h] y == y) by extremum y.
    assert (Hy : fold_left py_min2 [- (x + w); - (x + w); - x] (- x) == - (x + w))
      by extremum (- (x + w)).
    assert (HX : fold_left py_max2 [y; y + h; y + h] y == y + h) by extremum (y + h).
    assert (HY : fold_left py_max2 [- (x + w); - (x + w); - x] (- x) == - x)
      by extremum (- x).
    rewrite Hx, Hy, HX, HY.
    repeat split; try discriminate; try lra; try nra; try reflexivity.
  - assert (Hx : fold_left py_min2 [- (x + w); - (x + w); - x] (- x) == - (x + w))
      by extremum (- (x + w)).
    assert (Hy : fold_left py_min2 [- y; - (y + h); - (y + h)] (- y) == - (y + h))
      by extremum (- (y + h)).
    assert (HX : fold_left py_max2 [- (x + w); - (x + w); - x] (- x) == - x)
      by extremum (- x).
    assert (HY : fold_left py_max2 [- y; - (y + h); - (y + h)] (- y) == - y)
      by extremum (- y).
    rewrite Hx, Hy, HX, HY.
    repeat split; try discriminate; try lra; try nra; try reflexivity.
  - assert (Hx : fold_left py_min2 [- y; - (y + h); - (y + h)] (- y) == - (y + h))
      by extremum (- (y + h)).
    assert (Hy : fold_left py_min2 [x + w; x + w; x] x == x) by extremum x.
    assert (HX : fold_left py_max2 [- y; - (y + h); - (y + h)] (- y) == - y)
      by extremum (- y).
    assert (HY : fold_left py_max2 [x + w; x + w; x] x == x + w) by extremum (x + w).
    rewrite Hx, Hy, HX, HY.
    repeat split; try discriminate; try lra; try nra; try reflexivity.
Qed.

Lemma rotate_rect_generic_closed_forms_witness :
  exists x' y' w' h',
    rotate_rect_generic (1, 2, 3, 4) 450 = Ok (x', y', w', h') /\
    x' == 2 /\ y' == - (4) /\ w' == 4 /\ h' == 3.
Proof.
  destruct (rotate_rect_generic_closed_forms 1 2 3 4 450)
    as (x' & y' & w' & h' & Hr & _ & _ & _ & _ & H90 & _);
    [lra | lra | reflexivity |].
  exists x', y', w', h'. split; [exact Hr|].
  destruct (H90 eq_refl) as (Hx & Hy & Hw & Hh).
  repeat split; [exact Hx | rewrite Hy; reflexivity | exact Hw | exact Hh].
Defined.

(** * Further properties of the area *)



















(** ** Rectangles *)




(** * Further properties of the nesting engine *)

(** ** The comparison of candidates *)

Lemma Qle_bool_abs (a eps : Q) :
  Qle_bool (Qabs a) eps = true <-> - eps <= a /\ a <= eps.
Proof.
  rewrite Qle_bool_iff. split.
  - intros Ha. now apply Qabs_Qle_condition.
  - intros Ha. now apply Qabs_Qle_condition.
Qed.

Lemma better_spec (eps : Q) (k0 k1 k2 g0 g1 g2 : Q) :
  better eps (k0, k1, k2) (Some (g0, g1, g2)) = true <->
  k0 < g0 - eps \/
  ((- eps <= k0 - g0 /\ k0 - g0 <= eps) /\
   (k1 < g1 - eps \/
    ((- eps <= k1 - g1 /\ k1 - g1 <= eps) /\ k2 < g2 - eps))).
Proof.
  unfold better.
  destruct (Qltb k0 (g0 - eps)) eqn:E0.
  { apply Qltb_lt in E0. split; [now left | reflexivity]. }
  apply Qltb_ge in E0.
  destruct (Qle_bool (Qabs (k0 - g0)) eps) eqn:A0.
  2:{ split; [discriminate|]. intros [H0 | [H0 _]]; [lra|].
      apply Qle_bool_abs in H0. congruence. }
  apply Qle_bool_abs in A0.
  destruct (Qltb k1 (g1 - eps)) eqn:E1.
  { apply Qltb_lt in E1. split; [right; split; [exact A0 | now left] | reflexivity]. }
  apply Qltb_ge in E1.
  destruct (Qle_bool (Qabs (k1 - g1)) eps) eqn:A1.
  2:{ split; [discriminate|]. intros [H0 | [_ [H1 | [H1 _]]]]; [lra | lra |].
      apply Qle_bool_abs in H1. congruence. }
  apply Qle_bool_abs in A1.
  destruct (Qltb k2 (g2 - eps)) eqn:E2.
  - apply Qltb_lt in E2. split; [|reflexivity]. intros _.
    right. split; [exact A0|]. right. now split.
  - apply Qltb_ge in E2. split; [discriminate|].
    intros [H0 | [_ [H1 | [_ H2]]]]; lra.
Qed.

(** X8.  The test that lets a candidate replace the best one so far, for a
    tolerance [eps >= 0]: the first candidate is always taken; a candidate
    whose key equals the best key is never taken, so on equal scores the
    orientation tried first (90 degrees) is kept; the test never holds in
    both directions; and with [eps = 0] it is the strict lexicographic
    order on the three components of the key. *)
Theorem better_is_strict_with_tolerance (eps : Q) (k g : Q * Q * Q) :
  0 <= eps ->
  better eps k None = true /\
  better eps k (Some k) = false /\
  (better eps k (Some g) = true -> better eps g (Some k) = false) /\
  (eps == 0 ->
   let '(k0, k1, k2) := k in
   let '(g0, g1, g2) := g in
   better eps k (Some g) = true <->
   k0 < g0 \/ (k0 == g0 /\ (k1 < g1 \/ (k1 == g1 /\ k2 < g2)))).
Proof.
  intros Heps. destruct k as [[k0 k1] k2], g as [[g0 g1] g2].
  split; [reflexivity|]. split; [|split].
  - destruct (better eps (k0, k1, k2) (Some (k0, k1, k2))) eqn:E; [|reflexivity].
    apply better_spec in E. lra.
  - intros Hkg. apply better_spec in Hkg.
    destruct (better eps (g0, g1, g2) (Some (k0, k1, k2))) eqn:E; [|reflexivity].
    apply better_spec in E. lra.
  - intros Hzero. rewrite better_spec. split.
    + intros [H0 | [H0 [H1 | [H1 H2]]]].
      * left. lra.
      * right. split; [lra|]. left. lra.
      * right. split; [lra|]. right. split; lra.
    + intros [H0 | [H0 [H1 | [H1 H2]]]].
      * left. lra.
      * right. split; [lra|]. left. lra.
      * right. split; [lra|]. right. split; lra.
Qed.

Lemma better_is_strict_with_tolerance_witness :
  better (1 # 1000000000) (15, 10, 150) (Some (15, 10, 150)) = false.
Proof.
  destruct (better_is_strict_with_tolerance
              (1 # 1000000000) (15, 10, 150) (15, 10, 150)) as (_ & Hsame & _).
  - discriminate.
  - exact Hsame.
Defined.

(** ** What a call of the engine changes *)

Section EngineFrame.
Context `{NestingAlgorithms} `{GeometryBackend}.

(** One orientation: the engine is left as it is, the search is called
    at most twice, and the best candidate is either kept or replaced by
    one built on the base tile turned by [rot1]. *)
Lemma try_orientation_cases
    (poly_base : OrthoPoly) (rects_base : list NamedRect)
    (paso_y paso_x clearance_cm : Q) (objective : string)
    (st : option GlobalBest * option (Q * Q * Q)) (rot1 : Z) (w : World) :
  exists r w',
    try_orientation poly_base rects_base paso_y paso_x clearance_cm objective
      st rot1 w = (r, w') /\
    engine w' = engine w /\
    (placement_calls w <= placement_calls w' <= placement_calls w + 2)%nat /\
    forall gb gk, r = Ok (gb, gk) ->
      (gb, gk) = st \/
      (placement_calls w' = placement_calls w + 2)%nat /\
      exists b, gb = Some b /\ aligned_best poly_base rects_base [rot1] gb.
Proof.
  destruct st as [global_best global_key].
  unfold try_orientation, get_engine, lift_result, call_search,
    mbind, mret, Eng_bind, Eng_ret. cbn beta iota.
  destruct (rotate_and_align_top_left poly_base rects_base rot1)
    as [[poly1 rects1]|e] eqn:Halign.
  2:{ do 2 eexists. split; [reflexivity|]. split; [reflexivity|].
      split; [lia | discriminate]. }
  destruct (best_place_second_tile poly1 rects1 paso_y paso_x clearance_cm objective)
    as [[c2|]|e].
  2:{ do 2 eexists. split; [reflexivity|]. split; [reflexivity|].
      cbn [placement_calls]. split; [lia|]. intros gb gk [= <- <-]. now left. }
  2:{ do 2 eexists. split; [reflexivity|]. split; [reflexivity|].
      cbn [placement_calls]. split; [lia | discriminate]. }
  destruct c2 as [[[[[[[best_x best_y] rot2] rects2T] poly2T] gw12] gh12] ga12].
  cbn [engine placement_calls].
  destruct (best_place_third_tile _ _ _ _ _ _ _ _ _ _) as [[c3|]|e].
  2:{ do 2 eexists. split; [reflexivity|]. split; [reflexivity|].
      cbn [placement_calls]. split; [lia|]. intros gb gk [= <- <-]. now left. }
  2:{ do 2 eexists. split; [reflexivity|]. split; [reflexivity|].
      cbn [placement_calls]. split; [lia | discriminate]. }
  destruct c3 as [[[[[[x3 y3] rects3T] poly3T] gwidth] gheight] garea].
  destruct (better EPSILON _ global_key).
  - do 2 eexists. split; [reflexivity|]. split; [reflexivity|].
    cbn [placement_calls]. split; [lia|]. intros gb gk [= <- <-]. right.
    split; [lia|]. eexists. split; [reflexivity|].
    cbn [aligned_best best_orientation]. split; [now left | exact Halign].
  - do 2 eexists. split; [reflexivity|]. split; [reflexivity|].
    cbn [placement_calls]. split; [lia|]. intros gb gk [= <- <-]. now left.
Qed.

(** The loop over the orientations 90 and 270. *)
Lemma orientations_loop
    (poly_base : OrthoPoly) (rects_base : list NamedRect)
    (paso_y paso_x clearance_cm : Q) (objective : string) (w : World) :
  exists r w',
    for_each
      (try_orientation poly_base rects_base paso_y paso_x clearance_cm objective)
      [90%Z; 270%Z] (None, None) w = (r, w') /\
    engine w' = engine w /\
    (placement_calls w <= placement_calls w' <= placement_calls w + 4)%nat /\
    forall gb gk, r = Ok (gb, gk) ->
      aligned_best poly_base rects_base [90%Z; 270%Z] gb /\
      (gb <> None -> (placement_calls w + 2 <= placement_calls w')%nat).
Proof.
  cbn [for_each]. unfold mbind, Eng_bind.
  destruct (try_orientation_cases poly_base rects_base paso_y paso_x
              clearance_cm objective (None, None) 90 w)
    as (r1 & w1 & -> & He1 & Hc1 & Hst1).
  destruct r1 as [[gb1 gk1]|e].
  2:{ do 2 eexists. split; [reflexivity|]. split; [exact He1|].
      split; [lia | discriminate]. }
  destruct (try_orientation_cases poly_base rects_base paso_y paso_x
              clearance_cm objective (gb1, gk1) 270 w1)
    as (r2 & w2 & -> & He2 & Hc2 & Hst2).
  destruct r2 as [[gb2 gk2]|e]; unfold mret, Eng_ret.
  2:{ do 2 eexists. split; [reflexivity|]. split; [congruence|].
      split; [lia | discriminate]. }
  do 2 eexists. split; [reflexivity|]. split; [congruence|]. split; [lia|].
  intros gb gk [= <- <-].
  destruct (Hst2 gb2 gk2 eq_refl) as [[= -> ->] | (Hn2 & b2 & -> & Hal2)].
  - destruct (Hst1 gb1 gk1 eq_refl) as [[= -> ->] | (Hn1 & b1 & -> & Hal1)].
    + split; [exact I | congruence].
    + split; [|lia]. cbn [aligned_best] in *.
      destruct (best_orientation b1) as [[rot1 p1] r1].
      destruct Hal1 as [[<- | []] Hal1]. split; [now left | exact Hal1].
  - split; [|lia]. cbn [aligned_best] in *.
    destruct (best_orientation b2) as [[rot1 p1] r1].
    destruct Hal2 as [[<- | []] Hal2]. split; [right; now left | exact Hal2].
Qed.

Lemma store_nesting_result_effect
    (paso_y paso_x clearance_cm : Q) (objective : string)
    (poly1 : OrthoPoly) (rects1 : list NamedRect)
    (poly2T : OrthoPoly) (rects2T : list NamedRect)
    (poly3T : OrthoPoly) (rects3T : list NamedRect)
    (dx2 dy2 dx3 dy3 : Q) (rot1 rot2 : Z) (w : World) :
  exists w',
    _store_nesting_result paso_y paso_x clearance_cm objective
      poly1 rects1 poly2T rects2T poly3T rects3T dx2 dy2 dx3 dy3 rot1 rot2 w
      = (Ok tt, w') /\
    placement_calls w' = placement_calls w /\
    params (engine w') = params (engine w) /\
    pattern_data (cache_of (engine w') objective) =
      Some {| pd_poly1 := poly1; pd_rects1 := rects1;
              pd_poly2T := poly2T; pd_rects2T := rects2T;
              pd_poly3T := poly3T; pd_rects3T := rects3T;
              pd_dx2 := dx2; pd_dy2 := dy2; pd_dx3 := dx3; pd_dy3 := dy3;
              pd_rot1 := rot1; pd_rot2 := rot2;
              pd_paso_y := paso_y; pd_paso_x := paso_x;
              pd_clearance_cm := clearance_cm; pd_objective := objective |} /\
    (if String.eqb objective "width"
     then nesting_cache_height (engine w') = nesting_cache_height (engine w) /\
          last_cache_key_height (engine w') = last_cache_key_height (engine w)
     else nesting_cache_width (engine w') = nesting_cache_width (engine w) /\
          last_cache_key_width (engine w') = last_cache_key_width (engine w)).
Proof.
  unfold _store_nesting_result, get_engine, put_engine, cache_of,
    mbind, mret, Eng_bind, Eng_ret. cbn beta iota.
  destruct poly1 as [o1 h1], poly2T as [o2 h2], poly3T as [o3 h3].
  destruct (String.eqb objective "width") eqn:Eobj.
  - eexists. split; [reflexivity|]. cbn [engine placement_calls params
      nesting_cache_width nesting_cache_height last_cache_key_height
      last_cache_key_width pattern_data NestingCache_store outer holes].
    repeat split.
  - eexists. split; [reflexivity|]. cbn [engine placement_calls params
      nesting_cache_width nesting_cache_height last_cache_key_height
      last_cache_key_width pattern_data NestingCache_store outer holes].
    repeat split.
Qed.
End EngineFrame.

Section EngineResults.
Context `{NestingAlgorithms} `{GeometryBackend}.

(** The three ways a call can end. *)
Lemma calculate_optimal_nesting_cases
    (tiles_x tiles_y : Z)
    (paso_y paso_x clearance_cm medianil_x medianil_y : Q)
    (objective : string) (force_recalculate : bool) (w : World) :
  let call :=
    calculate_optimal_nesting tiles_x tiles_y paso_y paso_x clearance_cm
      medianil_x medianil_y objective force_recalculate w in
  (* served from the cache *)
  (exists pd,
     force_recalculate = false /\
     call = (Ok (Some (Cached pd)), w) /\
     pattern_data (cache_of (engine w) objective) = Some pd) \/
  (* no result *)
  (exists r w',
     call = (r, w') /\ (r = Ok None \/ exists e, r = Raise e) /\
     engine w' = engine w /\
     (placement_calls w <= placement_calls w' <= placement_calls w + 4)%nat) \/
  (* a computed result *)
  (exists nr w' poly_base rects_base,
     call = (Ok (Some (Computed nr)), w') /\
     build_tile_orthopoly_and_edges_cm (params (engine w))
       = Ok (poly_base, rects_base) /\
     In (nr_rot1 nr) [90%Z; 270%Z] /\
     rotate_and_align_top_left poly_base rects_base (nr_rot1 nr)
       = Ok (nr_poly1 nr, nr_rects1 nr) /\
     (nr_tiles_x nr, nr_tiles_y nr, nr_medianil_x nr, nr_medianil_y nr)
       = (tiles_x, tiles_y, medianil_x, medianil_y) /\
     (placement_calls w + 2 <= placement_calls w' <= placement_calls w + 4)%nat /\
     params (engine w') = params (engine w) /\
     pattern_data (cache_of (engine w') objective) =
       Some {| pd_poly1 := nr_poly1 nr; pd_rects1 := nr_rects1 nr;
               pd_poly2T := nr_poly2T nr; pd_rects2T := nr_rects2T nr;
               pd_poly3T := nr_poly3T nr; pd_rects3T := nr_rects3T nr;
               pd_dx2 := nr_dx2 nr; pd_dy2 := nr_dy2 nr;
               pd_dx3 := nr_dx3 nr; pd_dy3 := nr_dy3 nr;
               pd_rot1 := nr_rot1 nr; pd_rot2 := nr_rot2 nr;
               pd_paso_y := paso_y; pd_paso_x := paso_x;
               pd_clearance_cm := clearance_cm; pd_objective := objective |} /\
     (if String.eqb objective "width"
      then nesting_cache_height (engine w') = nesting_cache_height (engine w) /\
           last_cache_key_height (engine w') = last_cache_key_height (engine w)
      else nesting_cache_width (engine w') = nesting_cache_width (engine w) /\
           last_cache_key_width (engine w') = last_cache_key_width (engine w))).
Proof.
  intros call.
  assert (Hmiss :
    (exists o, (if negb force_recalculate
                then _render_from_cache tiles_x tiles_y medianil_x medianil_y objective
                else mret None) w = (Ok o, w) /\
               forall pd, o = Some pd ->
                 force_recalculate = false /\
                 pattern_data (cache_of (engine w) objective) = Some pd)).
  { destruct force_recalculate; cbn [negb].
    - exists None. split; [reflexivity | discriminate].
    - destruct (render_from_cache_reads tiles_x tiles_y medianil_x medianil_y
                  objective w) as (o & Hr & Ho).
      exists o. split; [exact Hr|]. intros pd Hpd. split; [reflexivity | now apply Ho]. }
  destruct Hmiss as (o & Hr & Ho).
  subst call. unfold calculate_optimal_nesting, mbind, Eng_bind. rewrite Hr.
  destruct o as [pd|].
  { left. exists pd. destruct (Ho pd eq_refl) as [Hf Hpd].
    split; [exact Hf|]. split; [reflexivity | exact Hpd]. }
  right. clear Hr Ho.
  unfold get_engine, lift_result. cbn beta iota.
  destruct (build_tile_orthopoly_and_edges_cm (params (engine w)))
    as [[poly_base rects_base]|e] eqn:Hbuild.
  2:{ left. do 2 eexists. split; [reflexivity|].
      split; [right; now exists e|]. split; [reflexivity | lia]. }
  destruct (orientations_loop poly_base rects_base paso_y paso_x clearance_cm
              objective w) as (r & w1 & -> & He & Hc & Hinv).
  destruct r as [[gb gk]|e].
  2:{ left. do 2 eexists. split; [reflexivity|].
      split; [right; now exists e|]. split; [exact He | exact Hc]. }
  destruct (Hinv gb gk eq_refl) as [Hal Hfound].
  destruct gb as [best|]; unfold mret, Eng_ret.
  2:{ left. do 2 eexists. split; [reflexivity|].
      split; [now left|]. split; [exact He | exact Hc]. }
  right.
  destruct best as [[[[[[[[[[[[[[rot1 poly1] rects1] best_x] best_y] rot2]
    rects2T] poly2T] x3] y3] rects3T] poly3T] gwidth] gheight] garea].
  destruct (store_nesting_result_effect paso_y paso_x clearance_cm objective
              poly1 rects1 poly2T rects2T poly3T rects3T
              best_x best_y x3 y3 rot1 rot2 w1)
    as (w2 & -> & Hcalls & Hparams & Hslot & Hother).
  cbn [aligned_best best_orientation] in Hal. destruct Hal as [Hrot Halign].
  eexists _, w2, poly_base, rects_base.
  split; [reflexivity|]. split; [reflexivity|].
  cbn [nr_rot1 nr_poly1 nr_rects1 nr_tiles_x nr_tiles_y nr_medianil_x
       nr_medianil_y nr_poly2T nr_rects2T nr_poly3T nr_rects3T
       nr_dx2 nr_dy2 nr_dx3 nr_dy3 nr_rot2].
  split; [exact Hrot|]. split; [exact Halign|]. split; [reflexivity|].
  split; [assert (gb_found : Some (rot1, poly1, rects1, best_x, best_y, rot2,
                    rects2T, poly2T, x3, y3, rects3T, poly3T,
                    gwidth, gheight, garea) <> None) by discriminate;
          specialize (Hfound gb_found); lia|].
  split; [congruence|]. split; [exact Hslot|].
  rewrite <- He. exact Hother.
Qed.
End EngineResults.

Section EngineContracts.
Context `{NestingAlgorithms} `{GeometryBackend}.

(** X9.  Whatever the placement search and the tile builder do, a call
    of [calculate_optimal_nesting] never changes the box parameters of
    the engine and calls the search at most four times; unless it returns
    a freshly computed result it leaves the whole engine, both cache
    slots included, as it was; and with [force_recalculate] it never
    answers from the cache. *)
Theorem calculate_optimal_nesting_frame
    (tiles_x tiles_y : Z)
    (paso_y paso_x clearance_cm medianil_x medianil_y : Q)
    (objective : string) (force_recalculate : bool)
    (w w' : World) (r : result (option nesting_return)) :
  calculate_optimal_nesting tiles_x tiles_y paso_y paso_x clearance_cm
    medianil_x medianil_y objective force_recalculate w = (r, w') ->
  params (engine w') = params (engine w) /\
  (placement_calls w <= placement_calls w' <= placement_calls w + 4)%nat /\
  ((forall nr, r <> Ok (Some (Computed nr))) -> engine w' = engine w) /\
  (force_recalculate = true -> forall pd, r <> Ok (Some (Cached pd))).
Proof.
  intros Hcall.
  destruct (calculate_optimal_nesting_cases tiles_x tiles_y paso_y paso_x
              clearance_cm medianil_x medianil_y objective force_recalculate w)
    as [(pd & Hf & Hc & _)
       | [(r0 & w0 & Hc & Hr & He & Hn)
         | (nr & w0 & pb & rb & Hc & _ & _ & _ & _ & Hn & Hp & _)]];
    rewrite Hcall in Hc; injection Hc as -> ->.
  - split; [reflexivity|]. split; [lia|]. split; [reflexivity|].
    intros Hforce. congruence.
  - split; [now rewrite He|]. split; [exact Hn|]. split; [now intros _|].
    intros _ pd. destruct Hr as [-> | (e & ->)]; discriminate.
  - split; [exact Hp|]. split; [lia|].
    split; [intros Hno; now destruct (Hno nr) | discriminate].
Qed.

(** X10.  A freshly computed result is built on the tile of the engine's
    parameters turned by 90 or 270 degrees and aligned to the origin,
    echoes the tile counts and gaps of the call, and has cost between two
    and four calls to the placement search.  Its motif is stored, with the
    steps, the clearance and the objective of the call, in the slot of the
    objective (the width slot for "width", the other slot for every other
    objective), and the other slot is left as it was. *)
Theorem computed_result_is_stored
    (tiles_x tiles_y : Z)
    (paso_y paso_x clearance_cm medianil_x medianil_y : Q)
    (objective : string) (force_recalculate : bool)
    (w w' : World) (nr : NestingResult) :
  calculate_optimal_nesting tiles_x tiles_y paso_y paso_x clearance_cm
    medianil_x medianil_y objective force_recalculate w
    = (Ok (Some (Computed nr)), w') ->
  (nr_rot1 nr = 90%Z \/ nr_rot1 nr = 270%Z) /\
  (exists poly_base rects_base,
     build_tile_orthopoly_and_edges_cm (params (engine w))
       = Ok (poly_base, rects_base) /\
     rotate_and_align_top_left poly_base rects_base (nr_rot1 nr)
       = Ok (nr_poly1 nr, nr_rects1 nr)) /\
  (nr_tiles_x nr, nr_tiles_y nr, nr_medianil_x nr, nr_medianil_y nr)
    = (tiles_x, tiles_y, medianil_x, medianil_y) /\
  (placement_calls w + 2 <= placement_calls w' <= placement_calls w + 4)%nat /\
  (exists pd,
     pattern_data (cache_of (engine w') objective) = Some pd /\
     motif_of (Cached pd) = motif_of (Computed nr) /\
     (pd_poly1 pd, pd_poly2T pd, pd_poly3T pd)
       = (nr_poly1 nr, nr_poly2T nr, nr_poly3T nr) /\
     (pd_paso_y pd, pd_paso_x pd, pd_clearance_cm pd, pd_objective pd)
       = (paso_y, paso_x, clearance_cm, objective)) /\
  (objective = "width"%string ->
   nesting_cache_height (engine w') = nesting_cache_height (engine w)) /\
  (objective <> "width"%string ->
   nesting_cache_width (engine w') = nesting_cache_width (engine w)).
Proof.
  intros Hcall.
  destruct (calculate_optimal_nesting_cases tiles_x tiles_y paso_y paso_x
              clearance_cm medianil_x medianil_y objective force_recalculate w)
    as [(pd & _ & Hc & _)
       | [(r0 & w0 & Hc & Hr & _)
         | (nr0 & w0 & pb & rb & Hc & Hb & Hrot & Hal & Hecho & Hn & _ & Hslot & Hother)]];
    rewrite Hcall in Hc.
  - discriminate.
  - injection Hc as <- _. destruct Hr as [Hr | (e & Hr)]; discriminate.
  - injection Hc as <- <-.
    split. { destruct Hrot as [<- | [<- | []]]; [now left | now right]. }
    split. { now exists pb, rb. }
    split; [exact Hecho|]. split; [exact Hn|].
    split. { eexists. split; [exact Hslot|]. repeat split. }
    split.
    + intros ->. cbn [String.eqb Ascii.eqb Bool.eqb] in Hother. apply Hother.
    + intros Hne. apply String.eqb_neq in Hne. rewrite Hne in Hother. apply Hother.
Qed.

(** X11.  Once a call without [force_recalculate] has returned a result,
    every later call without [force_recalculate] for an objective served
    by the same slot is answered with the stored motif, whatever tile
    counts, gaps, search steps and clearance it asks for: the key that is
    checked is rebuilt from the steps, clearance and objective stored with
    the pattern, not from those of the call.  So a call with other steps
    or another clearance, or for "area" after "height", gets the pattern
    computed before and runs no search. *)
Theorem cache_hit_ignores_call_arguments
    (tiles_x tiles_y : Z)
    (paso_y paso_x clearance_cm medianil_x medianil_y : Q)
    (objective : string) (w w1 : World) (r1 : nesting_return)
    (tiles_x' tiles_y' : Z)
    (paso_y' paso_x' clearance_cm' medianil_x' medianil_y' : Q)
    (objective' : string) :
  calculate_optimal_nesting tiles_x tiles_y paso_y paso_x clearance_cm
    medianil_x medianil_y objective false w = (Ok (Some r1), w1) ->
  String.eqb objective' "width" = String.eqb objective "width" ->
  exists pd,
    calculate_optimal_nesting tiles_x' tiles_y' paso_y' paso_x' clearance_cm'
      medianil_x' medianil_y' objective' false w1 = (Ok (Some (Cached pd)), w1) /\
    motif_of (Cached pd) = motif_of r1 /\
    (pd_paso_y pd, pd_paso_x pd, pd_clearance_cm pd, pd_objective pd)
      = match r1 with
        | Cached pd1 =>
            (pd_paso_y pd1, pd_paso_x pd1, pd_clearance_cm pd1, pd_objective pd1)
        | Computed _ => (paso_y, paso_x, clearance_cm, objective)
        end.
Proof.
  intros Hfirst Hslot.
  assert (Hsame : forall w0,
    _render_from_cache tiles_x' tiles_y' medianil_x' medianil_y' objective' w0
    = _render_from_cache tiles_x tiles_y medianil_x medianil_y objective w0).
  { intros w0. unfold _render_from_cache. now rewrite Hslot. }
  assert (Hhit : forall pd w0,
    _render_from_cache tiles_x tiles_y medianil_x medianil_y objective w0
      = (Ok (Some pd), w0) ->
    calculate_optimal_nesting tiles_x' tiles_y' paso_y' paso_x' clearance_cm'
      medianil_x' medianil_y' objective' false w0 = (Ok (Some (Cached pd)), w0)).
  { intros pd w0 Hr. unfold calculate_optimal_nesting, mbind, Eng_bind.
    cbn [negb]. now rewrite Hsame, Hr. }
  destruct (render_from_cache_reads tiles_x tiles_y medianil_x medianil_y
              objective w) as (o & Hr & _).
  unfold calculate_optimal_nesting, mbind, Eng_bind in Hfirst.
  cbn [negb] in Hfirst. rewrite Hr in Hfirst.
  destruct o as [pd|].
  - unfold mret, Eng_ret in Hfirst. injection Hfirst as <- <-.
    exists pd. split; [now apply Hhit|]. now split.
  - unfold get_engine, lift_result in Hfirst. cbn beta iota in Hfirst.
    destruct (build_tile_orthopoly_and_edges_cm (params (engine w)))
      as [[poly_base rects_base]|e]; [|discriminate].
    destruct (for_each _ _ _ w) as [[[global_best global_key]|e] w0];
      [|discriminate].
    destruct global_best as [best|];
      [|unfold mret, Eng_ret in Hfirst; discriminate].
    destruct best as [[[[[[[[[[[[[[rot1 poly1] rects1] best_x] best_y] rot2]
      rects2T] poly2T] x3] y3] rects3T] poly3T] gwidth] gheight] garea].
    destruct (render_after_store tiles_x tiles_y medianil_x medianil_y
                paso_y paso_x clearance_cm objective
                poly1 rects1 poly2T rects2T poly3T rects3T
                best_x best_y x3 y3 rot1 rot2 w0)
      as (w2 & pd & Hstore & _ & Hrender & Hmotif).
    destruct (store_nesting_result_effect paso_y paso_x clearance_cm objective
                poly1 rects1 poly2T rects2T poly3T rects3T
                best_x best_y x3 y3 rot1 rot2 w0)
      as (w3 & Hstore' & _ & _ & Hpd & _).
    rewrite Hstore in Hstore'. injection Hstore' as <-.
    destruct (render_from_cache_reads tiles_x tiles_y medianil_x medianil_y
                objective w2) as (o & Hr2 & Ho).
    rewrite Hrender in Hr2. injection Hr2 as <-.
    specialize (Ho pd eq_refl). rewrite Hpd in Ho. injection Ho as <-.
    rewrite Hstore in Hfirst. unfold mret, Eng_ret in Hfirst.
    injection Hfirst as <- <-.
    eexists. split; [apply Hhit; exact Hrender|]. split; [exact Hmotif | reflexivity].
Qed.
End EngineContracts.

Lemma calculate_optimal_nesting_frame_witness :
  exists r w',
    @calculate_optimal_nesting side_by_side_search failing_backend
      3 2 (1 # 2) (1 # 10) 0 0 0 "width" true fresh_world = (r, w') /\
    engine w' = engine fresh_world /\ placement_calls w' = 0%nat.
Proof.
  destruct (@calculate_optimal_nesting side_by_side_search failing_backend
              3 2 (1 # 2) (1 # 10) 0 0 0 "width" true fresh_world)
    as [r w'] eqn:Hcall.
  destruct (@calculate_optimal_nesting_frame side_by_side_search failing_backend
              3 2 (1 # 2) (1 # 10) 0 0 0 "width" true fresh_world w' r Hcall)
    as (_ & _ & Hsame & _).
  exists r, w'. split; [reflexivity|].
  vm_compute in Hcall. injection Hcall as <- <-.
  split; [apply Hsame; discriminate | reflexivity].
Defined.

Lemma computed_result_is_stored_witness :
  exists nr w',
    @calculate_optimal_nesting side_by_side_search rectangle_backend
      3 2 (1 # 2) (1 # 10) 0 0 0 "height" true fresh_world
      = (Ok (Some (Computed nr)), w') /\
    nesting_cache_width (engine w') = nesting_cache_width (engine fresh_world) /\
    placement_calls w' = 4%nat.
Proof.
  destruct (@calculate_optimal_nesting side_by_side_search rectangle_backend
              3 2 (1 # 2) (1 # 10) 0 0 0 "height" true fresh_world)
    as [[[[pd|nr]|]|e] w'] eqn:Hcall;
    try (vm_compute in Hcall; discriminate).
  destruct (@computed_result_is_stored side_by_side_search rectangle_backend
              3 2 (1 # 2) (1 # 10) 0 0 0 "height" true fresh_world w' nr Hcall)
    as (_ & _ & _ & _ & _ & _ & Hwidth).
  exists nr, w'. split; [reflexivity|]. split; [apply Hwidth; discriminate|].
  vm_compute in Hcall. now injection Hcall as _ <-.
Defined.

Lemma cache_hit_ignores_call_arguments_witness :
  exists r1 w1 pd,
    @calculate_optimal_nesting side_by_side_search rectangle_backend
      3 2 (1 # 2) (1 # 10) 0 0 0 "height" false fresh_world = (Ok (Some r1), w1) /\
    @calculate_optimal_nesting side_by_side_search rectangle_backend
      7 5 (1 # 4) (1 # 20) 1 2 3 "area" false w1 = (Ok (Some (Cached pd)), w1) /\
    (pd_paso_y pd, pd_paso_x pd, pd_clearance_cm pd, pd_objective pd)
      = (1 # 2, 1 # 10, 0, "height"%string).
Proof.
  destruct (@calculate_optimal_nesting side_by_side_search rectangle_backend
              3 2 (1 # 2) (1 # 10) 0 0 0 "height" false fresh_world)
    as [[[r1|]|e] w1] eqn:Hfirst;
    [|vm_compute in Hfirst; discriminate|vm_compute in Hfirst; discriminate].
  destruct (@cache_hit_ignores_call_arguments side_by_side_search rectangle_backend
              3 2 (1 # 2) (1 # 10) 0 0 0 "height" fresh_world w1 r1
              7 5 (1 # 4) (1 # 20) 1 2 3 "area" Hfirst eq_refl)
    as (pd & Hsecond & _ & Hmeta).
  exists r1, w1, pd. split; [reflexivity|]. split; [exact Hsecond|].
  rewrite Hmeta. vm_compute in Hfirst. now injection Hfirst as <- _.
Defined.

(** ** Generation of the cached pattern by the tab *)

Section CacheGeneration.
Context `{NestingAlgorithms} `{GeometryBackend}.

(** X22.  [_generate_cache_for_objective] writes nothing but the engine
    and the signatures: the box parameters, the spin boxes and the
    parameters of the engine stay, and at most four calls go to the
    placement search.  When the cache of the objective is current it
    does nothing at all.  Otherwise it runs the forced computation and
    keeps the engine that comes out of it; when the computation gives a
    result it records the signature of the run for the objective, after
    which the cache is current and running the procedure again with the
    same gaps, whatever the tile counts, changes nothing; when the
    computation gives no result or raises, the signatures and the engine
    (both cache slots included) are as before. *)
Theorem generate_cache_is_idempotent
    (self : TabCacheState) (objective : string) (tiles_x_base tiles_y_base : Z)
    (medianil_x medianil_y : Q) :
  let signature :=
    _build_cache_signature self medianil_x medianil_y
      (sb_paso_y self) (sb_paso_x self) (sb_clearance self) in
  let self' :=
    _generate_cache_for_objective self objective tiles_x_base tiles_y_base
      medianil_x medianil_y in
  (tab_params self', sb_paso_y self', sb_paso_x self', sb_clearance self')
    = (tab_params self, sb_paso_y self, sb_paso_x self, sb_clearance self) /\
  params (engine (nesting_engine self')) = params (engine (nesting_engine self)) /\
  (placement_calls (nesting_engine self)
     <= placement_calls (nesting_engine self')
     <= placement_calls (nesting_engine self) + 4)%nat /\
  (cache_is_current self objective signature = true -> self' = self) /\
  (cache_is_current self objective signature = false ->
   forall r w,
     calculate_optimal_nesting tiles_x_base tiles_y_base
       (sb_paso_y self) (sb_paso_x self) (sb_clearance self)
       medianil_x medianil_y objective true (nesting_engine self) = (r, w) ->
     nesting_engine self' = w /\
     ((exists found, r = Ok (Some found)) ->
      _cache_signatures self'
        = <[objective := signature]> (_cache_signatures self) /\
      cache_is_current self' objective signature = true /\
      forall tiles_x' tiles_y',
        _generate_cache_for_objective self' objective tiles_x' tiles_y'
          medianil_x medianil_y = self') /\
     ((r = Ok None \/ exists e, r = Raise e) ->
      _cache_signatures self' = _cache_signatures self /\
      engine w = engine (nesting_engine self))).
Proof.
  intros signature self'.
  assert (Hfields :
    (tab_params self', sb_paso_y self', sb_paso_x self', sb_clearance self')
    = (tab_params self, sb_paso_y self, sb_paso_x self, sb_clearance self)).
  { subst self'. unfold _generate_cache_for_objective.
    destruct (cache_is_current self objective _); [reflexivity|].
    destruct (calculate_optimal_nesting _ _ _ _ _ _ _ _ _ _) as [[[[r|]|]|e] w];
      reflexivity. }
  split; [exact Hfields|].
  injection Hfields as Hp Hpy Hpx Hcl.
  assert (Hsig : _build_cache_signature self' medianil_x medianil_y
                   (sb_paso_y self') (sb_paso_x self') (sb_clearance self')
                 = signature).
  { subst signature. unfold _build_cache_signature. now rewrite Hp, Hpy, Hpx, Hcl. }
  assert (Hskip :
    cache_is_current self' objective signature = true ->
    forall tiles_x' tiles_y',
      _generate_cache_for_objective self' objective tiles_x' tiles_y'
        medianil_x medianil_y = self').
  { intros Hcur tx' ty'. unfold _generate_cache_for_objective at 1.
    now rewrite Hsig, Hcur. }
  assert (Hrun : forall r w,
    cache_is_current self objective signature = false ->
    calculate_optimal_nesting tiles_x_base tiles_y_base
      (sb_paso_y self) (sb_paso_x self) (sb_clearance self)
      medianil_x medianil_y objective true (nesting_engine self) = (r, w) ->
    nesting_engine self' = w /\
    _cache_signatures self'
      = match r with
        | Ok (Some _) => <[objective := signature]> (_cache_signatures self)
        | _ => _cache_signatures self
        end).
  { intros r w Hcur Hcall. subst self'. unfold _generate_cache_for_objective.
    fold signature. rewrite Hcur, Hcall.
    destruct r as [[found|]|e]; now split. }
  destruct (cache_is_current self objective signature) eqn:Hcur.
  { assert (Hsame : self' = self).
    { subst self'. unfold _generate_cache_for_objective. fold signature.
      now rewrite Hcur. }
    rewrite Hsame. split; [reflexivity|]. split; [lia|].
    split; [reflexivity | discriminate]. }
  destruct (calculate_optimal_nesting tiles_x_base tiles_y_base
              (sb_paso_y self) (sb_paso_x self) (sb_clearance self)
              medianil_x medianil_y objective true (nesting_engine self))
    as [r w] eqn:Hcall.
  destruct (Hrun r w eq_refl eq_refl) as [Hworld Hsigs].
  pose proof (calculate_optimal_nesting_cases tiles_x_base tiles_y_base
                (sb_paso_y self) (sb_paso_x self) (sb_clearance self)
                medianil_x medianil_y objective true (nesting_engine self))
    as Hcases.
  cbv zeta in Hcases. rewrite Hcall in Hcases.
  destruct Hcases
    as [(pd & Hf & _)
       | [(r0 & w0 & Hc & Hr & He & Hn)
         | (nr & w0 & pb & rb & Hc & _ & _ & _ & _ & Hn & Hpar & Hslot & _)]];
    [discriminate| |]; injection Hc as -> ->.
  - rewrite Hworld. split; [now rewrite He|]. split; [exact Hn|].
    split; [discriminate|]. intros _ r w [= <- <-].
    split; [reflexivity|]. split.
    + intros (found & ->). destruct Hr as [Hr | (e & Hr)]; discriminate.
    + intros _. split; [|exact He].
      rewrite Hsigs. destruct Hr as [-> | (e & ->)]; reflexivity.
  - rewrite Hworld. split; [exact Hpar|]. split; [lia|].
    split; [discriminate|]. intros _ r w [= <- <-].
    split; [reflexivity|]. split.
    + intros _.
      assert (Hnow : cache_is_current self' objective signature = true).
      { unfold cache_is_current. rewrite Hworld, Hsigs.
        fold (cache_of (engine w0) objective). rewrite Hslot.
        rewrite lookup_insert_eq. apply key_eqb_refl. }
      split; [exact Hsigs|]. split; [exact Hnow | now apply Hskip].
    + intros [Hr | (e & Hr)]; discriminate.
Qed.
End CacheGeneration.

Lemma generate_cache_is_idempotent_witness :
  let tab1 :=
    @_generate_cache_for_objective side_by_side_search rectangle_backend
      fresh_tab "width" 3 2 0 0 in
  placement_calls (nesting_engine tab1) = 4%nat /\
  _cache_signatures tab1 !! "width"%string
    = Some (_build_cache_signature fresh_tab 0 0 (1 # 2) (1 # 10) 0) /\
  @_generate_cache_for_objective side_by_side_search rectangle_backend
    tab1 "width" 5 4 0 0 = tab1.
Proof.
  intros tab1.
  destruct (@generate_cache_is_idempotent side_by_side_search rectangle_backend
              fresh_tab "width" 3 2 0 0) as (_ & _ & _ & _ & Hrun).
  destruct (Hrun eq_refl _ _ (surjective_pairing _)) as (Hworld & Hfound & _).
  destruct Hfound as (Hsigs & _ & Hagain).
  { vm_compute. eexists. reflexivity. }
  split; [vm_compute; reflexivity|].
  split; [|apply Hagain].
  fold tab1 in Hsigs. rewrite Hsigs. apply lookup_insert_eq.
Defined.

(** ** The cache key *)

Lemma floats_eqb_same (l l' : list Q) :
  floats_eqb l l' = true <-> same_floats l l'.
Proof.
  unfold same_floats. revert l'. induction l as [|a l IH]; intros [|b l']; cbn [floats_eqb].
  - split; [constructor | reflexivity].
  - split; [discriminate | intros Hf; inversion Hf].
  - split; [discriminate | intros Hf; inversion Hf].
  - rewrite andb_true_iff, Qeq_bool_iff, IH. split.
    + intros [Hab Hl]. now constructor.
    + intros Hf. inversion Hf; subst. now split.
Qed.

Lemma cache_key_eqb (self self' : NestingEngine)
    (paso_y paso_x clearance_cm paso_y' paso_x' clearance_cm' : Q)
    (objective objective' : string) :
  key_eqb (_generate_cache_key self paso_y paso_x clearance_cm objective)
          (_generate_cache_key self' paso_y' paso_x' clearance_cm' objective') = true
  <->
  same_box (params self) (params self') /\
  paso_y == paso_y' /\ paso_x == paso_x' /\ clearance_cm == clearance_cm' /\
  objective = objective'.
Proof.
  unfold _generate_cache_key, same_box. cbn [key_eqb key_part_eqb].
  rewrite !andb_true_iff, !Qeq_bool_iff, !floats_eqb_same, String.eqb_eq.
  tauto.
Qed.

Section CacheKey.
Context `{NestingAlgorithms} `{GeometryBackend}.

(** The slot of the objective as [_store_nesting_result] leaves it. *)
Lemma stored_slot
    (paso_y paso_x clearance_cm : Q) (objective : string)
    (poly1 : OrthoPoly) (rects1 : list NamedRect)
    (poly2T : OrthoPoly) (rects2T : list NamedRect)
    (poly3T : OrthoPoly) (rects3T : list NamedRect)
    (dx2 dy2 dx3 dy3 : Q) (rot1 rot2 : Z) (w0 : World) :
  exists pd,
    cache_of
      (engine (snd (_store_nesting_result paso_y paso_x clearance_cm objective
                      poly1 rects1 poly2T rects2T poly3T rects3T
                      dx2 dy2 dx3 dy3 rot1 rot2 w0))) objective
    = {| pattern_data := Some pd;
         stored_key :=
           Some (_generate_cache_key (engine w0)
                   paso_y paso_x clearance_cm objective) |} /\
    (pd_paso_y pd, pd_paso_x pd, pd_clearance_cm pd, pd_objective pd)
      = (paso_y, paso_x, clearance_cm, objective) /\
    (pd_rot1 pd, pd_rot2 pd, pd_dx2 pd, pd_dy2 pd, pd_dx3 pd, pd_dy3 pd)
      = (rot1, rot2, dx2, dy2, dx3, dy3).
Proof.
  unfold _store_nesting_result, cache_of, get_engine, put_engine,
    mbind, mret, Eng_bind, Eng_ret. cbn beta iota zeta.
  destruct (String.eqb objective "width") eqn:Eobj;
    cbn [snd engine nesting_cache_width nesting_cache_height]; rewrite ?Eobj;
    eexists; (split; [reflexivity|]); split; reflexivity.
Qed.

(** X23.  Two cache keys are equal exactly when the box geometry (the
    five lengths and the four arrays), the two steps, the clearance and
    the objective are equal; nothing else of the engine enters the key.
    So, for as long as the slot of the objective is as
    [_store_nesting_result] left it, [_render_from_cache] answers with
    the stored pattern exactly when the box the engine holds at the time
    of the call has the geometry of the box it held at the time of the
    store, and misses otherwise.  (A slot that has been emptied in
    between is not as the store left it: the cache then misses because
    the slot holds no pattern.) *)
Theorem cache_key_identifies_configuration
    (paso_y paso_x clearance_cm : Q) (objective : string)
    (poly1 : OrthoPoly) (rects1 : list NamedRect)
    (poly2T : OrthoPoly) (rects2T : list NamedRect)
    (poly3T : OrthoPoly) (rects3T : list NamedRect)
    (dx2 dy2 dx3 dy3 : Q) (rot1 rot2 : Z) (w0 w : World)
    (tiles_x tiles_y : Z) (medianil_x medianil_y : Q) :
  (forall self self' py px cl py' px' cl' obj obj',
     key_eqb (_generate_cache_key self py px cl obj)
             (_generate_cache_key self' py' px' cl' obj') = true
     <->
     same_box (params self) (params self') /\
     py == py' /\ px == px' /\ cl == cl' /\ obj = obj') /\
  (cache_of (engine w) objective
   = cache_of
       (engine (snd (_store_nesting_result paso_y paso_x clearance_cm objective
                       poly1 rects1 poly2T rects2T poly3T rects3T
                       dx2 dy2 dx3 dy3 rot1 rot2 w0))) objective ->
   (same_box (params (engine w0)) (params (engine w)) ->
    exists pd,
      _render_from_cache tiles_x tiles_y medianil_x medianil_y objective w
        = (Ok (Some pd), w) /\
      (pd_rot1 pd, pd_rot2 pd, pd_dx2 pd, pd_dy2 pd, pd_dx3 pd, pd_dy3 pd)
        = (rot1, rot2, dx2, dy2, dx3, dy3)) /\
   (~ same_box (params (engine w0)) (params (engine w)) ->
    _render_from_cache tiles_x tiles_y medianil_x medianil_y objective w
      = (Ok None, w))).
Proof.
  split; [intros; apply cache_key_eqb|].
  destruct (stored_slot paso_y paso_x clearance_cm objective
              poly1 rects1 poly2T rects2T poly3T rects3T
              dx2 dy2 dx3 dy3 rot1 rot2 w0) as (pd & -> & Hmeta & Hmotif).
  intros Hslot. injection Hmeta as Hpy Hpx Hcl Hobj.
  unfold _render_from_cache, get_engine, mbind, mret, Eng_bind, Eng_ret.
  cbn beta iota. fold (cache_of (engine w) objective). rewrite Hslot.
  cbn [pattern_data]. unfold NestingCache_is_valid. cbn [stored_key].
  rewrite Hpy, Hpx, Hcl, Hobj.
  pose proof (cache_key_eqb (engine w0) (engine w)
                paso_y paso_x clearance_cm paso_y paso_x clearance_cm
                objective objective) as Hkey.
  destruct (key_eqb _ _); cbn [negb].
  - split; [intros _; exists pd; now split|].
    intros Hno. destruct Hno. now apply Hkey.
  - split; [|reflexivity].
    intros Hsame.
    assert (Habs : false = true)
      by (apply Hkey; split; [exact Hsame | repeat split; reflexivity]).
    discriminate.
Qed.
End CacheKey.

Lemma cache_key_identifies_configuration_witness :
  let stored :=
    snd (@_store_nesting_result (1 # 2) (1 # 10) 0 "width"
           upright_tile [] upright_tile [] upright_tile [] 5 0 10 0 90 0 fresh_world) in
  let with_box := fun L =>
    {| engine :=
         {| params :=
              {| Params.L := L; Params.A := 15; Params.h := 10;
                 Params.cIzq := 0; Params.cDer := 0;
                 Params.Tapas := []; Params.CSup := [];
                 Params.Bases := []; Params.CInf := [] |};
            nesting_cache_width := nesting_cache_width (engine stored);
            nesting_cache_height := nesting_cache_height (engine stored);
            last_cache_key_width := last_cache_key_width (engine stored);
            last_cache_key_height := last_cache_key_height (engine stored) |};
       placement_calls := 0 |} in
  (exists pd,
     @_render_from_cache 3 2 0 0 "width" (with_box (40 # 2))
       = (Ok (Some pd), with_box (40 # 2))) /\
  @_render_from_cache 3 2 0 0 "width" (with_box 21) = (Ok None, with_box 21).
Proof.
  intros stored with_box. split.
  - destruct (@cache_key_identifies_configuration (1 # 2) (1 # 10) 0 "width"
                upright_tile [] upright_tile [] upright_tile [] 5 0 10 0 90 0
                fresh_world (with_box (40 # 2)) 3 2 0 0) as (_ & Hslot).
    destruct (Hslot eq_refl) as (Hhit & _).
    destruct Hhit as (pd & Hrender & _).
    + unfold same_box, same_floats. cbn. repeat split; constructor.
    + exists pd. exact Hrender.
  - destruct (@cache_key_identifies_configuration (1 # 2) (1 # 10) 0 "width"
                upright_tile [] upright_tile [] upright_tile [] 5 0 10 0 90 0
                fresh_world (with_box 21) 3 2 0 0) as (_ & Hslot).
    destruct (Hslot eq_refl) as (_ & Hmiss).
    apply Hmiss. intros (HL & _). vm_compute in HL. discriminate.
Defined.

(** * Further properties of the global bounding box *)

(** ** Without a cached pattern *)

(** The base tile turned by 90 degrees and aligned: its box starts at the
    origin and has the sides of the base tile's box exchanged. *)
Lemma align_90_box (poly_base : OrthoPoly) :
  match aabb poly_base with
  | Ok b =>
      exists poly1 minx miny maxx maxy,
        rotate_and_align_top_left poly_base [] 90 = Ok (poly1, []) /\
        aabb poly1 = Ok (minx, miny, maxx, maxy) /\
        minx == 0 /\ miny == 0 /\
        maxx == bbox_height b /\ maxy == bbox_width b
  | Raise e => rotate_and_align_top_left poly_base [] 90 = Raise e
  end.
Proof.
  destruct (aabb poly_base) as [b|e] eqn:Hb.
  - destruct (aabb_rotated_90 poly_base b Hb) as (b' & Hb' & Hw & Hh).
    destruct b' as [[[minx miny] maxx] maxy].
    unfold rotate_and_align_top_left, rotated_copy.
    change (90 mod 360)%Z with 90%Z. cbn [Z.eqb Pos.eqb mbind result_bind].
    change (mkOrthoPoly (map rotate_point_90cw (outer poly_base))
                        (map (map rotate_point_90cw) (holes poly_base)))
      with {| outer := map rotate_point_90cw (outer poly_base);
              holes := map (map rotate_point_90cw) (holes poly_base) |}.
    rewrite Hb'. cbn [mbind result_bind fold_left].
    do 5 eexists. split; [reflexivity|].
    split; [rewrite aabb_translate, Hb'; reflexivity|].
    unfold bbox_width, bbox_height in *. repeat split; lra.
  - destruct poly_base as [[|pt o] hs]; [|rewrite aabb_nonempty in Hb; discriminate].
    rewrite aabb_empty in Hb. injection Hb as <-. reflexivity.
Qed.

Section GlobalBoxFallback.
Context `{GeometryBackend}.
Variable self : NestingEngine.
Variable objective : string.
Hypothesis no_pattern : pattern_data (cache_of self objective) = None.

Lemma calculate_global_bbox_fallback (tiles_x tiles_y : Z) (medianil_x medianil_y : Q) :
  calculate_global_bbox self tiles_x tiles_y medianil_x medianil_y objective
  = ('(poly_base, _) ← build_tile_orthopoly_and_edges_cm (params self);
     '(poly1, _) ← rotate_and_align_top_left poly_base [] 90;
     '(minx, miny, maxx, maxy) ← aabb poly1;
     Ok (Some (minx, miny, maxx, maxy))).
Proof.
  unfold calculate_global_bbox. fold (cache_of self objective).
  now rewrite no_pattern.
Qed.

Lemma fallback_never_empty (tiles_x tiles_y : Z) (medianil_x medianil_y : Q) :
  calculate_global_bbox self tiles_x tiles_y medianil_x medianil_y objective
    <> Ok None.
Proof.
  rewrite calculate_global_bbox_fallback.
  destruct (build_tile_orthopoly_and_edges_cm (params self))
    as [[poly_base rects]|e]; [|discriminate].
  cbn [mbind result_bind].
  destruct (rotate_and_align_top_left poly_base [] 90) as [[poly1 r1]|e];
    [|discriminate].
  cbn [mbind result_bind].
  destruct (aabb poly1) as [[[[minx miny] maxx] maxy]|e]; discriminate.
Qed.

(** X12.  While the slot of the objective holds no pattern,
    [calculate_global_bbox] ignores the tile counts and the gaps: it
    returns the box of ONE tile, the tile of the parameters turned by 90
    degrees and aligned, which starts at the origin and whose width and
    height are the height and width of the tile's own box.  It never
    returns the box without tiles, and it raises what the tile builder
    raises. *)
Theorem global_bbox_without_pattern
    (tiles_x tiles_y : Z) (medianil_x medianil_y : Q) :
  (forall tiles_x' tiles_y' medianil_x' medianil_y',
     calculate_global_bbox self tiles_x' tiles_y' medianil_x' medianil_y' objective
     = calculate_global_bbox self tiles_x tiles_y medianil_x medianil_y objective) /\
  calculate_global_bbox self tiles_x tiles_y medianil_x medianil_y objective
    <> Ok None /\
  (forall poly_base rects b,
     build_tile_orthopoly_and_edges_cm (params self) = Ok (poly_base, rects) ->
     aabb poly_base = Ok b ->
     exists minx miny maxx maxy,
       calculate_global_bbox self tiles_x tiles_y medianil_x medianil_y objective
         = Ok (Some (minx, miny, maxx, maxy)) /\
       minx == 0 /\ miny == 0 /\
       maxx == bbox_height b /\ maxy == bbox_width b) /\
  (forall e,
     build_tile_orthopoly_and_edges_cm (params self) = Raise e ->
     calculate_global_bbox self tiles_x tiles_y medianil_x medianil_y objective
       = Raise e).
Proof.
  split; [intros; now rewrite !calculate_global_bbox_fallback|].
  split; [apply fallback_never_empty|].
  rewrite calculate_global_bbox_fallback.
  split.
  - intros poly_base rects b -> Hb. cbn [mbind result_bind].
    pose proof (align_90_box poly_base) as Hal. rewrite Hb in Hal.
    destruct Hal as (poly1 & minx & miny & maxx & maxy & -> & Hb1 & Hbox).
    cbn [mbind result_bind]. rewrite Hb1. cbn [mbind result_bind].
    exists minx, miny, maxx, maxy. split; [reflexivity | exact Hbox].
  - intros e ->. reflexivity.
Qed.
End GlobalBoxFallback.

Lemma global_bbox_without_pattern_witness :
  @calculate_global_bbox rectangle_backend (NestingEngine_new sample_params)
    40 30 2 3 "width"
  = @calculate_global_bbox rectangle_backend (NestingEngine_new sample_params)
    1 1 0 0 "width".
Proof.
  apply (@global_bbox_without_pattern rectangle_backend
           (NestingEngine_new sample_params) "width" eq_refl 1 1 0 0).
Defined.

(** ** The layout service measures one tile *)

Section ServiceMeasures.
Context `{GeometryBackend} `{FloatArithmetic}.

Lemma new_engine_has_no_pattern (p : Params.t) (objective : string) :
  pattern_data (cache_of (NestingEngine_new p) objective) = None.
Proof. unfold cache_of. now destruct (String.eqb objective "width"). Qed.

Lemma service_engine_bbox_one_tile (request request' : LayoutRequest.t) :
  LayoutRequest.params request' = LayoutRequest.params request ->
  service_engine_bbox request' = service_engine_bbox request.
Proof.
  intros Hp. unfold service_engine_bbox.
  rewrite !calculate_global_bbox_fallback by apply new_engine_has_no_pattern.
  cbn [params NestingEngine_new]. now rewrite Hp.
Qed.

(** X13.  [optimize_layout] builds a new engine for every request, whose
    cache holds no pattern, so the box it measures is that of a single
    tile: two requests with the same box parameters and the same four
    margins get the same success flag, the same message and the same
    width, height and area, however many tiles and whatever gaps, steps,
    clearance and objective each one asks for.  Only [tiles_x], [tiles_y],
    their product and the objective are echoed from the request. *)
Theorem optimize_layout_ignores_tile_counts (request request' : LayoutRequest.t) :
  (0 < LayoutRequest.tiles_x request)%Z -> (0 < LayoutRequest.tiles_y request)%Z ->
  (0 < LayoutRequest.tiles_x request')%Z -> (0 < LayoutRequest.tiles_y request')%Z ->
  LayoutRequest.params request' = LayoutRequest.params request ->
  (LayoutRequest.sangria_izquierda request', LayoutRequest.sangria_derecha request',
   LayoutRequest.pinza request', LayoutRequest.contra_pinza request')
  = (LayoutRequest.sangria_izquierda request, LayoutRequest.sangria_derecha request,
     LayoutRequest.pinza request, LayoutRequest.contra_pinza request) ->
  LayoutResponse.success (optimize_layout request')
    = LayoutResponse.success (optimize_layout request) /\
  LayoutResponse.message (optimize_layout request')
    = LayoutResponse.message (optimize_layout request) /\
  layout_measures (optimize_layout request')
    = layout_measures (optimize_layout request) /\
  (LayoutResponse.success (optimize_layout request) = true ->
   layout_measures (optimize_layout request) <> None).
Proof.
  intros Hx Hy Hx' Hy' Hp [= Hsi Hsd Hpi Hcp].
  unfold optimize_layout, optimize_layout_with.
  rewrite (service_engine_bbox_one_tile request request' Hp).
  replace (LayoutRequest.tiles_x request <=? 0)%Z with false by (symmetry; lia).
  replace (LayoutRequest.tiles_y request <=? 0)%Z with false by (symmetry; lia).
  replace (LayoutRequest.tiles_x request' <=? 0)%Z with false by (symmetry; lia).
  replace (LayoutRequest.tiles_y request' <=? 0)%Z with false by (symmetry; lia).
  cbn [orb]. rewrite Hsi, Hsd, Hpi, Hcp.
  pose proof (fallback_never_empty
                (NestingEngine_new (LayoutRequest.params request))
                (LayoutRequest.objective request)
                (new_engine_has_no_pattern _ _)
                (LayoutRequest.tiles_x request) (LayoutRequest.tiles_y request)
                (LayoutRequest.medianil_x request) (LayoutRequest.medianil_y request))
    as Hsome.
  fold (service_engine_bbox request) in Hsome.
  destruct (service_engine_bbox request) as [[[[[b0 b1] b2] b3]|]|e];
    cbn [mbind result_bind]; unfold layout_measures;
    cbn [LayoutResponse.success LayoutResponse.message LayoutResponse.layout
         LayoutSummary.medida_x_cm LayoutSummary.medida_y_cm LayoutSummary.area_cm2].
  - repeat split. discriminate.
  - now destruct Hsome.
  - repeat split. discriminate.
Qed.
End ServiceMeasures.

Lemma optimize_layout_ignores_tile_counts_witness :
  layout_measures
    (@optimize_layout rectangle_backend cpython_floats (sample_request 40 30))
  = layout_measures
      (@optimize_layout rectangle_backend cpython_floats (sample_request 1 1)).
Proof.
  apply (@optimize_layout_ignores_tile_counts rectangle_backend cpython_floats
           (sample_request 1 1) (sample_request 40 30));
    reflexivity.
Defined.

(** ** Grids over a cached pattern *)

Lemma py_range_nonpositive (n : Z) : (n <= 0)%Z -> py_range n = [].
Proof. intros Hn. unfold py_range. now replace (Z.to_nat n) with 0%nat by lia. Qed.

Lemma Qeq_of_eq (a b : Q) : a = b -> a == b.
Proof. intros ->. reflexivity. Qed.

Lemma inject_Z_le (a b : Z) : (a <= b)%Z -> inject_Z a <= inject_Z b.
Proof. intros Hab. unfold Qle, inject_Z. simpl. lia. Qed.

Section GlobalBoxRows.
Variable pd : PatternData.
Variables medianil_x vertical_offset : Q.

Lemma bbox_rows_without_columns (tiles_x : Z) (rows : list Z)
    (acc : result (option BoundingBox)) :
  (tiles_x <= 0)%Z ->
  fold_left (bbox_row_step pd tiles_x medianil_x vertical_offset) rows acc = acc.
Proof.
  intros Hx. revert acc. induction rows as [|row rows IH]; intros acc;
    cbn [fold_left]; [reflexivity|].
  rewrite IH. unfold bbox_row_step. now rewrite py_range_nonpositive.
Qed.

(** The polygon of a tile depends on its column only. *)
Lemma tile_ok_any_row (row row' col : Z) :
  tile_ok pd medianil_x vertical_offset row col ->
  tile_ok pd medianil_x vertical_offset row' col.
Proof.
  unfold tile_ok, tile_placement.
  destruct (col =? 0)%Z; [exact (fun h => h)|].
  destruct (col =? 1)%Z; [exact (fun h => h)|].
  destruct (col =? 2)%Z; [exact (fun h => h)|].
  destruct (col mod 2 =? 1)%Z; exact (fun h => h).
Qed.

(** The box of the tile of a row is the box of the tile of the first row
    in the same column, moved up by the row pitch times the row. *)
Lemma tile_box_rows (row col : Z) :
  tile_ok pd medianil_x vertical_offset 0 col ->
  box_minx (tile_box pd medianil_x vertical_offset row col)
    == box_minx (tile_box pd medianil_x vertical_offset 0 col) /\
  box_maxx (tile_box pd medianil_x vertical_offset row col)
    == box_maxx (tile_box pd medianil_x vertical_offset 0 col) /\
  box_miny (tile_box pd medianil_x vertical_offset row col)
    == box_miny (tile_box pd medianil_x vertical_offset 0 col)
       + inject_Z row * vertical_offset /\
  box_maxy (tile_box pd medianil_x vertical_offset row col)
    == box_maxy (tile_box pd medianil_x vertical_offset 0 col)
       + inject_Z row * vertical_offset.
Proof.
  unfold tile_ok, tile_box, tile_placement.
  change (inject_Z 0) with 0.
  destruct (col =? 0)%Z; [|destruct (col =? 1)%Z; [|destruct (col =? 2)%Z;
    [|destruct (col mod 2 =? 1)%Z]]]; cbn [fst];
    (destruct (aabb _) as [[[[minx miny] maxx] maxy]|e]; [|discriminate]);
    intros _; unfold box_minx, box_miny, box_maxx, box_maxy;
    repeat split; ring.
Qed.
End GlobalBoxRows.

Section GlobalBoxGrid.
Context `{GeometryBackend}.
Variable self : NestingEngine.
Variable objective : string.
Variable pd : PatternData.
Hypothesis cached : pattern_data (cache_of self objective) = Some pd.
Variables medianil_x medianil_y : Q.

(** X14.  With a cached pattern: a grid without columns or without rows
    gets the box without tiles, the untouched (inf, inf, -inf, -inf) of
    the code, not an error; a grid of at least one column and one row
    never gets it; and when the base polygon of the pattern has no points
    the call raises for every grid, the empty ones included. *)
Theorem global_bbox_of_empty_grid (tiles_x tiles_y : Z) :
  (forall e, aabb (pd_poly1 pd) = Raise e ->
     calculate_global_bbox self tiles_x tiles_y medianil_x medianil_y objective
       = Raise e) /\
  (forall b1, aabb (pd_poly1 pd) = Ok b1 ->
     (tiles_x <= 0)%Z \/ (tiles_y <= 0)%Z ->
     calculate_global_bbox self tiles_x tiles_y medianil_x medianil_y objective
       = Ok None) /\
  ((1 <= tiles_x)%Z -> (1 <= tiles_y)%Z ->
   calculate_global_bbox self tiles_x tiles_y medianil_x medianil_y objective
     <> Ok None).
Proof.
  rewrite (calculate_global_bbox_cached self objective pd cached).
  split; [|split].
  - intros e ->. reflexivity.
  - intros [[[minx1 miny1] maxx1] maxy1] -> [Hx | Hy].
    + now apply bbox_rows_without_columns.
    + now rewrite (py_range_nonpositive tiles_y Hy).
  - intros Hx Hy.
    destruct (aabb (pd_poly1 pd)) as [[[[minx1 miny1] maxx1] maxy1]|e];
      [|discriminate].
    destruct (bbox_grid_cases pd medianil_x (maxy1 - miny1 + medianil_y)
                tiles_x (py_range tiles_y) None)
      as [[_ ->] | [_ (e & ->)]]; [|discriminate].
    fold (grid_boxes pd medianil_x (maxy1 - miny1 + medianil_y) tiles_x tiles_y).
    destruct (grid_hull pd medianil_x (maxy1 - miny1 + medianil_y)
                tiles_x tiles_y Hx Hy) as (g & -> & _).
    discriminate.
Qed.

(** X15.  With a cached pattern and a row pitch (height of the base tile
    plus [medianil_y]) that is not negative, the box of a grid of
    [tiles_y] rows is the box of its first row stretched upwards: same
    left, right and lower sides, and the upper side raised by
    [(tiles_y - 1)] times the row pitch.  So the width of the layout does
    not depend on the number of rows and its height grows linearly with
    it. *)
Theorem global_bbox_rows_closed_form
    (tiles_x tiles_y : Z) (minx1 miny1 maxx1 maxy1 : Q)
    (minx miny maxx maxy : Q) :
  (1 <= tiles_x)%Z -> (1 <= tiles_y)%Z ->
  aabb (pd_poly1 pd) = Ok (minx1, miny1, maxx1, maxy1) ->
  0 <= maxy1 - miny1 + medianil_y ->
  calculate_global_bbox self tiles_x 1 medianil_x medianil_y objective
    = Ok (Some (minx, miny, maxx, maxy)) ->
  exists minx' miny' maxx' maxy',
    calculate_global_bbox self tiles_x tiles_y medianil_x medianil_y objective
      = Ok (Some (minx', miny', maxx', maxy')) /\
    minx' == minx /\ miny' == miny /\ maxx' == maxx /\
    maxy' == maxy + inject_Z (tiles_y - 1) * (maxy1 - miny1 + medianil_y).
Proof.
  intros Hx Hy Hb1 Hpitch.
  rewrite !(calculate_global_bbox_cached self objective pd cached), Hb1.
  set (voff := maxy1 - miny1 + medianil_y) in *.
  destruct (bbox_grid_cases pd medianil_x voff tiles_x (py_range 1) None)
    as [[Hall1 ->] | [_ (e & ->)]]; [|discriminate].
  fold (grid_boxes pd medianil_x voff tiles_x 1).
  destruct (grid_hull pd medianil_x voff tiles_x 1 Hx) as (g1 & -> & Hg1); [lia|].
  intros [= ->].
  assert (Hok0 : forall col, (0 <= col < tiles_x)%Z -> tile_ok pd medianil_x voff 0 col).
  { intros col Hcol. apply Hall1; apply py_range_In; lia. }
  destruct (bbox_grid_cases pd medianil_x voff tiles_x (py_range tiles_y) None)
    as [[_ ->] | [(row & col & Hrow & Hcol & Hbad) _]].
  2:{ destruct Hbad. apply py_range_In in Hcol.
      apply (tile_ok_any_row pd medianil_x voff 0). now apply Hok0. }
  fold (grid_boxes pd medianil_x voff tiles_x tiles_y).
  destruct (grid_hull pd medianil_x voff tiles_x tiles_y Hx Hy) as (g & -> & Hg).
  destruct g as [[[minx' miny'] maxx'] maxy'].
  exists minx', miny', maxx', maxy'. split; [reflexivity|].
  destruct Hg1 as (Hcov1 & (ba & Ia & Ea) & (bb & Ib & Eb) & (bc & Ic & Ec) & (bd & Id & Ed)).
  destruct Hg as (Hcov & (ba' & Ia' & Ea') & (bb' & Ib' & Eb') & (bc' & Ic' & Ec') & (bd' & Id' & Ed')).
  cbn [box_minx box_miny box_maxx box_maxy] in Ea, Eb, Ec, Ed, Ea', Eb', Ec', Ed'.
  apply Qeq_of_eq in Ea, Eb, Ec, Ed, Ea', Eb', Ec', Ed'.
  (* a tile of the first row is a tile of the grid *)
  assert (Hsub : forall b, In b (grid_boxes pd medianil_x voff tiles_x 1) ->
                           In b (grid_boxes pd medianil_x voff tiles_x tiles_y)).
  { intros b Hb. apply grid_boxes_In in Hb as (row & col & Hrow & Hcol & ->).
    apply grid_boxes_In. exists row, col. repeat split; lia. }
  (* a tile of the grid lies above the tile of the first row in its column *)
  assert (Hdown : forall b, In b (grid_boxes pd medianil_x voff tiles_x tiles_y) ->
    exists row b0, (0 <= row < tiles_y)%Z /\
      In b0 (grid_boxes pd medianil_x voff tiles_x 1) /\
      box_minx b == box_minx b0 /\ box_maxx b == box_maxx b0 /\
      box_miny b == box_miny b0 + inject_Z row * voff /\
      box_maxy b == box_maxy b0 + inject_Z row * voff).
  { intros b Hb. apply grid_boxes_In in Hb as (row & col & Hrow & Hcol & ->).
    exists row, (tile_box pd medianil_x voff 0 col). split; [exact Hrow|].
    split; [apply grid_boxes_In; exists 0%Z, col; repeat split; lia|].
    apply tile_box_rows. now apply Hok0. }
  (* the tile of the last row above a tile of the first row *)
  assert (Hup : forall b0, In b0 (grid_boxes pd medianil_x voff tiles_x 1) ->
    exists b, In b (grid_boxes pd medianil_x voff tiles_x tiles_y) /\
      box_maxy b == box_maxy b0 + inject_Z (tiles_y - 1) * voff).
  { intros b0 Hb0. apply grid_boxes_In in Hb0 as (row & col & Hrow & Hcol & ->).
    assert (row = 0%Z) as -> by lia.
    exists (tile_box pd medianil_x voff (tiles_y - 1) col).
    split; [apply grid_boxes_In; exists (tiles_y - 1)%Z, col; repeat split; lia|].
    apply tile_box_rows. now apply Hok0. }
  assert (Hrows : forall row, (0 <= row < tiles_y)%Z ->
            0 <= inject_Z row * voff /\
            inject_Z row * voff <= inject_Z (tiles_y - 1) * voff).
  { intros row Hrow.
    assert (H0 : 0 <= inject_Z row) by (apply (inject_Z_le 0 row); lia).
    assert (H1 : inject_Z row <= inject_Z (tiles_y - 1)) by (apply inject_Z_le; lia).
    split; nra. }
  split; [|split; [|split]].
  - apply Qle_antisym.
    + destruct (Hcov ba (Hsub ba Ia)) as (C & _). cbn [box_minx] in C. lra.
    + destruct (Hdown ba' Ia') as (row & b0 & _ & I0 & X0 & _).
      destruct (Hcov1 b0 I0) as (C & _). cbn [box_minx] in C. lra.
  - apply Qle_antisym.
    + destruct (Hcov bb (Hsub bb Ib)) as (_ & C & _). cbn [box_miny] in C. lra.
    + destruct (Hdown bb' Ib') as (row & b0 & Hrow & I0 & _ & _ & Y0 & _).
      destruct (Hcov1 b0 I0) as (_ & C & _). cbn [box_miny] in C.
      destruct (Hrows row Hrow). lra.
  - apply Qle_antisym.
    + destruct (Hdown bc' Ic') as (row & b0 & _ & I0 & _ & X0 & _).
      destruct (Hcov1 b0 I0) as (_ & _ & C & _). cbn [box_maxx] in C. lra.
    + destruct (Hcov bc (Hsub bc Ic)) as (_ & _ & C & _). cbn [box_maxx] in C. lra.
  - apply Qle_antisym.
    + destruct (Hdown bd' Id') as (row & b0 & Hrow & I0 & _ & _ & _ & Y0).
      destruct (Hcov1 b0 I0) as (_ & _ & _ & C). cbn [box_maxy] in C.
      destruct (Hrows row Hrow). lra.
    + destruct (Hup bd Id) as (b & Ibg & Y).
      destruct (Hcov b Ibg) as (_ & _ & _ & C). cbn [box_maxy] in C. lra.
Qed.
End GlobalBoxGrid.

Lemma global_bbox_of_empty_grid_witness :
  @calculate_global_bbox rectangle_backend sample_engine 0 3 1 1 "width" = Ok None.
Proof.
  destruct (@global_bbox_of_empty_grid rectangle_backend sample_engine "width"
              sample_pattern eq_refl 1 1 0 3) as (_ & Hempty & _).
  apply (Hempty (0, 0, 5, 10)); [reflexivity | left; lia].
Defined.

Lemma global_bbox_rows_closed_form_witness :
  exists minx' miny' maxx' maxy',
    @calculate_global_bbox rectangle_backend sample_engine 4 3 1 1 "width"
      = Ok (Some (minx', miny', maxx', maxy')) /\
    minx' == 0 /\ miny' == 0 /\ maxx' == 23 /\ maxy' == 32.
Proof.
  destruct (@global_bbox_rows_closed_form rectangle_backend sample_engine "width"
              sample_pattern eq_refl 1 1 4 3 0 0 5 10
              0 0 23 10)
    as (a & b & c & d & Hcall & Ha & Hb & Hc & Hd);
    [lia | lia | reflexivity | vm_compute; discriminate | vm_compute; reflexivity |].
  exists a, b, c, d. split; [exact Hcall|].
  repeat split; [exact Ha | exact Hb | rewrite Hc; reflexivity | rewrite Hd; reflexivity].
Defined.

(** * Further properties of the production layout optimizer *)

(** ** Shots *)

(** X16.  The shots computed for a sheet of [planos] tiles: none for a
    sheet without tiles; otherwise at least one shot, enough shots to
    print the volume, and not one shot more than needed for that (unless
    the floor of one shot applies).  A sheet with more tiles never needs
    more shots, so the shots at the largest grid never exceed the shots at
    the smallest one. *)
Theorem tiros_con_covers_volume (volumen planos : Z) :
  ((planos <= 0)%Z -> tiros_con volumen planos = 0%Z) /\
  ((0 < planos)%Z ->
   (1 <= tiros_con volumen planos)%Z /\
   (volumen <= tiros_con volumen planos * planos)%Z /\
   ((1 < tiros_con volumen planos)%Z ->
    ((tiros_con volumen planos - 1) * planos < volumen)%Z)) /\
  (forall planos', (0 < planos <= planos')%Z ->
     (tiros_con volumen planos' <= tiros_con volumen planos)%Z) /\
  (forall tiles_x_min tiles_y_min tiles_x_max tiles_y_max tiros_minimos,
     (1 <= tiles_x_min <= tiles_x_max)%Z -> (1 <= tiles_y_min <= tiles_y_max)%Z ->
     let m := _calculate_production_metrics tiles_x_min tiles_y_min
                tiles_x_max tiles_y_max volumen tiros_minimos in
     (1 <= Metrics.tiros_con_max m <= Metrics.tiros_con_min m)%Z).
Proof.
  assert (Hmono : forall p p', (0 < p <= p')%Z ->
            (tiros_con volumen p' <= tiros_con volumen p)%Z).
  { intros p p' Hp. unfold tiros_con.
    replace (p >? 0)%Z with true by (symmetry; apply Z.gtb_lt; lia).
    replace (p' >? 0)%Z with true by (symmetry; apply Z.gtb_lt; lia).
    pose proof (is_ceil_div volumen p ltac:(lia)) as Hc.
    pose proof (is_ceil_div volumen p' ltac:(lia)) as Hc'.
    unfold is_ceil in *.
    destruct (Z_le_gt_dec (- (- volumen / p')) (- (- volumen / p))) as [Hle|Hgt];
      [lia|].
    destruct (Z_le_gt_dec (- (- volumen / p')) 1); [lia|]. nia. }
  split; [|split; [|split]].
  - intros Hp. unfold tiros_con.
    destruct (Z.gtb_spec planos 0); [lia | reflexivity].
  - intros Hp. unfold tiros_con.
    replace (planos >? 0)%Z with true by (symmetry; apply Z.gtb_lt; lia).
    pose proof (is_ceil_div volumen planos Hp) as Hc. unfold is_ceil in Hc.
    split; [lia|]. split; [nia|]. intros Hgt. nia.
  - intros planos' Hp. now apply Hmono.
  - intros txm tym txM tyM tmin Hx Hy m. subst m.
    cbn [Metrics.tiros_con_max Metrics.tiros_con_min _calculate_production_metrics].
    split.
    + unfold tiros_con.
      replace (txM * tyM >? 0)%Z with true by (symmetry; apply Z.gtb_lt; nia). lia.
    + apply Hmono. nia.
Qed.

Lemma tiros_con_covers_volume_witness :
  (1 <= tiros_con 1000 6)%Z /\ (1000 <= tiros_con 1000 6 * 6)%Z /\
  (tiros_con 1000 12 <= tiros_con 1000 6)%Z.
Proof.
  destruct (tiros_con_covers_volume 1000 6) as (_ & Hpos & Hmono & _).
  destruct (Hpos ltac:(lia)) as (H1 & Hcover & _).
  split; [exact H1|]. split; [exact Hcover|]. apply Hmono. lia.
Defined.

(** X17.  [_compute_tiros] returns 0 for a sheet without tiles and
    otherwise the least number of shots that is not negative, reaches the
    minimum shots and prints the volume; a negative volume counts as no
    volume. *)
Theorem compute_tiros_is_least (get_volumen get_tiros_minimos planilla : Z) :
  ((planilla <= 0)%Z ->
   _compute_tiros get_volumen get_tiros_minimos planilla = 0%Z) /\
  ((0 < planilla)%Z ->
   let tiros := _compute_tiros get_volumen get_tiros_minimos planilla in
   (0 <= tiros)%Z /\
   (get_tiros_minimos <= tiros)%Z /\
   (get_volumen <= tiros * planilla)%Z /\
   (forall t, (0 <= t)%Z -> (get_tiros_minimos <= t)%Z ->
              (get_volumen <= t * planilla)%Z -> (tiros <= t)%Z)).
Proof.
  unfold _compute_tiros. split.
  - intros Hp. now replace (planilla <=? 0)%Z with true by (symmetry; lia).
  - intros Hp. replace (planilla <=? 0)%Z with false by (symmetry; lia).
    cbn zeta.
    pose proof (is_ceil_div (Z.max 0 get_volumen) planilla Hp) as Hc.
    unfold is_ceil in Hc.
    destruct (Z.gtb_spec (Z.max 0 get_volumen) 0) as [Hv|Hv].
    + split; [nia|]. split; [lia|]. split; [nia|].
      intros t Ht Hmin Hcover.
      destruct (Z_le_gt_dec (- (- Z.max 0 get_volumen / planilla)) t); [lia|]. nia.
    + split; [lia|]. split; [lia|]. split; [nia|].
      intros t Ht Hmin Hcover. lia.
Qed.

Lemma compute_tiros_is_least_witness :
  _compute_tiros 1000 50 0 = 0%Z.
Proof.
  apply (compute_tiros_is_least 1000 50 0). lia.
Defined.

(** ** The bed-limit check *)

Section BedLimits.
Context `{TabEngine}.
Variable self : TileTab.t.

(** The check against four limits that are passed. *)
Lemma ensure_explicit_cases (medida_x medida_y x_min x_max y_min y_max : Q) :
  (within_limits x_min x_max y_min y_max medida_x medida_y /\
   _ensure_layout_within_limits self medida_x medida_y
     (Some x_min) (Some x_max) (Some y_min) (Some y_max) = Ok tt) \/
  (~ within_limits x_min x_max y_min y_max medida_x medida_y /\
   exists msg,
     _ensure_layout_within_limits self medida_x medida_y
       (Some x_min) (Some x_max) (Some y_min) (Some y_max)
     = Raise (ValueError msg)).
Proof.
  unfold _ensure_layout_within_limits, within_limits. cbv iota.
  cbn [mbind result_bind].
  destruct (Qltb medida_x (x_min - (1 # 1000000))) eqn:E1.
  { apply Qltb_lt in E1. right. split; [lra | cbn [orb]; eauto]. }
  destruct (Qltb (x_max + (1 # 1000000)) medida_x) eqn:E2.
  { apply Qltb_lt in E2. right. split; [lra | cbn [orb]; eauto]. }
  destruct (Qltb medida_y (y_min - (1 # 1000000))) eqn:E3.
  { apply Qltb_lt in E3. right. split; [lra | cbn [orb]; eauto]. }
  destruct (Qltb (y_max + (1 # 1000000)) medida_y) eqn:E4.
  { apply Qltb_lt in E4. right. split; [lra | cbn [orb]; eauto]. }
  apply Qltb_ge in E1, E2, E3, E4. left. cbn [orb]. repeat split; assumption.
Qed.

(** With a limit missing the four limits passed play no part. *)
Lemma ensure_missing_limit (medida_x medida_y : Q) (x_min x_max y_min y_max : option Q) :
  x_min = None \/ x_max = None \/ y_min = None \/ y_max = None ->
  _ensure_layout_within_limits self medida_x medida_y x_min x_max y_min y_max
  = _ensure_layout_within_limits self medida_x medida_y None None None None.
Proof.
  unfold _ensure_layout_within_limits.
  destruct x_min, x_max, y_min, y_max; intros [E | [E | [E | E]]];
    try discriminate; reflexivity.
Qed.

(** X18.  [_ensure_layout_within_limits] in its two modes.  When the four
    limits are passed, it accepts a pair of measures exactly when both
    lie within the limits passed, up to a tolerance of one millionth: the
    spin boxes are not read and the limits are not checked to be well
    formed.  When one of the limits is missing, all four are read from the
    spin boxes: it then accepts exactly when the spin-box limits are well
    formed (each minimum strictly below its maximum) and both measures lie
    within them, up to the same tolerance, and it raises what
    [_read_bed_limits] raises.  In both modes whatever it raises is a
    [ValueError].  [_read_bed_limits] returns the four limits exactly when
    they are well formed. *)
Theorem ensure_layout_within_limits_region
    (medida_x medida_y : Q) (x_min x_max y_min y_max : option Q) :
  (forall a b c d,
     (x_min, x_max, y_min, y_max) = (Some a, Some b, Some c, Some d) ->
     (_ensure_layout_within_limits self medida_x medida_y x_min x_max y_min y_max
        = Ok tt <->
      within_limits a b c d medida_x medida_y)) /\
  (x_min = None \/ x_max = None \/ y_min = None \/ y_max = None ->
   (_ensure_layout_within_limits self medida_x medida_y x_min x_max y_min y_max
      = Ok tt <->
    fits_bed self medida_x medida_y) /\
   (forall e, _read_bed_limits self = Raise e ->
      _ensure_layout_within_limits self medida_x medida_y x_min x_max y_min y_max
        = Raise e)) /\
  (forall e,
     _ensure_layout_within_limits self medida_x medida_y x_min x_max y_min y_max
       = Raise e ->
     is_ValueError e = true) /\
  (_read_bed_limits self
     = Ok (TileTab.sb_xmin self, TileTab.sb_xmax self,
           TileTab.sb_ymin self, TileTab.sb_ymax self) <->
   TileTab.sb_xmin self < TileTab.sb_xmax self /\
   TileTab.sb_ymin self < TileTab.sb_ymax self).
Proof.
  split; [|split; [|split]].
  - intros a b c d [= -> -> -> ->].
    destruct (ensure_explicit_cases medida_x medida_y a b c d)
      as [[Hin ->] | [Hout (msg & ->)]].
    + now split.
    + split; [discriminate | contradiction].
  - intros Hmissing. rewrite (ensure_missing_limit _ _ _ _ _ _ Hmissing). split.
    + destruct (ensure_cases self medida_x medida_y)
        as [[Hfit ->] | [Hno (msg & ->)]].
      * now split.
      * split; [discriminate | contradiction].
    + intros e He. unfold _ensure_layout_within_limits. cbv iota.
      now rewrite He.
  - intros e.
    destruct x_min as [a|], x_max as [b|], y_min as [c|], y_max as [d|];
      try (try rewrite (ensure_missing_limit medida_x medida_y _ _ _ _) by tauto;
           destruct (ensure_cases self medida_x medida_y)
             as [[Hfit ->] | [Hno (msg & ->)]];
           [intros [=] | now intros [= <-]]).
    destruct (ensure_explicit_cases medida_x medida_y a b c d)
      as [[Hin ->] | [Hout (msg & ->)]]; [intros [=] | now intros [= <-]].
  - unfold _read_bed_limits.
    destruct (Qle_bool (TileTab.sb_xmax self) (TileTab.sb_xmin self)) eqn:Ex.
    { apply Qle_bool_iff in Ex. split; [discriminate | lra]. }
    destruct (Qle_bool (TileTab.sb_ymax self) (TileTab.sb_ymin self)) eqn:Ey.
    { apply Qle_bool_iff in Ey. split; [discriminate | lra]. }
    split; [intros _ | reflexivity]. split.
    + apply Qnot_le_lt. intros Hle. apply Qle_bool_iff in Hle. congruence.
    + apply Qnot_le_lt. intros Hle. apply Qle_bool_iff in Hle. congruence.
Qed.
End BedLimits.

Lemma ensure_layout_within_limits_region_witness :
  _ensure_layout_within_limits (sample_tab 10 50 10 70) (50 + (1 # 2000000)) 30
    None None None None = Ok tt /\
  _ensure_layout_within_limits (sample_tab 50 10 70 10) 30 30
    (Some 10) (Some 50) (Some 10) (Some 70) = Ok tt /\
  exists msg,
    _ensure_layout_within_limits (sample_tab 50 10 70 10) 30 30
      (Some 10) None (Some 10) (Some 70) = Raise (ValueError msg).
Proof.
  split; [|split].
  - destruct (ensure_layout_within_limits_region (sample_tab 10 50 10 70)
                (50 + (1 # 2000000)) 30 None None None None) as (_ & Hread & _).
    destruct (Hread ltac:(now left)) as [Hiff _].
    apply Hiff. unfold fits_bed. cbn. repeat split; lra.
  - destruct (ensure_layout_within_limits_region (sample_tab 50 10 70 10)
                30 30 (Some 10) (Some 50) (Some 10) (Some 70)) as (Hpassed & _).
    apply (Hpassed 10 50 10 70 eq_refl). unfold within_limits. repeat split; lra.
  - destruct (ensure_layout_within_limits_region (sample_tab 50 10 70 10)
                30 30 (Some 10) None (Some 10) (Some 70)) as (_ & Hread & _).
    destruct (Hread ltac:(right; now left)) as [_ Hraise].
    eexists. apply Hraise. reflexivity.
Defined.

(** ** The layout that is returned *)

Section LayoutResult.
Context `{TabEngine}.
Variable self : TileTab.t.
Variables (objective : string) (medianil_x medianil_y : Q).

Lemma create_layout_result_ok (tiles_x tiles_y : Z) (tipo : string)
    (razon : Razon) (volumen tiros_minimos : Z) (layout : Layout.t) :
  _create_layout_result self tiles_x tiles_y medianil_x medianil_y objective
    tipo razon volumen tiros_minimos = Ok layout ->
  (Layout.tiles_x layout, Layout.tiles_y layout, Layout.total_tiles layout)
    = (tiles_x, tiles_y, (tiles_x * tiles_y)%Z) /\
  (tiles_x * tiles_y <> 0)%Z /\
  grid_measures self objective medianil_x medianil_y (tiles_x, tiles_y)
    (Layout.ancho layout) (Layout.alto layout) /\
  fits_bed self (Layout.ancho layout) (Layout.alto layout) /\
  Layout.area layout = Layout.ancho layout * Layout.alto layout /\
  Layout.tiros_necesarios layout
    = Z.max 1 (- ((- volumen) / (tiles_x * tiles_y)))%Z /\
  (Layout.objective layout, Layout.planilla_tipo layout, Layout.razon layout)
    = (objective, tipo, razon).
Proof.
  unfold _create_layout_result.
  destruct (engine_global_bbox tiles_x tiles_y medianil_x medianil_y objective)
    as [bbox|e] eqn:Hb; [|discriminate].
  cbn [mbind result_bind _apply_margins_to_dims].
  set (w := bbox_width bbox
            + (TileTab.sb_sangria_izquierda self + TileTab.sb_sangria_derecha self)).
  set (h := bbox_height bbox
            + (TileTab.sb_pinza self + TileTab.sb_contra_pinza self)).
  destruct (ensure_cases self w h) as [[Hfit ->] | [Hno (msg & ->)]];
    [|discriminate].
  cbn [mbind result_bind]. unfold ceil_div.
  destruct (Z.eqb_spec (tiles_x * tiles_y) 0) as [Hz|Hz]; [discriminate|].
  cbn [mbind result_bind]. intros [= <-].
  cbn [Layout.tiles_x Layout.tiles_y Layout.total_tiles Layout.ancho Layout.alto
       Layout.area Layout.tiros_necesarios Layout.objective Layout.planilla_tipo
       Layout.razon].
  split; [reflexivity|]. split; [exact Hz|].
  split; [exists bbox; now repeat split|].
  split; [exact Hfit|]. now repeat split.
Qed.

(** X19.  Every layout [_create_layout_result] returns: echoes the grid
    and counts [tiles_x * tiles_y] tiles, a number that is not zero; its
    measures are those of the box of the grid plus the margins, lie
    within the bed limits and multiply to its area; and for a grid of at
    least one tile its shots are at least one, print the volume, and are
    the fewest that do when more than one.  The argument
    [tiros_minimos] has no influence on the result. *)
Theorem create_layout_result_sound (tiles_x tiles_y : Z) (tipo : string)
    (razon : Razon) (volumen tiros_minimos : Z) (layout : Layout.t) :
  _create_layout_result self tiles_x tiles_y medianil_x medianil_y objective
    tipo razon volumen tiros_minimos = Ok layout ->
  (Layout.tiles_x layout, Layout.tiles_y layout, Layout.total_tiles layout)
    = (tiles_x, tiles_y, (tiles_x * tiles_y)%Z) /\
  (Layout.total_tiles layout <> 0)%Z /\
  grid_measures self objective medianil_x medianil_y (tiles_x, tiles_y)
    (Layout.ancho layout) (Layout.alto layout) /\
  fits_bed self (Layout.ancho layout) (Layout.alto layout) /\
  Layout.area layout = Layout.ancho layout * Layout.alto layout /\
  (1 <= Layout.tiros_necesarios layout)%Z /\
  ((0 < Layout.total_tiles layout)%Z ->
   (volumen <= Layout.tiros_necesarios layout * Layout.total_tiles layout)%Z /\
   ((1 < Layout.tiros_necesarios layout)%Z ->
    ((Layout.tiros_necesarios layout - 1) * Layout.total_tiles layout < volumen)%Z)) /\
  (forall tiros_minimos',
     _create_layout_result self tiles_x tiles_y medianil_x medianil_y objective
       tipo razon volumen tiros_minimos' = Ok layout).
Proof.
  intros Hcall.
  destruct (create_layout_result_ok _ _ _ _ _ _ _ Hcall)
    as (Hecho & Hz & Hm & Hfit & Harea & Htiros & _).
  injection Hecho as Hx Hy Htotal.
  split; [now rewrite Hx, Hy, Htotal|]. split; [now rewrite Htotal|].
  split; [exact Hm|]. split; [exact Hfit|]. split; [exact Harea|].
  rewrite Htiros, Htotal. split; [lia|]. split.
  - intros Hpos.
    pose proof (is_ceil_div volumen (tiles_x * tiles_y) Hpos) as Hc.
    unfold is_ceil in Hc. split; [nia|]. intros Hgt. nia.
  - intros tiros_minimos'. exact Hcall.
Qed.
End LayoutResult.

Lemma create_layout_result_sound_witness :
  exists layout,
    @_create_layout_result linear_engine (sample_tab 10 50 10 70)
      3 4 0 0 "width" "minima" (RazonMinimo 1 1) 100 7 = Ok layout /\
    (1 <= Layout.tiros_necesarios layout)%Z /\
    Layout.area layout = Layout.ancho layout * Layout.alto layout.
Proof.
  destruct (@_create_layout_result linear_engine (sample_tab 10 50 10 70)
              3 4 0 0 "width" "minima" (RazonMinimo 1 1) 100 7)
    as [layout|e] eqn:Hcall; [|vm_compute in Hcall; discriminate].
  destruct (@create_layout_result_sound linear_engine (sample_tab 10 50 10 70)
              "width" 0 0 3 4 "minima" (RazonMinimo 1 1) 100 7 layout Hcall)
    as (_ & _ & _ & _ & Harea & Htiros & _).
  exists layout. split; [reflexivity|]. split; [exact Htiros | exact Harea].
Defined.

(** ** The values of the layout bounds *)



Section BoundsValues.
Context `{TabEngine}.
Variable self : TileTab.t.
Variables (objective : string) (medianil_x medianil_y : Q).










End BoundsValues.


(** ** The layout computed for an objective *)

Section ObjectiveLayout.
Context `{TabEngine}.
Variable self : TileTab.t.
Variables (objective : string) (medianil_x medianil_y : Q).



End ObjectiveLayout.

